(** * atlas_v7: the decision core, embedded and verified

  Shallow embedding of the quantitative decision pipeline of atlas_v7
  ([core/logic], [core/execution], [database/sqlite_store.py]).

  Numeric conventions used throughout:
  - Python [int] is [Z];
  - Python [float] is modelled by exact rationals [Q] in the engines:
    rounding error, overflow and signed zeros are not represented
    there.  Where the code can divide by zero on a whole column (the
    indicator pipeline) the cells are rationals extended with [+inf],
    [-inf] and [NaN].  The loss limit of the safety guard, which is
    compared with a ledger sum at its boundary, is computed in IEEE 754
    binary64 as Python does;
  - Python exceptions are an explicit error result. *)

From Stdlib Require Import ZArith QArith Qabs Qminmax Qround Qpower Lqa Lia.
From Stdlib Require Import List String Ascii Bool.
From Stdlib Require Import Floats.SpecFloat.
From stdpp Require Import base option strings gmap pretty.
Import ListNotations.

Local Open Scope Z_scope.
Local Open Scope string_scope.

(* ================================================================== *)
(** * Part I: the embedding *)
(* ================================================================== *)

(** ** Python primitives shared by the engines *)
Module Py.

(** Exception classes.  [KeyError], [IndexError], [ZeroDivisionError],
    [ValueError] and pytz's [UnknownTimeZoneError] are the ones the code
    can raise; [DataError] and [ConfigError] are named by the
    specification only: no statement of the repository raises them. *)
Inductive exn : Type :=
| KeyError (key : string)
| IndexError
| ZeroDivisionError
| ValueError (msg : string)
| UnknownTimeZoneError (zone : string)
| DataError
| ConfigError.

Inductive result (A : Type) : Type :=
| Ok (a : A)
| Raise (e : exn).
Arguments Ok {A} a.
Arguments Raise {A} e.

Definition bind {A B} (m : result A) (k : A -> result B) : result B :=
  match m with
  | Ok a => k a
  | Raise e => Raise e
  end.

Definition is_ok {A} (m : result A) : bool :=
  match m with Ok _ => true | Raise _ => false end.

(** [int(x)] on a float: truncation toward zero. *)
Definition int (x : Q) : Z := Z.quot (Qnum x) (Zpos (Qden x)).

(** Comparisons as the operators [<], [<=], [>], [>=]. *)
Definition ltb (x y : Q) : bool := negb (Qle_bool y x).
Definition leb (x y : Q) : bool := Qle_bool x y.
Definition gtb (x y : Q) : bool := ltb y x.
Definition geb (x y : Q) : bool := leb y x.

(** The two-argument builtins [max(a, b)] and [min(a, b)]: the first
    argument is kept unless the second is strictly better. *)
Definition max (a b : Q) : Q := if gtb b a then b else a.
Definition min (a b : Q) : Q := if ltb b a then b else a.

(** Rounding to the nearest integer, ties to even, as [round] and the
    [f] format do. *)
Definition round_half_even (x : Q) : Z :=
  let f := Qfloor x in
  let r := (x - inject_Z f)%Q in
  if ltb r (1 # 2) then f
  else if gtb r (1 # 2) then f + 1
  else if Z.even f then f else f + 1.

(** [x in s] on strings: substring test. *)
Fixpoint contains (needle hay : string) : bool :=
  if String.prefix needle hay then true
  else match hay with
       | EmptyString => false
       | String _ rest => contains needle rest
       end.

(** [dict[key]]. *)
Definition getitem {V} (d : gmap string V) (key : string) : result V :=
  match d !! key with
  | Some v => Ok v
  | None => Raise (KeyError key)
  end.

(** [seq[-k]] for [k >= 1] on a sequence (pandas [.iloc[-k]]). *)
Definition iloc_neg {A} (l : list A) (k : nat) : result A :=
  match nth_error (rev l) (Nat.pred k) with
  | Some a => Ok a
  | None => Raise IndexError
  end.

(** [s.upper()], on ASCII letters; other bytes are left as they are. *)
Definition upper_char (c : ascii) : ascii :=
  let n := nat_of_ascii c in
  if (97 <=? n)%nat && (n <=? 122)%nat then ascii_of_nat (n - 32) else c.

Fixpoint upper (s : string) : string :=
  match s with
  | EmptyString => EmptyString
  | String c rest => String (upper_char c) (upper rest)
  end.

(** [s.split(sep)] for a one-character separator. *)
Fixpoint split (sep : ascii) (s : string) : list string :=
  match s with
  | EmptyString => [EmptyString]
  | String c rest =>
      if Ascii.eqb c sep then EmptyString :: split sep rest
      else match split sep rest with
           | h :: t => String c h :: t
           | [] => [String c EmptyString]
           end
  end.

Definition is_space (c : ascii) : bool :=
  let n := nat_of_ascii c in
  (n =? 32)%nat || ((9 <=? n)%nat && (n <=? 13)%nat).

Definition is_digit (c : ascii) : bool :=
  let n := nat_of_ascii c in (48 <=? n)%nat && (n <=? 57)%nat.

Definition digit_val (c : ascii) : Z := Z.of_nat (nat_of_ascii c - 48).

Fixpoint lstrip (l : list ascii) : list ascii :=
  match l with
  | c :: rest => if is_space c then lstrip rest else l
  | [] => []
  end.

Definition strip (l : list ascii) : list ascii :=
  rev (lstrip (rev (lstrip l))).

(** Decimal digits, single underscores allowed between two digits. *)
Fixpoint digits (acc : Z) (after_digit : bool) (l : list ascii) : option Z :=
  match l with
  | [] => if after_digit then Some acc else None
  | c :: rest =>
      if is_digit c then digits (10 * acc + digit_val c) true rest
      else if Ascii.eqb c "_" && after_digit then
        match rest with
        | d :: _ => if is_digit d then digits acc false rest else None
        | [] => None
        end
      else None
  end.

(** [int(s)] on an ASCII string: blanks stripped, optional sign,
    decimal digits. *)
Definition int_of_str (s : string) : result Z :=
  let l := strip (list_ascii_of_string s) in
  let '(neg, l) :=
    match l with
    | c :: rest =>
        if Ascii.eqb c "-" then (true, rest)
        else if Ascii.eqb c "+" then (false, rest)
        else (false, l)
    | [] => (false, l)
    end in
  match digits 0 false l with
  | Some n => Ok (if neg then - n else n)
  | None => Raise (ValueError "invalid literal for int() with base 10")
  end.

(** The format [{x:.2f}]: sign, integer part, two decimals, the value
    rounded half to even on its second decimal. *)
Definition format_2f (x : Q) : string :=
  let n := Z.to_N (round_half_even (Qabs x * 100)) in
  let frac := (n mod 100)%N in
  (if ltb x 0 then "-" else "")
  ++ pretty (n / 100)%N ++ "."
  ++ (if (frac <? 10)%N then "0" else "") ++ pretty frac.

End Py.

(** [x ← m; k] is stdpp's bind notation, here on [Py.result]. *)
#[global] Instance result_ret : MRet Py.result := @Py.Ok.
#[global] Instance result_bind : MBind Py.result :=
fun A B k m => Py.bind m k.

(** Every engine module defines the same three-argument helper. *)
Definition clamp (x lo hi : Q) : Q := Py.max lo (Py.min hi x).

(* ------------------------------------------------------------------ *)
(** ** Floats with their special values

    Cells of a pandas column and results of numpy reductions: a rational,
    an infinity, or NaN.  Zero is unsigned, so [x / 0] takes the sign of
    [x]. *)
Module Fl.

Inductive t : Type :=
| Fin (q : Q)
| PInf
| NInf
| NaN.

Definition is_nan (x : t) : bool :=
  match x with NaN => true | _ => false end.

Definition neg (x : t) : t :=
  match x with
  | Fin q => Fin (- q)
  | PInf => NInf
  | NInf => PInf
  | NaN => NaN
  end.

Definition add (x y : t) : t :=
  match x, y with
  | NaN, _ | _, NaN => NaN
  | PInf, NInf | NInf, PInf => NaN
  | PInf, _ | _, PInf => PInf
  | NInf, _ | _, NInf => NInf
  | Fin a, Fin b => Fin (a + b)
  end.

Definition sub (x y : t) : t := add x (neg y).

(** An infinity of the sign of [q] for [q <> 0]; NaN for [q = 0]. *)
Definition inf_times (positive : bool) (q : Q) : t :=
  match (0 ?= q)%Q with
  | Eq => NaN
  | Lt => if positive then PInf else NInf
  | Gt => if positive then NInf else PInf
  end.

Definition mul (x y : t) : t :=
  match x, y with
  | NaN, _ | _, NaN => NaN
  | Fin a, Fin b => Fin (a * b)
  | PInf, PInf | NInf, NInf => PInf
  | PInf, NInf | NInf, PInf => NInf
  | PInf, Fin q | Fin q, PInf => inf_times true q
  | NInf, Fin q | Fin q, NInf => inf_times false q
  end.

Definition div (x y : t) : t :=
  match x, y with
  | NaN, _ | _, NaN => NaN
  | Fin a, Fin b =>
      if Qeq_bool b 0 then inf_times true a else Fin (a / b)
  | Fin _, PInf | Fin _, NInf => Fin 0
  | PInf, Fin b => if Py.ltb b 0 then NInf else PInf
  | NInf, Fin b => if Py.ltb b 0 then PInf else NInf
  | _, _ => NaN
  end.

Definition abs (x : t) : t :=
  match x with
  | Fin q => Fin (Qabs q)
  | PInf | NInf => PInf
  | NaN => NaN
  end.

(** [x < y] and [x <= y]; false as soon as one side is NaN. *)
Definition ltb (x y : t) : bool :=
  match x, y with
  | NaN, _ | _, NaN => false
  | Fin a, Fin b => Py.ltb a b
  | NInf, NInf | PInf, _ => false
  | NInf, _ | _, PInf => true
  | Fin _, NInf => false
  end.

Definition leb (x y : t) : bool :=
  match x, y with
  | NaN, _ | _, NaN => false
  | Fin a, Fin b => Py.leb a b
  | NInf, _ | _, PInf => true
  | _, _ => false
  end.

(** [np.maximum] on two numbers. *)
Definition max (x y : t) : t := if ltb x y then y else x.

(** [x <= 0], as a proposition. *)
Definition nonpos (x : t) : Prop :=
  match x with
  | Fin q => (q <= 0)%Q
  | NInf => True
  | PInf | NaN => False
  end.

(** [0 < x], as a proposition. *)
Definition positive (x : t) : Prop :=
  match x with
  | Fin q => (0 < q)%Q
  | PInf => True
  | NInf | NaN => False
  end.

End Fl.

(* ------------------------------------------------------------------ *)
(** ** Python floats as IEEE 754 binary64

    The operations are those of the standard library's specification of
    binary64 ([SpecFloat]), rounding to nearest, ties to even. *)
Module F64.

Definition prec : Z := 53.
Definition emax : Z := 1024.

Definition t : Type := spec_float.

(** [float(n)]; exact for [|n| <= 2^53]. *)
Definition of_Z (n : Z) : t := binary_normalize prec emax n 0 false.

Definition mul (x y : t) : t := SFmul prec emax x y.

(** [x / y] for a divisor other than zero. *)
Definition div (x y : t) : t := SFdiv prec emax x y.

Definition neg (x : t) : t := SFopp x.

(** [|x|] for a finite [x] other than zero. *)
Definition magnitude (m : positive) (e : Z) : Q := (inject_Z (Zpos m) * 2 ^ e)%Q.

(** The number a float stands for; the sign of a zero is dropped. *)
Definition value (x : t) : Fl.t :=
  match x with
  | S754_zero _ => Fl.Fin 0
  | S754_infinity s => if s then Fl.NInf else Fl.PInf
  | S754_nan => Fl.NaN
  | S754_finite s m e => Fl.Fin (if s then - magnitude m e else magnitude m e)
  end.

(** The format [{x:.2f}] on a float: the sign bit shows even on a zero. *)
Definition format_2f (x : t) : string :=
  match x with
  | S754_nan => "nan"
  | S754_infinity s => if s then "-inf" else "inf"
  | S754_zero s => (if s then "-" else "") ++ "0.00"
  | S754_finite s m e =>
      (if s then "-" else "") ++ Py.format_2f (magnitude m e)
  end.

End F64.

(* ------------------------------------------------------------------ *)
(** ** core/logic/costs.py *)
Module CostEngine.

Record Cost : Type := mkCost {
  total_bps : Z;
  blocked : bool;
  max_block : Z;
  break_even_pct : Q
}.

Definition compute (spread_bps slippage_bps fee_bps max_block_bps : Z) : Cost :=
  let total := spread_bps + slippage_bps + fee_bps in
  let blocked := total >=? max_block_bps in
  {| total_bps := total;
     blocked := blocked;
     max_block := max_block_bps;
     break_even_pct := inject_Z total / 10000 |}.

End CostEngine.

(* ------------------------------------------------------------------ *)
(** ** core/logic/indicators.py *)
Module IndicatorEngine.

(** The numeric routines [calculate] borrows from numpy, pandas and
    scipy.  They are arguments of the model: what is proved holds
    whatever they compute.  A window aggregation receives the cells of
    one complete window. *)
Record NumLib : Type := mkNumLib {
  np_log : Fl.t -> Fl.t;
  sqrt_trading_days : Fl.t;
  mean : list Fl.t -> Fl.t;
  std : list Fl.t -> Fl.t;
  skew : list Fl.t -> Fl.t;
  kurtosis : list Fl.t -> Fl.t;
  quantile05 : list Fl.t -> Fl.t
}.

(** A frame: a row count and named columns.  A column shorter than the
    frame reads NaN beyond its end, as an unaligned pandas series does. *)
Record DataFrame : Type := mkDataFrame {
  nrows : nat;
  columns : gmap string (list Fl.t)
}.

Definition cell (c : list Fl.t) (i : nat) : Fl.t := nth i c Fl.NaN.

Definition series (n : nat) (c : list Fl.t) : list Fl.t := map (cell c) (seq 0 n).

(** [d[name]]. *)
Definition getitem (d : DataFrame) (name : string) : Py.result (list Fl.t) :=
  match columns d !! name with
  | Some c => Py.Ok (series (nrows d) c)
  | None => Py.Raise (Py.KeyError name)
  end.

(** [d[name] = col]. *)
Definition setitem (d : DataFrame) (name : string) (col : list Fl.t) : DataFrame :=
  {| nrows := nrows d; columns := <[name := col]> (columns d) |}.

(** A run of assignments, first to last. *)
Definition assign_all (d : DataFrame) (cols : list (string * list Fl.t)) : DataFrame :=
  fold_left (fun acc kc => setitem acc (fst kc) (snd kc)) cols d.

(** [s.shift(1)]. *)
Definition shift1 (xs : list Fl.t) : list Fl.t :=
  match xs with
  | [] => []
  | _ => Fl.NaN :: removelast xs
  end.

(** [s.pct_change()]: [s / s.shift(1) - 1], without forward fill (the
    router drops the bars that have no close before the frame reaches
    [calculate]). *)
Definition pct_change (xs : list Fl.t) : list Fl.t :=
  zip_with (fun x prev => Fl.sub (Fl.div x prev) (Fl.Fin 1)) xs (shift1 xs).

(** [s.diff()]. *)
Definition diff (xs : list Fl.t) : list Fl.t := zip_with Fl.sub xs (shift1 xs).

Definition not_nan (x : Fl.t) : bool := negb (Fl.is_nan x).

(** [s.dropna()] on a series. *)
Definition dropna_series (xs : list Fl.t) : list Fl.t := List.filter not_nan xs.

(** The [n] cells ending at index [i]. *)
Definition window (n i : nat) (xs : list Fl.t) : list Fl.t :=
  firstn n (skipn (i + 1 - n) xs).

(** [s.rolling(n).agg()] with the default [min_periods = n]: a value only
    where the window is complete and holds no NaN. *)
Definition rolling (n : nat) (agg : list Fl.t -> Fl.t) (xs : list Fl.t) : list Fl.t :=
  map (fun i =>
         let w := window n i xs in
         if (n <=? i + 1)%nat && forallb not_nan w then agg w else Fl.NaN)
      (seq 0 (length xs)).

(** [s.clip(lower=0)] and [s.clip(upper=0)], cell by cell. *)
Definition clip_lower0 (x : Fl.t) : Fl.t := if Fl.ltb x (Fl.Fin 0) then Fl.Fin 0 else x.
Definition clip_upper0 (x : Fl.t) : Fl.t := if Fl.ltb (Fl.Fin 0) x then Fl.Fin 0 else x.

(** [max(axis=1)] over the cells of one row: NaN cells are skipped. *)
Definition row_max (xs : list Fl.t) : Fl.t :=
  match dropna_series xs with
  | [] => Fl.NaN
  | x :: rest => fold_left Fl.max rest x
  end.

(** Three columns side by side, combined row by row. *)
Definition zip_with3 {A} (f : Fl.t -> Fl.t -> Fl.t -> A) (a b c : list Fl.t) : list A :=
  zip_with (fun ab z => f (fst ab) (snd ab) z) (zip a b) c.

(** [s.fillna(0)], cell by cell. *)
Definition fillna0 (x : Fl.t) : Fl.t := if Fl.is_nan x then Fl.Fin 0 else x.

(** [s.cumprod()]: NaN cells are passed over and stay NaN. *)
Fixpoint cumprod_from (acc : option Fl.t) (xs : list Fl.t) : list Fl.t :=
  match xs with
  | [] => []
  | x :: rest =>
      if Fl.is_nan x then Fl.NaN :: cumprod_from acc rest
      else
        let a := match acc with Some a => Fl.mul a x | None => x end in
        a :: cumprod_from (Some a) rest
  end.

Definition cumprod (xs : list Fl.t) : list Fl.t := cumprod_from None xs.

(** [s.cummax()]: NaN cells are passed over and stay NaN. *)
Fixpoint cummax_from (acc : Fl.t) (xs : list Fl.t) : list Fl.t :=
  match xs with
  | [] => []
  | x :: rest =>
      if Fl.is_nan x then Fl.NaN :: cummax_from acc rest
      else
        let a := Fl.max acc x in
        a :: cummax_from a rest
  end.

Definition cummax (xs : list Fl.t) : list Fl.t := cummax_from Fl.NInf xs.

(** The local functions [_var95] and [_cvar95]. *)
Definition _var95 (lib : NumLib) (x : list Fl.t) : Fl.t :=
  let x := dropna_series x in
  if (length x <? 10)%nat then Fl.NaN else quantile05 lib x.

Definition _cvar95 (lib : NumLib) (x : list Fl.t) : Fl.t :=
  let x := dropna_series x in
  if (length x <? 10)%nat then Fl.NaN
  else
    let var := quantile05 lib x in
    let tail := List.filter (fun v => Fl.leb v var) x in
    if (0 <? length tail)%nat then mean lib tail else Fl.NaN.

Definition eps : Fl.t := Fl.Fin (1 # 1000000000).

(** Assignments from [d["ret"]] to [d["RSI14"]]. *)
Definition price_block (lib : NumLib) (close : list Fl.t) : list (string * list Fl.t) :=
  let ret := pct_change close in
  let logret := map (np_log lib) (zip_with Fl.div close (shift1 close)) in
  let sma20 := rolling 20 (mean lib) close in
  let sma50 := rolling 50 (mean lib) close in
  let std20 := rolling 20 (std lib) close in
  let zscore :=
    zip_with Fl.div (zip_with Fl.sub close sma20) (map (fun x => Fl.add x eps) std20) in
  let delta := diff close in
  let gain := rolling 14 (mean lib) (map clip_lower0 delta) in
  let loss := rolling 14 (mean lib) (map (fun x => Fl.neg (clip_upper0 x)) delta) in
  let rs := zip_with Fl.div gain (map (fun x => Fl.add x eps) loss) in
  let rsi14 :=
    map (fun x => Fl.sub (Fl.Fin 100) (Fl.div (Fl.Fin 100) (Fl.add (Fl.Fin 1) x))) rs in
  [ ("ret", ret); ("logret", logret); ("SMA20", sma20); ("SMA50", sma50);
    ("STD20", std20); ("ZScore", zscore); ("RSI14", rsi14) ].

(** [d["Equity"]], [d["Peak"]] and [d["Drawdown"]] from [d["ret"]]. *)
Definition equity_of (ret : list Fl.t) : list Fl.t :=
  cumprod (map (fun r => Fl.add (Fl.Fin 1) (fillna0 r)) ret).

Definition drawdown_of (equity peak : list Fl.t) : list Fl.t :=
  zip_with Fl.div (zip_with Fl.sub equity peak) peak.

(** Assignments from [d["ATR14"]] to [d["CVaR95"]].  The columns read
    back from [d] ([ret], [logret], [Equity], [Peak]) are the values
    just assigned. *)
Definition range_block (lib : NumLib) (close high low : list Fl.t)
  : list (string * list Fl.t) :=
  let ret := pct_change close in
  let logret := map (np_log lib) (zip_with Fl.div close (shift1 close)) in
  let prev := shift1 close in
  let tr :=
    zip_with3 (fun a b c => row_max [a; b; c])
      (zip_with Fl.sub high low)
      (map Fl.abs (zip_with Fl.sub high prev))
      (map Fl.abs (zip_with Fl.sub low prev)) in
  let equity := equity_of ret in
  let peak := cummax equity in
  let volann :=
    map (fun x => Fl.mul (Fl.mul x (sqrt_trading_days lib)) (Fl.Fin 100))
        (rolling 20 (std lib) logret) in
  [ ("ATR14", rolling 14 (mean lib) tr);
    ("Equity", equity); ("Peak", peak); ("Drawdown", drawdown_of equity peak);
    ("VolAnn", volann);
    ("Skew60", rolling 60 (fun x => skew lib (dropna_series x)) ret);
    ("Kurt60", rolling 60 (fun x => kurtosis lib (dropna_series x)) ret);
    ("VaR95", rolling 60 (_var95 lib) ret);
    ("CVaR95", rolling 60 (_cvar95 lib) ret) ].

(** [d.dropna()]: the rows holding no NaN in any column. *)
Definition row_complete (cols : gmap string (list Fl.t)) (i : nat) : bool :=
  forallb (fun kc : string * list Fl.t => not_nan (cell (snd kc) i)) (map_to_list cols).

Definition dropna (d : DataFrame) : DataFrame :=
  let kept := List.filter (row_complete (columns d)) (seq 0 (nrows d)) in
  {| nrows := length kept;
     columns := (fun c => map (cell c) kept) <$> columns d |}.

Definition calculate (lib : NumLib) (df : DataFrame) : Py.result DataFrame :=
  let d := df in
  close ← getitem d "close_final";
  let d := assign_all d (price_block lib close) in
  high ← getitem d "high";
  low ← getitem d "low";
  let d := assign_all d (range_block lib close high low) in
  mret (dropna d).

(** *** Vocabulary for the properties of [calculate] *)

(** The column found under [name] after a run of assignments, [base]
    being what the frame held before. *)
Fixpoint assigned (cols : list (string * list Fl.t)) (name : string)
    (base : option (list Fl.t)) : option (list Fl.t) :=
  match cols with
  | [] => base
  | kc :: rest =>
      assigned rest name (if String.eqb (fst kc) name then Some (snd kc) else base)
  end.

(** An equity cell under its running peak: both undefined, or the
    equity at most the peak and the peak positive. *)
Definition under_peak (e p : Fl.t) : Prop :=
  (e = Fl.NaN /\ p = Fl.NaN) \/ (Fl.leb e p = true /\ Fl.positive p).

(** A drawdown cell: undefined or non-positive. *)
Definition nan_or_nonpos (x : Fl.t) : Prop := x = Fl.NaN \/ Fl.nonpos x.

End IndicatorEngine.

(* ------------------------------------------------------------------ *)
(** ** The indicator rows consumed by the regime and score engines

A row of the frame returned by [IndicatorEngine.calculate], restricted
to the columns its consumers read.  Rows reach the consumers after
[dropna], so every cell is a number.  [VaR95] and [CVaR95] are read
with [last.get(name, 0.0)] and may be absent from a hand-built row. *)
Record Row : Type := mkRow {
  close_final : Q;
  SMA20 : Q;
  SMA50 : Q;
  ZScore : Q;
  VolAnn : Q;
  Drawdown : Q;
  VaR95 : option Q;
  CVaR95 : option Q
}.

(** The frame [d] handed to the engines: its rows, oldest first. *)
Definition Frame : Type := list Row.

(** [1e-9]. *)
Definition eps9 : Q := 1 # 1000000000.

(** [(d["SMA20"].iloc[-1] - d["SMA20"].iloc[-6]) / (abs(d["SMA20"].iloc[-6]) + 1e-9)],
    written identically in [RegimeEngine.analyze] and in
    [ScoreEngine.trend_score]. *)
Definition sma20_slope (d : Frame) : Py.result Q :=
  a ← Py.iloc_neg (map SMA20 d) 1;
  b ← Py.iloc_neg (map SMA20 d) 6;
  mret ((a - b) / (Qabs b + eps9))%Q.

(* ------------------------------------------------------------------ *)
(** ** core/logic/regimes.py *)
Module RegimeEngine.

Record Regime : Type := mkRegime {
  label : string;
  z : Q;
  vol : Q;
  dd : Q;
  slope : Q;
  score : Z
}.

(** The four deductions of the operability score, in source order.
    Each is truncated by [int] before it is subtracted from the integer
    running score. *)
Definition operability (z vol dd : Q) (cost_bps : Z) : Z :=
  let score := 75 in
  let score := score - Py.int (Qabs z * 7) in
  let score := score - Py.int (Py.max 0 (vol - 25)) in
  let score := score - Py.int (Qabs dd * 120) in
  let score := score - Py.int (inject_Z cost_bps * (8 # 10)) in
  Py.int (clamp (inject_Z score) 0 100).

Definition analyze (d : Frame) (cost_bps : Z) : Py.result Regime :=
  last ← Py.iloc_neg d 1;
  let close := close_final last in
  let sma20 := SMA20 last in
  let sma50 := SMA50 last in
  let z := ZScore last in
  let vol := VolAnn last in
  let dd := Drawdown last in
  slope ← sma20_slope d;
  let up := Py.gtb sma20 sma50 && Py.gtb close sma20 && Py.gtb slope 0 in
  let dn := Py.ltb sma20 sma50 && Py.ltb close sma20 && Py.ltb slope 0 in
  let vol_hostil := Py.gtb vol 45 in
  let stress := Py.ltb dd (- (20 # 100)) in
  let label :=
    if stress then "STRESS"
    else if vol_hostil then "VOL"
    else if up then "UPTREND"
    else if dn then "DOWNTREND"
    else "TRANSITION" in
  let label :=
    if Py.geb (Qabs z) 2 && negb stress
    then label ++ (if Py.gtb z 0 then " EXT" else " DISC")
    else label in
  mret {| label := label; z := z; vol := vol; dd := dd; slope := slope;
          score := operability z vol dd cost_bps |}.

(** *** The operability score as the specification words it

    "start at 75; subtract [7|z|]; subtract [max(0, VolAnn - 25)];
    subtract [120|Drawdown|]; subtract [0.8 cost_bps]; truncate to
    integer after each subtraction; clamp to [0,100]": the running score
    itself is truncated after every subtraction. *)
Definition operability_as_specified (z vol dd : Q) (cost_bps : Z) : Z :=
  let score := 75 in
  let score := Py.int (inject_Z score - Qabs z * 7) in
  let score := Py.int (inject_Z score - Py.max 0 (vol - 25)) in
  let score := Py.int (inject_Z score - Qabs dd * 120) in
  let score := Py.int (inject_Z score - inject_Z cost_bps * (8 # 10)) in
  Z.max 0 (Z.min 100 score).

End RegimeEngine.

(* ------------------------------------------------------------------ *)
(** ** core/logic/scores.py *)
Module ScoreEngine.

Record Scores : Type := mkScores {
  final_score : Q;
  trend_score_r : Q;
  meanrev_score_r : Q;
  risk_score_r : Q
}.

(** [round(x, 1)]. *)
Definition round1 (x : Q) : Q := (inject_Z (Py.round_half_even (x * 10)) / 10)%Q.

(** [a / b] on Python floats. *)
Definition truediv (a b : Q) : Py.result Q :=
  if Qeq_bool b 0 then Py.Raise Py.ZeroDivisionError else Py.Ok (a / b)%Q.

Definition trend_score (last : Row) (d : Frame) : Py.result Q :=
  let close := close_final last in
  let sma20 := SMA20 last in
  let sma50 := SMA50 last in
  slope ← sma20_slope d;
  let base := 50 in
  let base := if Py.gtb sma20 sma50 && Py.gtb close sma20 then base + 25 else base in
  let base := if Py.ltb sma20 sma50 && Py.ltb close sma20 then base - 20 else base in
  let slope_score := clamp (50 + clamp (slope * 450) (-3) 3 * 15) 0 100 in
  mret (clamp (inject_Z base * (55 # 100) + slope_score * (45 # 100)) 0 100).

Definition meanrev_score (last : Row) : Q :=
  let z := ZScore last in
  clamp (50 + (- z * 18) - Py.max 0 (z - 1) * 12) 0 100.

Definition risk_score (last : Row) : Q :=
  let vol := VolAnn last in
  let dd := Drawdown last in
  let var95 := default 0%Q (VaR95 last) in
  let cvar95 := default 0%Q (CVaR95 last) in
  let v_pen := clamp ((vol - 20) * (19 # 10)) 0 80 in
  let dd_pen := clamp (Qabs dd * 180) 0 80 in
  let tail_pen := (clamp (Qabs cvar95 * 650) 0 80 + clamp (Qabs var95 * 500) 0 60)%Q in
  clamp (100 - (v_pen * (45 # 100) + dd_pen * (35 # 100) + tail_pen * (20 # 100))) 0 100.

Definition multi (d : Frame) (last : Row) (cost_bps : Z) (regime_label : string)
    (weights : gmap string Q) : Py.result Scores :=
  ts ← trend_score last d;
  let mr := meanrev_score last in
  let rk := risk_score last in
  w_trend ← Py.getitem weights "trend";
  w_meanrev ← Py.getitem weights "meanrev";
  w_risk ← Py.getitem weights "risk";
  let wsum := (w_trend + w_meanrev + w_risk)%Q in
  q_trend ← truediv w_trend wsum;
  q_meanrev ← truediv w_meanrev wsum;
  q_risk ← truediv w_risk wsum;
  let raw := (ts * q_trend + mr * q_meanrev + rk * q_risk)%Q in
  let p_cost := clamp (inject_Z cost_bps * (28 # 10)) 0 80 in
  let p_reg :=
    if Py.contains "STRESS" regime_label then 45%Q
    else if Py.contains "VOL" regime_label then 25%Q else 0%Q in
  let final := clamp (raw - (p_cost * (55 # 100) + p_reg * (45 # 100))) 0 100 in
  mret {| final_score := round1 final;
          trend_score_r := round1 ts;
          meanrev_score_r := round1 mr;
          risk_score_r := round1 rk |}.

End ScoreEngine.

(* ------------------------------------------------------------------ *)
(** ** core/logic/risk.py *)
Module RiskEngine.

(** [np.random.choice([1, 0], size=(sims, trades), p=[p, 1 - p])].  The
    generator is the argument [draw]: [draw p i j] is the outcome it
    hands out at row [i], column [j].  numpy refuses probabilities
    outside [0,1]. *)
Definition random_choice (draw : Q -> nat -> nat -> bool) (p : Q)
    (sims trades : nat) : Py.result (list (list bool)) :=
  if Py.ltb p 0 || Py.ltb (1 - p) 0 then
    Py.Raise (Py.ValueError "probabilities are not non-negative")
  else
    Py.Ok (map (fun i => map (draw p i) (seq 0 trades)) (seq 0 sims)).

(** [cumsum] along a row. *)
Fixpoint cumsum_from (acc : Q) (l : list Q) : list Q :=
  match l with
  | [] => []
  | x :: rest => (acc + x)%Q :: cumsum_from (acc + x)%Q rest
  end.

Definition cumsum (l : list Q) : list Q :=
  match l with
  | [] => []
  | x :: rest => x :: cumsum_from x rest
  end.

(** [mean()] of a boolean array; NaN on an empty one. *)
Definition mean_bool (l : list bool) : Fl.t :=
  match l with
  | [] => Fl.NaN
  | _ => Fl.Fin (inject_Z (Z.of_nat (length (List.filter id l)))
                 / inject_Z (Z.of_nat (length l)))
  end.

(** The simulation proper, on parameters already clamped. *)
Definition simulate (draw : Q -> nat -> nat -> bool)
    (win_rate payoff risk_per_trade : Q) (sims trades : nat) : Py.result Fl.t :=
  outcomes ← random_choice draw win_rate sims trades;
  let pnl :=
    map (map (fun o : bool =>
                if o then (payoff * risk_per_trade)%Q else (- risk_per_trade)%Q))
        outcomes in
  let equity := map cumsum pnl in
  let ruin := map (existsb (fun e => Py.ltb e (- (50 # 100)))) equity in
  mret (Fl.mul (mean_bool ruin) (Fl.Fin 100)).

Definition monte_carlo_ruin (draw : Q -> nat -> nat -> bool)
    (win_rate payoff risk_per_trade : Q) (sims trades : nat) : Py.result Fl.t :=
  let win_rate := clamp win_rate (1 # 100) (99 # 100) in
  let payoff := clamp payoff (5 # 10) 10 in
  let risk_per_trade := clamp risk_per_trade (1 # 1000) (2 # 10) in
  simulate draw win_rate payoff risk_per_trade sims trades.

End RiskEngine.

(* ------------------------------------------------------------------ *)
(** ** core/logic/verdict.py *)
Module VerdictEngine.

Inductive Status : Type := AUTORIZADO | DEFENSIVO | BLOQUEIO.

Definition status_eqb (a b : Status) : bool :=
  match a, b with
  | AUTORIZADO, AUTORIZADO | DEFENSIVO, DEFENSIVO | BLOQUEIO, BLOQUEIO => true
  | _, _ => false
  end.

(** The escalation order AUTHORIZED < DEFENSIVE < BLOCKED. *)
Definition rank (s : Status) : nat :=
  match s with AUTORIZADO => 0 | DEFENSIVO => 1 | BLOQUEIO => 2 end.

(** The two locals the cascade mutates. *)
Record St : Type := mkSt { status : Status; reasons : list string }.

Record Verdict : Type := mkVerdict {
  v_status : Status;
  command : string;
  v_reasons : list string
}.

(** Arguments of [decide]. *)
Record Args : Type := mkArgs {
  regime : RegimeEngine.Regime;
  cost : CostEngine.Cost;
  ruin_pct : Q;
  score : Q;
  strict_vol : Q;
  strict_dd_pct : Q;
  ruin_threshold : Q
}.

Definition init : St := {| status := AUTORIZADO; reasons := [] |}.

(** Rule 1: [if cost["blocked"]: status = BLOQUEIO; append]. *)
Definition rule_block (trigger : bool) (code : string) (s : St) : St :=
  if trigger
  then {| status := BLOQUEIO; reasons := reasons s ++ [code] |}
  else s.

(** Rules 2 to 6: the guard protects the status only; the reason is
    appended whenever the trigger holds. *)
Definition rule_defensive (trigger : bool) (code : string) (s : St) : St :=
  if trigger
  then {| status := if negb (status_eqb (status s) BLOQUEIO)
                    then DEFENSIVO else status s;
          reasons := reasons s ++ [code] |}
  else s.

(** Rules 7 and 8: [if trigger and status != "BLOQUEIO": ...]; the guard
    is part of the condition, so it protects the append as well. *)
Definition rule_unless_blocked (trigger : bool) (code : string) (s : St) : St :=
  if trigger && negb (status_eqb (status s) BLOQUEIO)
  then {| status := DEFENSIVO; reasons := reasons s ++ [code] |}
  else s.

(** The eight [if] statements of [decide], in source order. *)
Definition cascade (a : Args) : list (St -> St) :=
  let r := regime a in
  [ rule_block (CostEngine.blocked (cost a)) "COST_BLOCK";
    rule_defensive (Py.contains "STRESS" (RegimeEngine.label r)) "REGIME_STRESS";
    rule_defensive (Py.contains "VOL" (RegimeEngine.label r)) "REGIME_VOL";
    rule_defensive (Py.gtb (RegimeEngine.vol r) (strict_vol a)) "VOL_LIMIT";
    rule_defensive (Py.ltb (RegimeEngine.dd r * 100) (strict_dd_pct a)) "DD_LIMIT";
    rule_defensive (Py.gtb (ruin_pct a) (ruin_threshold a)) "RUIN_HIGH";
    rule_unless_blocked (RegimeEngine.score r <? 35)%Z "OPERABILITY_LOW";
    rule_unless_blocked (Py.ltb (score a) 40) "SCORE_LOW" ].

(** States after 0, 1, ..., n statements. *)
Fixpoint run_trace (rules : list (St -> St)) (s : St) : list St :=
  match rules with
  | [] => [s]
  | f :: rest => s :: run_trace rest (f s)
  end.

Definition run (rules : list (St -> St)) (s : St) : St :=
  fold_left (fun acc f => f acc) rules s.

Definition command_of (s : Status) : string :=
  match s with
  | AUTORIZADO => "READY"
  | DEFENSIVO => "DEFENSIVE"
  | BLOQUEIO => "BLOCKED"
  end.

(** [reasons or ["OK"]]: an empty list is falsy. *)
Definition final_reasons (rs : list string) : list string :=
  match rs with [] => ["OK"] | _ => rs end.

Definition decide (a : Args) : Verdict :=
  let s := run (cascade a) init in
  {| v_status := status s;
     command := command_of (status s);
     v_reasons := final_reasons (reasons s) |}.

(** *** Vocabulary for the properties of the cascade *)

(** A statement of the cascade escalates: it never lowers the status and
    only appends to the reasons. *)
Definition escalates (f : St -> St) : Prop :=
  forall s, (rank (status s) <= rank (status (f s)))%nat
            /\ exists extra, reasons (f s) = (reasons s ++ extra)%list.

(** Membership of a reason code, decided. *)
Definition has_reason (code : string) (rs : list string) : bool :=
  existsb (String.eqb code) rs.

(** The cascade on its eight trigger booleans. *)
Definition cascade_of (b1 b2 b3 b4 b5 b6 b7 b8 : bool) : list (St -> St) :=
  [ rule_block b1 "COST_BLOCK";
    rule_defensive b2 "REGIME_STRESS";
    rule_defensive b3 "REGIME_VOL";
    rule_defensive b4 "VOL_LIMIT";
    rule_defensive b5 "DD_LIMIT";
    rule_defensive b6 "RUIN_HIGH";
    rule_unless_blocked b7 "OPERABILITY_LOW";
    rule_unless_blocked b8 "SCORE_LOW" ].

End VerdictEngine.

(* ------------------------------------------------------------------ *)
(** ** database/sqlite_store.py: the ledger *)
Module SQLiteStore.

(** A row of the table [ledger], with the columns the safety guard's
    query reads ([realized_pnl] is a nullable REAL) and the ticker. *)
Record LedgerRow : Type := mkLedgerRow {
  timestamp_utc : string;
  ticker : string;
  realized_pnl : option Q
}.

Definition Store : Type := list LedgerRow.

(** [SUM(realized_pnl)]: NULL over no non-NULL value. *)
Fixpoint sql_sum (vals : list (option Q)) : option Q :=
  match vals with
  | [] => None
  | None :: rest => sql_sum rest
  | Some v :: rest =>
      match sql_sum rest with
      | Some t => Some (v + t)%Q
      | None => Some v
      end
  end.

(** [SELECT COALESCE(SUM(realized_pnl), 0.0) FROM ledger
     WHERE substr(timestamp_utc, 1, 10) = ?]. *)
Definition daily_realized_pnl (store : Store) (date_utc : string) : Q :=
  let today :=
    List.filter (fun r => String.eqb (String.substring 0 10 (timestamp_utc r)) date_utc)
                store in
  default 0%Q (sql_sum (map realized_pnl today)).

End SQLiteStore.

(* ------------------------------------------------------------------ *)
(** ** core/execution: models, broker, safety guard *)
Module Execution.

(** [models.OrderIntent]. *)
Record OrderIntent : Type := mkOrderIntent {
  ticker : string;
  side : string;
  order_type : string;
  tif : string;
  qty : Z;
  notional : Q;
  price_ref : Q;
  limit_price : option Q;
  stop : option Q;
  target : option Q;
  risk_pct : Q;
  regime : string;
  score : Q;
  cost_bps : Z;
  status : string;
  tags : string
}.

(** What a [BrokerBase] answers at the moment of the call.  A position
    is a dictionary; its values are kept as [str] renders them. *)
Record Broker : Type := mkBroker {
  ping : bool;
  get_open_positions : list (gmap string string)
}.

Record SafetyConfig : Type := mkSafetyConfig {
  tz_market : string;
  open_hhmm : string;
  close_hhmm : string;
  auction_pre_open_start : string;
  auction_pre_open_end : string;
  auction_close_start : string;
  auction_close_end : string;
  max_daily_loss_pct : F64.t
}.

(** The time-of-day part of a [datetime]; [replace] keeps the date and
    the zone, so two values compared by the guard differ in these
    fields only. *)
Record DateTime : Type := mkDateTime {
  hour : Z;
  minute : Z;
  second : Z;
  microsecond : Z
}.

(** The two clock readings of a call.  [now_market zone] is
    [datetime.now(pytz.timezone(zone))], and nothing for a zone name
    pytz does not know; [utc_date] is
    [datetime.utcnow().strftime("%Y-%m-%d")]. *)
Record Clock : Type := mkClock {
  now_market : string -> option DateTime;
  utc_date : string
}.

Record SafetyGuard : Type := mkSafetyGuard {
  store : SQLiteStore.Store;
  broker : Broker;
  cfg : SafetyConfig
}.

Record Decision : Type := mkDecision { ok : bool; reason : string }.

(** *** Calls to the collaborators, recorded in order *)
Inductive Event : Type :=
| EvPing
| EvNowMarket
| EvGetOpenPositions
| EvUtcNow
| EvDailyRealizedPnl (date_utc : string).

(** A computation that may raise and that logs the collaborator calls
    it makes. *)
Record Eff (A : Type) : Type := mkEff {
  run : list Event -> Py.result A * list Event
}.
Arguments mkEff {A} _.
Arguments run {A} _ _.

#[global] Instance eff_ret : MRet Eff :=
fun A a => mkEff (fun log => (Py.Ok a, log)).
#[global] Instance eff_bind : MBind Eff :=
fun A B k m =>
  mkEff (fun log =>
           match run m log with
           | (Py.Ok a, log') => run (k a) log'
           | (Py.Raise e, log') => (Py.Raise e, log')
           end).

(** A collaborator call answering [a]. *)
Definition call {A} (ev : Event) (a : A) : Eff A :=
  mkEff (fun log => (Py.Ok a, (log ++ [ev])%list)).

(** A pure step that may raise. *)
Definition lift {A} (r : Py.result A) : Eff A :=
  mkEff (fun log => (r, log)).

Definition _parse_hhmm (hhmm : string) : Py.result (Z * Z) :=
  match Py.split ":" hhmm with
  | [h; m] =>
      h' ← Py.int_of_str h;
      m' ← Py.int_of_str m;
      mret (h', m')
  | _ => Py.Raise (Py.ValueError "wrong number of values to unpack")
  end.

(** [now.replace(hour=h, minute=m, second=0, microsecond=0)]. *)
Definition replace_hm (now : DateTime) (h m : Z) : Py.result DateTime :=
  if negb ((0 <=? h)%Z && (h <=? 23)%Z) then
    Py.Raise (Py.ValueError "hour must be in 0..23")
  else if negb ((0 <=? m)%Z && (m <=? 59)%Z) then
    Py.Raise (Py.ValueError "minute must be in 0..59")
  else Py.Ok {| hour := h; minute := m; second := 0; microsecond := 0 |}.

(** Order of two datetimes of the same day and zone. *)
Definition micros (t : DateTime) : Z :=
  ((hour t * 60 + minute t) * 60 + second t) * 1000000 + microsecond t.

Definition dt_le (a b : DateTime) : bool := (micros a <=? micros b)%Z.

Definition _in_range (now : DateTime) (start end_ : string) : Py.result bool :=
  '(sh, sm) ← _parse_hhmm start;
  '(eh, em) ← _parse_hhmm end_;
  st ← replace_hm now sh sm;
  en ← replace_hm now eh em;
  mret (dt_le st now && dt_le now en).

(** The body of [_is_trading_time] once [now] is known. *)
Definition trading_time_at (c : SafetyConfig) (now : DateTime)
  : Py.result (bool * string) :=
  pre ← _in_range now (auction_pre_open_start c) (auction_pre_open_end c);
  if (pre : bool) then Py.Ok (false, "AUCTION_PRE_OPEN") else
  clo ← _in_range now (auction_close_start c) (auction_close_end c);
  if (clo : bool) then Py.Ok (false, "AUCTION_CLOSE") else
  inside ← _in_range now (open_hhmm c) (close_hhmm c);
  if negb inside then Py.Ok (false, "OUTSIDE_MARKET_HOURS") else
  Py.Ok (true, "OK").

(** [pytz.timezone(self.cfg.tz_market)] raises on an unknown zone,
    before the clock is read. *)
Definition _now_market (g : SafetyGuard) (clk : Clock) : Eff DateTime :=
  match now_market clk (tz_market (cfg g)) with
  | Some now => call EvNowMarket now
  | None => lift (Py.Raise (Py.UnknownTimeZoneError (tz_market (cfg g))))
  end.

Definition _is_trading_time (g : SafetyGuard) (clk : Clock) : Eff (bool * string) :=
  now ← _now_market g clk;
  lift (trading_time_at (cfg g) now).

(** What [_is_trading_time] answers, or raises. *)
Definition trading_time (g : SafetyGuard) (clk : Clock) : Py.result (bool * string) :=
  match now_market clk (tz_market (cfg g)) with
  | Some now => trading_time_at (cfg g) now
  | None => Py.Raise (Py.UnknownTimeZoneError (tz_market (cfg g)))
  end.

(** [-(capital * (max_daily_loss_pct / 100.0))], on floats. *)
Definition loss_limit (g : SafetyGuard) (capital : F64.t) : F64.t :=
  F64.neg (F64.mul capital (F64.div (max_daily_loss_pct (cfg g)) (F64.of_Z 100))).

(** [pnl] is the float the store returned; [pnl <= limit] compares the
    two numbers, and is false when the limit is NaN. *)
Definition _kill_switch (g : SafetyGuard) (clk : Clock) (capital : F64.t)
  : Eff (bool * string) :=
  now_utc ← call EvUtcNow (utc_date clk);
  pnl ← call (EvDailyRealizedPnl now_utc)
             (SQLiteStore.daily_realized_pnl (store g) now_utc);
  let limit := loss_limit g capital in
  if Fl.leb (Fl.Fin pnl) (F64.value limit) then
    mret (false, "KILL_SWITCH_DAILY_LOSS pnl=" ++ Py.format_2f pnl
                 ++ " limit=" ++ F64.format_2f limit)
  else mret (true, "OK").

(** [str(p.get("ticker", "")).upper() == ticker.upper()]. *)
Definition same_ticker (p : gmap string string) (ticker : string) : bool :=
  String.eqb (Py.upper (default "" (p !! "ticker"))) (Py.upper ticker).

(** The [for] loop of [_position_check]. *)
Fixpoint scan_positions (positions : list (gmap string string)) (ticker : string)
  : bool * string :=
  match positions with
  | [] => (true, "OK")
  | p :: rest =>
      if same_ticker p ticker then (false, "POSITION_ALREADY_OPEN")
      else scan_positions rest ticker
  end.

Definition _position_check (g : SafetyGuard) (ticker : string) : Eff (bool * string) :=
  positions ← call EvGetOpenPositions (get_open_positions (broker g));
  mret (scan_positions positions ticker).

Definition validate (g : SafetyGuard) (clk : Clock) (order : OrderIntent)
    (capital : F64.t) : Eff Decision :=
  up ← call EvPing (ping (broker g));
  if negb up then mret {| ok := false; reason := "BROKER_OFFLINE" |} else
  '(ok_time, r_time) ← _is_trading_time g clk;
  if negb ok_time then mret {| ok := false; reason := r_time |} else
  '(ok_pos, r_pos) ← _position_check g (ticker order);
  if negb ok_pos then mret {| ok := false; reason := r_pos |} else
  '(ok_kill, r_kill) ← _kill_switch g clk capital;
  if negb ok_kill then mret {| ok := false; reason := r_kill |} else
  mret {| ok := true; reason := "OK" |}.

End Execution.

(* ------------------------------------------------------------------ *)
(** ** Concrete inputs used by the examples of Part II *)
Module Scenario.

(** A blocked cost (Scenario C of the specification: 20 + 20 + 10 bps
    against a 40 bps ceiling) met by a calm regime whose operability is
    10 and a final score of 20. *)
Definition blocked_low_operability : VerdictEngine.Args :=
  {| VerdictEngine.regime :=
       {| RegimeEngine.label := "TRANSITION";
          RegimeEngine.z := 0; RegimeEngine.vol := 10; RegimeEngine.dd := 0;
          RegimeEngine.slope := 0; RegimeEngine.score := 10 |};
     VerdictEngine.cost := CostEngine.compute 20 20 10 40;
     VerdictEngine.ruin_pct := 0;
     VerdictEngine.score := 20;
     VerdictEngine.strict_vol := 45;
     VerdictEngine.strict_dd_pct := -20;
     VerdictEngine.ruin_threshold := 10 |}.

(** A row that is calm in every respect. *)
Definition calm_row : Row :=
  {| close_final := 100; SMA20 := 100; SMA50 := 100; ZScore := 0;
     VolAnn := 10; Drawdown := 0; VaR95 := Some 0%Q; CVaR95 := Some 0%Q |}.

(** Six rows, the last one half a standard deviation above its mean. *)
Definition half_sigma_frame : Frame :=
  (repeat calm_row 5 ++
   [ {| close_final := 100; SMA20 := 100; SMA50 := 100; ZScore := 1 # 2;
        VolAnn := 10; Drawdown := 0; VaR95 := Some 0%Q; CVaR95 := Some 0%Q |} ])%list.

(** The weights of the application, and two degenerate dictionaries:
    one summing to zero, one summing to [-1]. *)
Definition app_weights : gmap string Q :=
  {[ "trend" := 50 # 100; "meanrev" := 15 # 100; "risk" := 35 # 100 ]}.
Definition zero_weights : gmap string Q :=
  {[ "trend" := 0%Q; "meanrev" := 0%Q; "risk" := 0%Q ]}.
Definition negative_weights : gmap string Q :=
  {[ "trend" := 1%Q; "meanrev" := (-3)%Q; "risk" := 1%Q ]}.

(** The market-hours windows the application ships as defaults. *)
Definition default_cfg : Execution.SafetyConfig :=
  {| Execution.tz_market := "America/Sao_Paulo";
     Execution.open_hhmm := "10:00";
     Execution.close_hhmm := "17:55";
     Execution.auction_pre_open_start := "09:45";
     Execution.auction_pre_open_end := "10:00";
     Execution.auction_close_start := "17:45";
     Execution.auction_close_end := "18:10";
     Execution.max_daily_loss_pct := F64.of_Z 3 |}.

(** Scenario E: a ledger whose rows of 2026-11-04 realise -200 and -150
    (one more row of that day has no P&L yet, one row is older). *)
Definition ledger_e : SQLiteStore.Store :=
  [ {| SQLiteStore.timestamp_utc := "2026-11-03T15:02:11Z";
       SQLiteStore.ticker := "PETR4.SA";
       SQLiteStore.realized_pnl := Some 500%Q |};
    {| SQLiteStore.timestamp_utc := "2026-11-04T13:10:00Z";
       SQLiteStore.ticker := "VALE3.SA";
       SQLiteStore.realized_pnl := Some (-200)%Q |};
    {| SQLiteStore.timestamp_utc := "2026-11-04T13:40:30Z";
       SQLiteStore.ticker := "ITUB4.SA";
       SQLiteStore.realized_pnl := None |};
    {| SQLiteStore.timestamp_utc := "2026-11-04T14:05:59Z";
       SQLiteStore.ticker := "VALE3.SA";
       SQLiteStore.realized_pnl := Some (-150)%Q |} ].

(** A clock that knows the zone of Sao Paulo only, where it is
    11:30:12.000040. *)
Definition clock_e : Execution.Clock :=
  {| Execution.now_market := fun zone =>
       if String.eqb zone "America/Sao_Paulo"
       then Some {| Execution.hour := 11; Execution.minute := 30;
                    Execution.second := 12; Execution.microsecond := 40 |}
       else None;
     Execution.utc_date := "2026-11-04" |}.

Definition guard_e : Execution.SafetyGuard :=
  {| Execution.store := ledger_e;
     Execution.broker := {| Execution.ping := true;
                            Execution.get_open_positions := [] |};
     Execution.cfg := default_cfg |}.

(** The same guard behind a broker that holds a position in [vale3.sa]. *)
Definition guard_open_position : Execution.SafetyGuard :=
  {| Execution.store := ledger_e;
     Execution.broker :=
       {| Execution.ping := true;
          Execution.get_open_positions :=
            [ {[ "ticker" := "PETR4.SA"; "qty" := "100" ]};
              {[ "ticker" := "vale3.sa"; "qty" := "200" ]} ] |};
     Execution.cfg := default_cfg |}.

Definition order_vale : Execution.OrderIntent :=
  {| Execution.ticker := "VALE3.SA"; Execution.side := "BUY";
     Execution.order_type := "MARKET"; Execution.tif := "DAY";
     Execution.qty := 100; Execution.notional := 6000;
     Execution.price_ref := 60; Execution.limit_price := None;
     Execution.stop := Some 57%Q; Execution.target := Some 66%Q;
     Execution.risk_pct := 1; Execution.regime := "UPTREND";
     Execution.score := 72; Execution.cost_bps := 12;
     Execution.status := "AUTORIZADO"; Execution.tags := "" |}.

(** Stand-ins for the numeric library that stay within the rationals:
    the mean is exact, the other routines are replaced by the mean or by
    the identity. *)
Definition fl_sum (xs : list Fl.t) : Fl.t := fold_right Fl.add (Fl.Fin 0) xs.

Definition fl_mean (xs : list Fl.t) : Fl.t :=
  Fl.div (fl_sum xs) (Fl.Fin (inject_Z (Z.of_nat (length xs)))).

Definition rational_lib : IndicatorEngine.NumLib :=
  {| IndicatorEngine.np_log := fun x => Fl.sub x (Fl.Fin 1);
     IndicatorEngine.sqrt_trading_days := Fl.Fin 16;
     IndicatorEngine.mean := fl_mean;
     IndicatorEngine.std := fl_mean;
     IndicatorEngine.skew := fl_mean;
     IndicatorEngine.kurtosis := fl_mean;
     IndicatorEngine.quantile05 := fun xs => hd Fl.NaN xs |}.

(** A frame of [n] bars closing at 100, then one bar closing at 90. *)
Definition flat_then_drop (n : nat) : list Fl.t :=
  (repeat (Fl.Fin 100) n ++ [Fl.Fin 90])%list.

Definition bars (n : nat) : IndicatorEngine.DataFrame :=
  {| IndicatorEngine.nrows := S n;
     IndicatorEngine.columns :=
       {[ "open" := flat_then_drop n; "high" := flat_then_drop n;
          "low" := flat_then_drop n; "close" := flat_then_drop n;
          "close_final" := flat_then_drop n; "volume" := flat_then_drop n ]} |}.

(** The same bars without the column [close_final]. *)
Definition bars_no_close (n : nat) : IndicatorEngine.DataFrame :=
  {| IndicatorEngine.nrows := S n;
     IndicatorEngine.columns :=
       {[ "open" := flat_then_drop n; "high" := flat_then_drop n;
          "low" := flat_then_drop n; "volume" := flat_then_drop n ]} |}.

(** Bars that have [close_final] but no [high]. *)
Definition bars_no_high (n : nat) : IndicatorEngine.DataFrame :=
  {| IndicatorEngine.nrows := S n;
     IndicatorEngine.columns :=
       {[ "open" := flat_then_drop n; "low" := flat_then_drop n;
          "close_final" := flat_then_drop n; "volume" := flat_then_drop n ]} |}.

(** The same bars from a source that supplied no volume: the router
    fills the column with NaN. *)
Definition bars_nan_volume (n : nat) : IndicatorEngine.DataFrame :=
  {| IndicatorEngine.nrows := S n;
     IndicatorEngine.columns :=
       {[ "open" := flat_then_drop n; "high" := flat_then_drop n;
          "low" := flat_then_drop n; "close" := flat_then_drop n;
          "close_final" := flat_then_drop n;
          "volume" := repeat Fl.NaN (S n) ]} |}.

(** Six rows, the last one a quarter below its peak and very volatile
    (Scenario B of the tests). *)
Definition stress_frame : Frame :=
  (repeat calm_row 5 ++
   [ {| close_final := 100; SMA20 := 100; SMA50 := 100; ZScore := 0;
        VolAnn := 60; Drawdown := - (25 # 100);
        VaR95 := Some 0%Q; CVaR95 := Some 0%Q |} ])%list.

(** The guard of Scenario E behind a broker that does not answer. *)
Definition guard_offline : Execution.SafetyGuard :=
  {| Execution.store := ledger_e;
     Execution.broker := {| Execution.ping := false;
                            Execution.get_open_positions := [] |};
     Execution.cfg := default_cfg |}.

(** The same guard with a closing time that is no time of day. *)
Definition guard_bad_window : Execution.SafetyGuard :=
  {| Execution.store := ledger_e;
     Execution.broker := {| Execution.ping := true;
                            Execution.get_open_positions := [] |};
     Execution.cfg :=
       {| Execution.tz_market := "America/Sao_Paulo";
          Execution.open_hhmm := "10:00";
          Execution.close_hhmm := "24:00";
          Execution.auction_pre_open_start := "09:45";
          Execution.auction_pre_open_end := "10:00";
          Execution.auction_close_start := "17:45";
          Execution.auction_close_end := "18:10";
          Execution.max_daily_loss_pct := F64.of_Z 3 |} |}.

(** The guard of Scenario E configured with a zone pytz does not
    know. *)
Definition guard_bad_zone : Execution.SafetyGuard :=
  {| Execution.store := ledger_e;
     Execution.broker := {| Execution.ping := true;
                            Execution.get_open_positions := [] |};
     Execution.cfg :=
       {| Execution.tz_market := "America/Sao Paulo";
          Execution.open_hhmm := "10:00";
          Execution.close_hhmm := "17:55";
          Execution.auction_pre_open_start := "09:45";
          Execution.auction_pre_open_end := "10:00";
          Execution.auction_close_start := "17:45";
          Execution.auction_close_end := "18:10";
          Execution.max_daily_loss_pct := F64.of_Z 3 |} |}.

(** Capital 100 under a 7 percent daily limit, and a ledger whose one
    row of 2026-11-04 realises exactly -7. *)
Definition guard_seven : Execution.SafetyGuard :=
  {| Execution.store :=
       [ {| SQLiteStore.timestamp_utc := "2026-11-04T13:10:00Z";
            SQLiteStore.ticker := "VALE3.SA";
            SQLiteStore.realized_pnl := Some (-7)%Q |} ];
     Execution.broker := {| Execution.ping := true;
                            Execution.get_open_positions := [] |};
     Execution.cfg :=
       {| Execution.tz_market := "America/Sao_Paulo";
          Execution.open_hhmm := "10:00";
          Execution.close_hhmm := "17:55";
          Execution.auction_pre_open_start := "09:45";
          Execution.auction_pre_open_end := "10:00";
          Execution.auction_close_start := "17:45";
          Execution.auction_close_end := "18:10";
          Execution.max_daily_loss_pct := F64.of_Z 7 |} |}.

(** [str.strip] on ASCII blanks. *)
Definition ascii_strip (s : string) : string :=
  string_of_list_ascii (Py.strip (list_ascii_of_string s)).

(** An empty ledger and a broker holding a position in [vale3.sa]. *)
Definition guard_quiet_open_position : Execution.SafetyGuard :=
  {| Execution.store := [];
     Execution.broker :=
       {| Execution.ping := true;
          Execution.get_open_positions :=
            [ {[ "ticker" := "vale3.sa"; "qty" := "200" ]} ] |};
     Execution.cfg := default_cfg |}.

End Scenario.

(* ------------------------------------------------------------------ *)
(** ** database/sqlite_store.py: writing and reading the ledger *)
Module Ledger.

(** [log_order] on the three columns the model of the ledger keeps:
    [row["timestamp_utc"]], [row["ticker"]] and
    [float(row.get("realized_pnl", 0.0))].  The row is appended; the
    answer is its rowid, one more than the rows already present. *)
Definition log_order (store : SQLiteStore.Store) (timestamp_utc ticker : string)
    (realized_pnl : option Q) : SQLiteStore.Store * Z :=
  let row := {| SQLiteStore.timestamp_utc := timestamp_utc;
                SQLiteStore.ticker := ticker;
                SQLiteStore.realized_pnl := Some (default 0%Q realized_pnl) |} in
  ((store ++ [row])%list, Z.of_nat (S (length store))).

(** [SELECT * FROM ledger ORDER BY id DESC LIMIT ?]: newest first; a
    negative limit is no limit. *)
Definition read_ledger (store : SQLiteStore.Store) (limit : Z)
  : list SQLiteStore.LedgerRow :=
  if (limit <? 0)%Z then rev store else firstn (Z.to_nat limit) (rev store).

(** The ledger of a fresh database after the application logged the
    orders [entries] (timestamp and ticker of each): both call sites,
    [render_deep_dive] and [app.py], pass ["realized_pnl": 0.0]. *)
Definition logged_by_app (entries : list (string * string)) : SQLiteStore.Store :=
  fold_left (fun store e => fst (log_order store (fst e) (snd e) (Some 0%Q)))
            entries [].

End Ledger.

(* ------------------------------------------------------------------ *)
(** ** app.py: the application's own copy of the safety guard *)
Module AppSafety.
Import Execution.

(** [SafetyGuard.validate(ticker, capital)] of [app.py]: the ping, the
    trading-time check and the kill switch, with no position check. *)
Definition validate (g : SafetyGuard) (clk : Clock) (ticker : string)
    (capital : F64.t) : Eff Decision :=
  up ← call EvPing (ping (broker g));
  if negb up then mret {| ok := false; reason := "BROKER_OFFLINE" |} else
  '(ok_time, r_time) ← _is_trading_time g clk;
  if negb ok_time then mret {| ok := false; reason := r_time |} else
  '(ok_kill, r_kill) ← _kill_switch g clk capital;
  if negb ok_kill then mret {| ok := false; reason := r_kill |} else
  mret {| ok := true; reason := "OK" |}.

End AppSafety.

(* ------------------------------------------------------------------ *)
(** ** Vocabulary for the properties of the safety guard *)
Module SafetyWords.
Import Execution.

(** A window bound the guard can use: it parses and names a time of
    day. *)
Definition hhmm (s : string) (h m : Z) : Prop :=
  _parse_hhmm s = Py.Ok (h, m) /\ 0 <= h <= 23 /\ 0 <= m <= 59.

(** Every bound of the configuration is usable. *)
Definition well_formed (c : SafetyConfig) : Prop :=
  (exists h m, hhmm (auction_pre_open_start c) h m)
  /\ (exists h m, hhmm (auction_pre_open_end c) h m)
  /\ (exists h m, hhmm (auction_close_start c) h m)
  /\ (exists h m, hhmm (auction_close_end c) h m)
  /\ (exists h m, hhmm (open_hhmm c) h m)
  /\ (exists h m, hhmm (close_hhmm c) h m).

(** The microsecond of the day at which minute [h:m] starts. *)
Definition minute_start (h m : Z) : Z := (h * 60 + m) * 60 * 1000000.

(** The codes a denial of the trading-time check can carry. *)
Definition time_codes : list string :=
  ["AUCTION_PRE_OPEN"; "AUCTION_CLOSE"; "OUTSIDE_MARKET_HOURS"].

End SafetyWords.

(* ------------------------------------------------------------------ *)
(** ** database/sqlite_store.py and core/data/universe_loader.py: the
       universe table

    Rows handed to the store are dictionaries with string values.
    [str.strip] is an argument of the model, as the numeric routines
    are: what is proved holds whatever it strips. *)
Module Universe.

(** A row of the table [universe], without [id] and [created_at]; the
    table is the list of its rows in rowid order. *)
Record UniverseRow : Type := mkUniverseRow {
  name : string;
  category : string;
  ticker_yahoo : string;
  currency_code : string;
  base : string;
  country : string;
  exchange : string;
  priority_source : string;
  bridge_key : string;
  is_active : Z
}.

Definition Table : Type := list UniverseRow.

(** [r.get(key, dflt)]. *)
Definition get (r : gmap string string) (key dflt : string) : string :=
  default dflt (r !! key).

(** [SELECT 1 FROM universe WHERE ticker_yahoo = ? LIMIT 1]. *)
Definition exists_ticker (tbl : Table) (ticker : string) : bool :=
  existsb (fun u => String.eqb (ticker_yahoo u) ticker) tbl.

(** One turn of the loop of [upsert_universe_rows]: the table and the
    counter [ins] after the row [r]. *)
Definition upsert_row (strip : string -> string) (acc : Table * Z)
    (r : gmap string string) : Table * Z :=
  let '(tbl, ins) := acc in
  let ticker := strip (get r "ticker_yahoo" "") in
  if String.eqb ticker "" then (tbl, ins)
  else if exists_ticker tbl ticker then (tbl, ins)
  else
    ((tbl ++ [ {| name := get r "name" "";
                  category := get r "category" "";
                  ticker_yahoo := ticker;
                  currency_code := get r "currency_code" "";
                  base := get r "base" "spot";
                  country := get r "country" "";
                  exchange := get r "exchange" "";
                  priority_source := get r "priority_source" "";
                  bridge_key := get r "bridge_key" "";
                  is_active := 1 |} ])%list,
     ins + 1).

Definition upsert_universe_rows (strip : string -> string) (tbl : Table)
    (rows : list (gmap string string)) : Table * Z :=
  fold_left (upsert_row strip) rows (tbl, 0).

(** [ORDER BY category, name] under SQLite's default collation, which
    compares the bytes. *)
Definition row_leb (a b : UniverseRow) : bool :=
  match String.compare (category a) (category b) with
  | Lt => true
  | Gt => false
  | Eq => match String.compare (name a) (name b) with
          | Gt => false
          | _ => true
          end
  end.

Fixpoint insert_ordered (x : UniverseRow) (l : list UniverseRow) : list UniverseRow :=
  match l with
  | [] => [x]
  | y :: rest => if row_leb x y then x :: l else y :: insert_ordered x rest
  end.

(** Rows with equal keys stay in rowid order. *)
Definition order_by (l : list UniverseRow) : list UniverseRow :=
  fold_right insert_ordered [] l.

Definition get_universe (tbl : Table) (only_active : bool) : list UniverseRow :=
  order_by (if only_active then List.filter (fun u => (is_active u =? 1)%Z) tbl else tbl).

Definition seed_row (name category ticker currency base country exchange
                     source bridge : string) : gmap string string :=
  {[ "name" := name; "category" := category; "ticker_yahoo" := ticker;
     "currency_code" := currency; "base" := base; "country" := country;
     "exchange" := exchange; "priority_source" := source;
     "bridge_key" := bridge ]}.

Definition DEFAULT_UNIVERSE : list (gmap string string) :=
  [ seed_row "PETROBRAS PN" "Ações Brasil" "PETR4.SA" "BRL" "spot" "BR" "B3" "yahoo" "PETR4";
    seed_row "VALE ON" "Ações Brasil" "VALE3.SA" "BRL" "spot" "BR" "B3" "yahoo" "VALE3";
    seed_row "ITAU PN" "Ações Brasil" "ITUB4.SA" "BRL" "spot" "BR" "B3" "yahoo" "ITUB4";
    seed_row "IBOV" "Índices" "^BVSP" "BRL" "index" "BR" "B3" "yahoo" "^BVSP";
    seed_row "S&P 500" "Índices" "^GSPC" "USD" "index" "US" "SP" "yahoo" "^GSPC";
    seed_row "USD/BRL" "Mercado de Câmbio" "BRL=X" "BRL" "fx" "BR" "FX" "yahoo" "USDBRL";
    seed_row "BTC" "Cripto" "BTC-USD" "USD" "crypto" "GLOBAL" "CRYPTO" "yahoo" "BTC";
    seed_row "GOLD" "Commodities" "GC=F" "USD" "cmdty" "GLOBAL" "CM" "yahoo" "GOLD" ].

(** [UniverseLoader.ensure_seed]: the table afterwards and the count
    returned. *)
Definition ensure_seed (strip : string -> string) (tbl : Table) : Table * Z :=
  match get_universe tbl true with
  | _ :: _ => (tbl, 0)
  | [] => upsert_universe_rows strip tbl DEFAULT_UNIVERSE
  end.

End Universe.

(* ================================================================== *)
(** * Part II: properties *)
(* ================================================================== *)

(** ** Python primitives *)
Section PyFacts.

Lemma ltb_lt (x y : Q) : Py.ltb x y = true <-> (x < y)%Q.
Proof.
  unfold Py.ltb. rewrite negb_true_iff, <- not_true_iff_false, Qle_bool_iff.
  split; [apply Qnot_le_lt | apply Qlt_not_le].
Qed.

Lemma ltb_ge (x y : Q) : Py.ltb x y = false <-> (y <= x)%Q.
Proof.
  unfold Py.ltb. rewrite negb_false_iff. apply Qle_bool_iff.
Qed.

Lemma leb_le (x y : Q) : Py.leb x y = true <-> (x <= y)%Q.
Proof. apply Qle_bool_iff. Qed.

Lemma max_spec (a b : Q) :
  ((a < b)%Q /\ Py.max a b = b) \/ ((b <= a)%Q /\ Py.max a b = a).
Proof.
  unfold Py.max, Py.gtb. destruct (Py.ltb a b) eqn:E.
  - left. split; [now apply ltb_lt | reflexivity].
  - right. split; [now apply ltb_ge | reflexivity].
Qed.

Lemma min_spec (a b : Q) :
  ((b < a)%Q /\ Py.min a b = b) \/ ((a <= b)%Q /\ Py.min a b = a).
Proof.
  unfold Py.min. destruct (Py.ltb b a) eqn:E.
  - left. split; [now apply ltb_lt | reflexivity].
  - right. split; [now apply ltb_ge | reflexivity].
Qed.

End PyFacts.

(* ------------------------------------------------------------------ *)
(** ** CostEngine *)
Section CostFacts.
Import CostEngine.

(** C6.  For non-negative integer inputs, [compute] returns
    [total_bps = spread + slippage + fee], [break_even_pct = total_bps / 10000]
    and [blocked = (total_bps >= max_block_bps)], the boundary
    [total_bps = max_block_bps] being blocked; the result is a function of
    the inputs alone and is monotonic non-decreasing in each of spread,
    slippage and fee ([total_bps], [break_even_pct], and [blocked] once
    raised stays raised). *)
Theorem compute_spec (spread slippage fee max_block_bps : Z) :
  0 <= spread -> 0 <= slippage -> 0 <= fee -> 0 <= max_block_bps ->
  let c := compute spread slippage fee max_block_bps in
  total_bps c = spread + slippage + fee
  /\ (break_even_pct c == inject_Z (total_bps c) / 10000)%Q
  /\ (blocked c = true <-> max_block_bps <= total_bps c)
  /\ (total_bps c = max_block_bps -> blocked c = true)
  /\ (forall spread' slippage' fee',
        spread <= spread' -> slippage <= slippage' -> fee <= fee' ->
        let c' := compute spread' slippage' fee' max_block_bps in
        total_bps c <= total_bps c'
        /\ (break_even_pct c <= break_even_pct c')%Q
        /\ (blocked c = true -> blocked c' = true)).
Proof.
  intros _ _ _ _ c. subst c. unfold compute. cbn [total_bps break_even_pct blocked].
  split; [reflexivity|]. split; [reflexivity|].
  split; [rewrite Z.geb_le; reflexivity|].
  split; [intros H; rewrite Z.geb_le; lia|].
  intros s' l' f' Hs Hl Hf. cbn.
  split; [lia|]. split.
  - unfold Qle; cbn. lia.
  - rewrite !Z.geb_le. lia.
Qed.

Lemma compute_spec_witness :
  let c := compute 20 20 10 50 in
  total_bps c = 50 /\ blocked c = true.
Proof.
  pose proof (compute_spec 20 20 10 50) as H.
  destruct H as (Ht & _ & _ & Hb & _); [lia | lia | lia | lia |].
  split; [exact Ht | apply Hb; reflexivity].
Defined.

End CostFacts.

(* ------------------------------------------------------------------ *)
(** ** VerdictEngine *)
Section VerdictFacts.
Import VerdictEngine.

Lemma rule_block_escalates b code : escalates (rule_block b code).
Proof.
  intros s. unfold rule_block. destruct b; cbn.
  - split; [destruct (status s); cbn; lia | eauto].
  - split; [lia | exists []; now rewrite app_nil_r].
Qed.

Lemma rule_defensive_escalates b code : escalates (rule_defensive b code).
Proof.
  intros s. unfold rule_defensive. destruct b; cbn.
  - split; [destruct (status s); cbn; lia | eauto].
  - split; [lia | exists []; now rewrite app_nil_r].
Qed.

Lemma rule_unless_blocked_escalates b code :
  escalates (rule_unless_blocked b code).
Proof.
  intros s. unfold rule_unless_blocked.
  destruct b, (status s) eqn:E; cbn; rewrite ?E; cbn;
    (split; [lia | first [ now eauto | exists []; now rewrite app_nil_r ]]).
Qed.

Lemma cascade_escalates a : Forall escalates (cascade a).
Proof.
  unfold cascade.
  repeat first [ apply rule_block_escalates
               | apply rule_defensive_escalates
               | apply rule_unless_blocked_escalates
               | apply List.Forall_cons
               | apply List.Forall_nil ].
Qed.

Lemma run_trace_escalates rules :
  Forall escalates rules ->
  forall s0 i s s',
    run_trace rules s0 !! i = Some s ->
    run_trace rules s0 !! S i = Some s' ->
    (rank (status s) <= rank (status s'))%nat
    /\ exists extra, reasons s' = (reasons s ++ extra)%list.
Proof.
  induction 1 as [|f rest Hf _ IH]; intros s0 i s s' Hi Hi'.
  - destruct i; discriminate.
  - destruct i as [|i]; cbn in Hi, Hi'.
    + injection Hi as <-. destruct rest; cbn in Hi'; injection Hi' as <-; apply Hf.
    + eapply IH; eassumption.
Qed.

Lemma run_trace_final rules : forall s0,
  run_trace rules s0 !! length rules = Some (run rules s0).
Proof.
  induction rules as [|f rest IH]; intros s0; [reflexivity|].
  cbn. apply IH.
Qed.

Lemma has_reason_In code rs : has_reason code rs = true <-> In code rs.
Proof.
  unfold has_reason. rewrite existsb_exists. split.
  - intros (x & Hx & E). apply String.eqb_eq in E. now subst.
  - intros H. exists code. split; [assumption | apply String.eqb_refl].
Qed.

Lemma cascade_of_table b1 b2 b3 b4 b5 b6 b7 b8 :
  let s := run (cascade_of b1 b2 b3 b4 b5 b6 b7 b8) init in
  let rs := final_reasons (reasons s) in
  rank (status s)
    = (if b1 then 2
       else if b2 || b3 || b4 || b5 || b6 || b7 || b8 then 1 else 0)%nat
  /\ has_reason "COST_BLOCK" rs = b1
  /\ has_reason "REGIME_STRESS" rs = b2
  /\ has_reason "REGIME_VOL" rs = b3
  /\ has_reason "VOL_LIMIT" rs = b4
  /\ has_reason "DD_LIMIT" rs = b5
  /\ has_reason "RUIN_HIGH" rs = b6
  /\ has_reason "OPERABILITY_LOW" rs = b7 && negb b1
  /\ has_reason "SCORE_LOW" rs = b8 && negb b1
  /\ has_reason "OK" rs = negb (b1 || b2 || b3 || b4 || b5 || b6 || b7 || b8).
Proof.
  destruct b1, b2, b3, b4, b5, b6, b7, b8; vm_compute; repeat split.
Qed.

(** C1 (amended).  The cascade of [decide] is monotonic: along the
    eight statements the status only escalates
    AUTHORIZED -> DEFENSIVE -> BLOCKED and the reasons list only grows.
    The reason codes of rules 1 to 6 are present exactly when their
    triggers hold, whatever status was reached; OPERABILITY_LOW and
    SCORE_LOW are present exactly when their trigger holds and the cost
    is not blocked. *)
Theorem decide_cascade (a : Args) :
  let r := regime a in
  let blk := CostEngine.blocked (cost a) in
  let v := decide a in
  (forall i s s',
      run_trace (cascade a) init !! i = Some s ->
      run_trace (cascade a) init !! S i = Some s' ->
      (rank (status s) <= rank (status s'))%nat
      /\ exists extra, reasons s' = (reasons s ++ extra)%list)
  /\ run_trace (cascade a) init !! 8%nat
       = Some {| status := v_status v; reasons := reasons (run (cascade a) init) |}
  /\ v_reasons v = final_reasons (reasons (run (cascade a) init))
  /\ (v_status v = BLOQUEIO <-> blk = true)
  /\ (In "COST_BLOCK" (v_reasons v) <-> blk = true)
  /\ (In "REGIME_STRESS" (v_reasons v)
        <-> Py.contains "STRESS" (RegimeEngine.label r) = true)
  /\ (In "REGIME_VOL" (v_reasons v)
        <-> Py.contains "VOL" (RegimeEngine.label r) = true)
  /\ (In "VOL_LIMIT" (v_reasons v) <-> (strict_vol a < RegimeEngine.vol r)%Q)
  /\ (In "DD_LIMIT" (v_reasons v)
        <-> (RegimeEngine.dd r * 100 < strict_dd_pct a)%Q)
  /\ (In "RUIN_HIGH" (v_reasons v) <-> (ruin_threshold a < ruin_pct a)%Q)
  /\ (In "OPERABILITY_LOW" (v_reasons v)
        <-> (RegimeEngine.score r < 35)%Z /\ blk = false)
  /\ (In "SCORE_LOW" (v_reasons v) <-> (score a < 40)%Q /\ blk = false).
Proof.
  intros r blk v.
  split; [apply run_trace_escalates, cascade_escalates|].
  split.
  { change 8%nat with (length (cascade a)). rewrite run_trace_final.
    subst v. unfold decide. cbv zeta. cbn [v_status].
    now destruct (run (cascade a) init). }
  split; [reflexivity|].
  pose proof (cascade_of_table blk
                (Py.contains "STRESS" (RegimeEngine.label r))
                (Py.contains "VOL" (RegimeEngine.label r))
                (Py.gtb (RegimeEngine.vol r) (strict_vol a))
                (Py.ltb (RegimeEngine.dd r * 100) (strict_dd_pct a))
                (Py.gtb (ruin_pct a) (ruin_threshold a))
                (RegimeEngine.score r <? 35)%Z
                (Py.ltb (score a) 40)) as T.
  change (cascade_of _ _ _ _ _ _ _ _) with (cascade a) in T.
  cbv zeta in T.
  change (final_reasons (reasons (run (cascade a) init))) with (v_reasons v) in T.
  change (status (run (cascade a) init)) with (v_status v) in T.
  destruct T as (Hs & H1 & H2 & H3 & H4 & H5 & H6 & H7 & H8 & _).
  rewrite <- !has_reason_In, H1, H2, H3, H4, H5, H6, H7, H8.
  rewrite !andb_true_iff, !negb_true_iff, Z.ltb_lt.
  unfold Py.gtb. rewrite !ltb_lt.
  repeat split; try tauto.
  - intros E. rewrite E in Hs. destruct blk; [reflexivity|].
    destruct (_ || _); discriminate.
  - intros E. rewrite E in Hs. destruct (v_status v); try discriminate; reflexivity.
Qed.

Lemma decide_cascade_witness :
  let a := Scenario.blocked_low_operability in
  (rank AUTORIZADO <= rank BLOQUEIO)%nat
  /\ In "COST_BLOCK" (v_reasons (decide a))
  /\ ~ In "OPERABILITY_LOW" (v_reasons (decide a)).
Proof.
  cbv zeta.
  destruct (decide_cascade Scenario.blocked_low_operability)
    as (Hmono & _ & _ & _ & Hcost & _ & _ & _ & _ & _ & Hop & _).
  split.
  - exact (proj1 (Hmono 0%nat init
                    {| status := BLOQUEIO; reasons := ["COST_BLOCK"] |}
                    eq_refl eq_refl)).
  - split; [apply Hcost; reflexivity|].
    intros H. apply Hop in H as [_ H]. discriminate H.
Defined.

(** C1, as stated, fails: with the cost blocked and operability 10 the
    reasons are [COST_BLOCK] alone; neither OPERABILITY_LOW nor SCORE_LOW
    is recorded. *)
Lemma decide_blocked_drops_low_reasons :
  let a := Scenario.blocked_low_operability in
  CostEngine.blocked (cost a) = true
  /\ (RegimeEngine.score (regime a) < 35)%Z
  /\ (score a < 40)%Q
  /\ v_reasons (decide a) = ["COST_BLOCK"]
  /\ ~ In "OPERABILITY_LOW" (v_reasons (decide a))
  /\ ~ In "SCORE_LOW" (v_reasons (decide a)).
Proof.
  cbv zeta. repeat split; try reflexivity.
  - intros [H|[]]; discriminate.
  - intros [H|[]]; discriminate.
Qed.

End VerdictFacts.

(* ------------------------------------------------------------------ *)
(** ** RegimeEngine *)
Section RegimeFacts.
Import RegimeEngine.

Lemma int_inject_Z (n : Z) : Py.int (inject_Z n) = n.
Proof. unfold Py.int; cbn. apply Z.quot_1_r. Qed.

Lemma int_nonneg (q : Q) : (0 <= q)%Q -> 0 <= Py.int q.
Proof.
  destruct q as [n d]. unfold Qle, Py.int; cbn. intros H.
  apply Z.quot_pos; lia.
Qed.

Lemma int_floor (q : Q) : (0 <= q)%Q -> Py.int q = Qfloor q.
Proof.
  destruct q as [n d]. unfold Qle, Py.int, Qfloor; cbn. intros H.
  apply Z.quot_div_nonneg; lia.
Qed.

Lemma int_clamp_Z (s : Z) :
  Py.int (clamp (inject_Z s) 0 100) = Z.max 0 (Z.min 100 s).
Proof.
  unfold clamp.
  destruct (min_spec 100 (inject_Z s)) as [[H1 ->]|[H1 ->]];
    [ change 100%Q with (inject_Z 100) in H1; rewrite <- Zlt_Qlt in H1
    | change 100%Q with (inject_Z 100) in H1; rewrite <- Zle_Qle in H1 ].
  - destruct (max_spec 0 (inject_Z s)) as [[H2 ->]|[H2 ->]].
    + change 0%Q with (inject_Z 0) in H2; rewrite <- Zlt_Qlt in H2.
      rewrite int_inject_Z. lia.
    + change 0%Q with (inject_Z 0) in H2; rewrite <- Zle_Qle in H2.
      change (Py.int 0) with 0. lia.
  - destruct (max_spec 0 100) as [[H2 ->]|[H2 ->]].
    + change (Py.int 100) with 100. lia.
    + exfalso. revert H2. apply Qlt_not_le. reflexivity.
Qed.

Lemma max0_nonneg (x : Q) : (0 <= Py.max 0 x)%Q.
Proof.
  destruct (max_spec 0 x) as [[H ->]|[H ->]]; [now apply Qlt_le_weak | apply Qle_refl].
Qed.

Lemma abs_mul_nonneg (x : Q) (k : Q) : (0 <= k)%Q -> (0 <= Qabs x * k)%Q.
Proof. intros Hk. apply Qmult_le_0_compat; [apply Qabs_nonneg | assumption]. Qed.

Lemma cost_term_nonneg (c : Z) : 0 <= c -> (0 <= inject_Z c * (8 # 10))%Q.
Proof.
  intros H. apply Qmult_le_0_compat; [|discriminate].
  change 0%Q with (inject_Z 0). now rewrite <- Zle_Qle.
Qed.

(** What [analyze] returns when it returns. *)
Lemma analyze_ok (d : Frame) (cost_bps : Z) (r : Regime) :
  analyze d cost_bps = Py.Ok r ->
  exists last,
    Py.iloc_neg d 1 = Py.Ok last
    /\ z r = ZScore last /\ vol r = VolAnn last /\ dd r = Drawdown last
    /\ score r = operability (ZScore last) (VolAnn last) (Drawdown last) cost_bps.
Proof.
  unfold analyze, mbind, result_bind, Py.bind.
  destruct (Py.iloc_neg d 1) as [last|]; [|discriminate].
  destruct (sma20_slope d) as [sl|]; [|discriminate].
  intros [= <-]. exists last. cbn. auto.
Qed.

Lemma iloc_neg_ok {A} (l : list A) (k : nat) :
  (1 <= k <= length l)%nat -> exists a, Py.iloc_neg l k = Py.Ok a.
Proof.
  intros H. unfold Py.iloc_neg.
  destruct (nth_error (rev l) (Nat.pred k)) eqn:E; [eauto|].
  apply nth_error_None in E. rewrite length_rev in E. lia.
Qed.

(** [analyze] returns as soon as the frame holds six rows. *)
Lemma analyze_total (d : Frame) (cost_bps : Z) :
  (6 <= length d)%nat -> exists r, analyze d cost_bps = Py.Ok r.
Proof.
  intros H. unfold analyze, sma20_slope, mbind, result_bind, Py.bind.
  destruct (iloc_neg_ok d 1) as [last ->]; [lia|].
  destruct (iloc_neg_ok (map SMA20 d) 1) as [a ->]; [rewrite length_map; lia|].
  destruct (iloc_neg_ok (map SMA20 d) 6) as [b ->]; [rewrite length_map; lia|].
  eauto.
Qed.

Lemma pymax_Qmax (a b : Q) : (Py.max a b == Qmax a b)%Q.
Proof.
  destruct (max_spec a b) as [[H ->]|[H ->]].
  - symmetry. apply Q.max_r. now apply Qlt_le_weak.
  - symmetry. now apply Q.max_l.
Qed.

(** The code's score in closed form: every deduction is floored on its
    own, the running score never leaves the integers. *)
Lemma operability_closed_form (z vol dd : Q) (cost_bps : Z) :
  0 <= cost_bps ->
  operability z vol dd cost_bps
  = Z.max 0 (Z.min 100
      (75 - Qfloor (7 * Qabs z) - Qfloor (Qmax 0 (vol - 25))
          - Qfloor (120 * Qabs dd) - Qfloor ((8 # 10) * inject_Z cost_bps))).
Proof.
  intros Hc. unfold operability. cbv zeta. rewrite int_clamp_Z.
  rewrite (int_floor (Qabs z * 7)) by (apply abs_mul_nonneg; discriminate).
  rewrite (int_floor (Py.max 0 (vol - 25))) by apply max0_nonneg.
  rewrite (int_floor (Qabs dd * 120)) by (apply abs_mul_nonneg; discriminate).
  rewrite (int_floor (inject_Z cost_bps * (8 # 10))) by now apply cost_term_nonneg.
  rewrite (Qfloor_comp _ _ (Qmult_comm (Qabs z) 7)).
  rewrite (Qfloor_comp _ _ (Qmult_comm (Qabs dd) 120)).
  rewrite (Qfloor_comp _ _ (Qmult_comm (inject_Z cost_bps) (8 # 10))).
  rewrite (Qfloor_comp _ _ (pymax_Qmax 0 (vol - 25))).
  reflexivity.
Qed.




(** C9.  For every input with [cost_bps >= 0] the operability score
    returned by [analyze] is at most 75: the four deductions are
    non-negative integers, so 75 bounds the score and the upper clamp at
    100 never acts. *)
Theorem operability_le_75 (d : Frame) (cost_bps : Z) (r : Regime) :
  0 <= cost_bps ->
  analyze d cost_bps = Py.Ok r ->
  let t1 := Py.int (Qabs (z r) * 7) in
  let t2 := Py.int (Py.max 0 (vol r - 25)) in
  let t3 := Py.int (Qabs (dd r) * 120) in
  let t4 := Py.int (inject_Z cost_bps * (8 # 10)) in
  0 <= t1 /\ 0 <= t2 /\ 0 <= t3 /\ 0 <= t4
  /\ score r = Z.max 0 (75 - t1 - t2 - t3 - t4)
  /\ 0 <= score r <= 75.
Proof.
  intros Hc Hr t1 t2 t3 t4.
  destruct (analyze_ok _ _ _ Hr) as (last & _ & Hz & Hv & Hd & Hs).
  assert (H1 : 0 <= t1) by (apply int_nonneg, abs_mul_nonneg; discriminate).
  assert (H2 : 0 <= t2) by apply int_nonneg, max0_nonneg.
  assert (H3 : 0 <= t3) by (apply int_nonneg, abs_mul_nonneg; discriminate).
  assert (H4 : 0 <= t4) by now apply int_nonneg, cost_term_nonneg.
  assert (E : score r = Z.max 0 (Z.min 100 (75 - t1 - t2 - t3 - t4))).
  { rewrite Hs. subst t1 t2 t3 t4. rewrite Hz, Hv, Hd.
    unfold operability. cbv zeta. apply int_clamp_Z. }
  repeat split; try assumption; lia.
Qed.

Lemma operability_le_75_witness :
  exists r, analyze Scenario.half_sigma_frame 5 = Py.Ok r /\ score r <= 75.
Proof.
  eexists. split; [reflexivity|].
  eapply (operability_le_75 Scenario.half_sigma_frame 5); [lia | reflexivity].
Defined.

End RegimeFacts.

(* ------------------------------------------------------------------ *)
(** ** ScoreEngine *)
Section ScoreFacts.
Import ScoreEngine.

Lemma sma20_slope_total (d : Frame) :
  (6 <= length d)%nat -> exists sl, sma20_slope d = Py.Ok sl.
Proof.
  intros H. unfold sma20_slope, mbind, result_bind, Py.bind.
  destruct (iloc_neg_ok (map SMA20 d) 1) as [a ->]; [rewrite length_map; lia|].
  destruct (iloc_neg_ok (map SMA20 d) 6) as [b ->]; [rewrite length_map; lia|].
  eauto.
Qed.

Lemma trend_score_total (last : Row) (d : Frame) :
  (6 <= length d)%nat -> exists ts, trend_score last d = Py.Ok ts.
Proof.
  intros H. unfold trend_score, mbind, result_bind, Py.bind.
  destruct (sma20_slope_total d H) as [sl ->]. eauto.
Qed.

Lemma sma20_slope_raises (d : Frame) (e : Py.exn) :
  sma20_slope d = Py.Raise e -> e = Py.IndexError.
Proof.
  unfold sma20_slope, mbind, mret, result_bind, result_ret, Py.bind, Py.iloc_neg.
  repeat (destruct (nth_error _ _)); congruence.
Qed.

Lemma getitem_raises {V} (w : gmap string V) (k : string) (e : Py.exn) :
  Py.getitem w k = Py.Raise e -> e = Py.KeyError k.
Proof. unfold Py.getitem. destruct (w !! k); congruence. Qed.

Lemma truediv_raises (a b : Q) (e : Py.exn) :
  truediv a b = Py.Raise e -> e = Py.ZeroDivisionError.
Proof. unfold truediv. destruct (Qeq_bool b 0); congruence. Qed.

(** Whatever [multi] raises, it is an [IndexError] (frame shorter than
    six rows), a [KeyError] (weight missing) or a [ZeroDivisionError]. *)
Lemma multi_raises (d : Frame) (last : Row) (cost_bps : Z) (lbl : string)
    (weights : gmap string Q) (e : Py.exn) :
  multi d last cost_bps lbl weights = Py.Raise e ->
  e = Py.IndexError \/ (exists k, e = Py.KeyError k) \/ e = Py.ZeroDivisionError.
Proof.
  unfold multi, trend_score, mbind, result_bind, Py.bind.
  destruct (sma20_slope d) eqn:E1;
    [| intros [= <-]; left; eapply sma20_slope_raises; eassumption].
  cbn.
  destruct (Py.getitem weights "trend") eqn:E2;
    [| intros [= <-]; right; left; eexists; eapply getitem_raises; eassumption].
  destruct (Py.getitem weights "meanrev") eqn:E3;
    [| intros [= <-]; right; left; eexists; eapply getitem_raises; eassumption].
  destruct (Py.getitem weights "risk") eqn:E4;
    [| intros [= <-]; right; left; eexists; eapply getitem_raises; eassumption].
  destruct (truediv _ _) eqn:E5;
    [| intros [= <-]; right; right; eapply truediv_raises; eassumption].
  destruct (truediv a1 _) eqn:E6;
    [| intros [= <-]; right; right; eapply truediv_raises; eassumption].
  destruct (truediv a2 _) eqn:E7;
    [| intros [= <-]; right; right; eapply truediv_raises; eassumption].
  discriminate.
Qed.




End ScoreFacts.

(* ------------------------------------------------------------------ *)
(** ** SafetyGuard *)
Section SafetyFacts.
Import Execution.

Variables (g : SafetyGuard) (clk : Clock) (order : OrderIntent) (capital : F64.t).

Let pnl : Q := SQLiteStore.daily_realized_pnl (store g) (utc_date clk).
Let limit : F64.t :=
  F64.neg (F64.mul capital (F64.div (max_daily_loss_pct (cfg g)) (F64.of_Z 100))).

(** [validate] step by step: its answer and the collaborator calls made,
    for each way out of the function. *)
Lemma validate_run :
  run (validate g clk order capital) [] =
  if negb (ping (broker g))
  then (Py.Ok {| ok := false; reason := "BROKER_OFFLINE" |}, [EvPing])
  else
    match trading_time g clk with
    | Py.Raise e =>
        (Py.Raise e,
         match now_market clk (tz_market (cfg g)) with
         | Some _ => [EvPing; EvNowMarket]
         | None => [EvPing]
         end)
    | Py.Ok (ok_time, r_time) =>
        if negb ok_time
        then (Py.Ok {| ok := false; reason := r_time |}, [EvPing; EvNowMarket])
        else
          let '(ok_pos, r_pos) :=
            scan_positions (get_open_positions (broker g)) (ticker order) in
          if negb ok_pos
          then (Py.Ok {| ok := false; reason := r_pos |},
                [EvPing; EvNowMarket; EvGetOpenPositions])
          else
            (Py.Ok (if Fl.leb (Fl.Fin pnl) (F64.value limit)
                    then {| ok := false;
                            reason := "KILL_SWITCH_DAILY_LOSS pnl="
                                      ++ Py.format_2f pnl ++ " limit="
                                      ++ F64.format_2f limit |}
                    else {| ok := true; reason := "OK" |}),
             [EvPing; EvNowMarket; EvGetOpenPositions; EvUtcNow;
              EvDailyRealizedPnl (utc_date clk)])
    end.
Proof.
  unfold validate, _is_trading_time, _now_market, trading_time, _position_check,
    _kill_switch, loss_limit.
  unfold mbind, eff_bind, mret, eff_ret, call, lift. cbn [run app].
  destruct (ping (broker g)); cbn [negb run]; [|reflexivity].
  destruct (now_market clk (tz_market (cfg g))) as [now|]; cbn [run app];
    [|reflexivity].
  destruct (trading_time_at (cfg g) now) as [[ok_time r_time]|e];
    [|reflexivity].
  destruct ok_time; cbn [negb run]; [|reflexivity].
  destruct (scan_positions _ _) as [ok_pos r_pos].
  destruct ok_pos; cbn [negb run]; [|reflexivity].
  fold pnl limit.
  destruct (Fl.leb (Fl.Fin pnl) (F64.value limit)); reflexivity.
Qed.

Lemma scan_positions_true positions t :
  fst (scan_positions positions t) = true ->
  scan_positions positions t = (true, "OK").
Proof.
  induction positions as [|p rest IH]; cbn; [reflexivity|].
  destruct (same_ticker p t); [discriminate | exact IH].
Qed.

Lemma scan_positions_hit positions t :
  (exists p, In p positions
             /\ Py.upper (default "" (p !! "ticker")) = Py.upper t) ->
  scan_positions positions t = (false, "POSITION_ALREADY_OPEN").
Proof.
  intros (p & Hin & Hp).
  induction positions as [|q rest IH]; [destruct Hin|].
  cbn. destruct (same_ticker q t) eqn:E; [reflexivity|].
  destruct Hin as [->|Hin]; [|now apply IH].
  unfold same_ticker in E. rewrite Hp, String.eqb_refl in E. discriminate.
Qed.


(** C10.  Whatever the configuration, once the broker answers the ping
    and the trading-time check passes, [validate] asks the broker for its
    open positions; if one of them carries the order's ticker, compared
    case-insensitively, the answer is [ok = false] with
    POSITION_ALREADY_OPEN and neither the clock nor the ledger is read
    for the daily-loss kill switch. *)
Theorem position_check_blocks :
  ping (broker g) = true ->
  trading_time g clk = Py.Ok (true, "OK") ->
  let out := run (validate g clk order capital) [] in
  In EvGetOpenPositions (snd out)
  /\ ((exists p, In p (get_open_positions (broker g))
                 /\ Py.upper (default "" (p !! "ticker"))
                    = Py.upper (ticker order)) ->
      out = (Py.Ok {| ok := false; reason := "POSITION_ALREADY_OPEN" |},
             [EvPing; EvNowMarket; EvGetOpenPositions])
      /\ ~ In EvUtcNow (snd out)
      /\ forall date, ~ In (EvDailyRealizedPnl date) (snd out)).
Proof.
  intros Hp Ht out. subst out. rewrite validate_run, Hp, Ht. cbn [negb].
  split.
  - destruct (scan_positions _ _) as [[] r]; cbn; auto.
  - intros Hhit. rewrite (scan_positions_hit _ _ Hhit). cbn [negb snd].
    split; [reflexivity|]. split.
    + intros [H|[H|[H|[]]]]; discriminate.
    + intros date [H|[H|[H|[]]]]; discriminate.
Qed.

End SafetyFacts.



Lemma position_check_blocks_witness :
  Execution.run
    (Execution.validate Scenario.guard_open_position Scenario.clock_e
                        Scenario.order_vale (F64.of_Z 10000)) []
  = (Py.Ok {| Execution.ok := false;
              Execution.reason := "POSITION_ALREADY_OPEN" |},
     [Execution.EvPing; Execution.EvNowMarket; Execution.EvGetOpenPositions]).
Proof.
  refine (proj1 (proj2 (position_check_blocks Scenario.guard_open_position
                          Scenario.clock_e Scenario.order_vale (F64.of_Z 10000) _ _) _));
    try reflexivity.
  exists {[ "ticker" := "vale3.sa"; "qty" := "200" ]}.
  split; [right; left; reflexivity | reflexivity].
Defined.

(* ------------------------------------------------------------------ *)
(** ** RiskEngine *)
Section RiskFacts.
Import RiskEngine.

Lemma clamp_range (x lo hi : Q) :
  (lo <= hi)%Q -> (lo <= clamp x lo hi)%Q /\ (clamp x lo hi <= hi)%Q.
Proof.
  intros H. unfold clamp.
  destruct (min_spec hi x) as [[H1 ->]|[H1 ->]];
    destruct (max_spec lo x) as [[H2 E]|[H2 E]];
    destruct (max_spec lo hi) as [[H3 E']|[H3 E']];
    rewrite ?E, ?E'; split;
    first [ assumption | apply Qle_refl | now apply Qlt_le_weak ].
Qed.

Lemma filter_length_le {A} (f : A -> bool) (l : list A) :
  (length (List.filter f l) <= length l)%nat.
Proof.
  induction l as [|a l IH]; cbn; [lia|]. destruct (f a); cbn; lia.
Qed.

Lemma mean_bool_nonempty (l : list bool) :
  l <> [] ->
  mean_bool l = Fl.Fin (inject_Z (Z.of_nat (length (List.filter id l)))
                        / inject_Z (Z.of_nat (length l))).
Proof. destruct l; [congruence | reflexivity]. Qed.

(** A count out of a positive total is a fraction in [0,1]. *)
Lemma fraction_range (c n : nat) :
  (c <= n)%nat -> (0 < n)%nat ->
  let q := (inject_Z (Z.of_nat c) / inject_Z (Z.of_nat n))%Q in
  (0 <= q)%Q /\ (q <= 1)%Q.
Proof.
  intros Hc Hn q. subst q.
  assert (Hn' : (0 < inject_Z (Z.of_nat n))%Q).
  { change 0%Q with (inject_Z 0). rewrite <- Zlt_Qlt. lia. }
  split.
  - apply Qle_shift_div_l; [exact Hn'|]. rewrite Qmult_0_l.
    change 0%Q with (inject_Z 0). rewrite <- Zle_Qle. lia.
  - apply Qle_shift_div_r; [exact Hn'|]. rewrite Qmult_1_l.
    rewrite <- Zle_Qle. lia.
Qed.

Lemma filter_id_map {A} (f : A -> bool) (l : list A) :
  length (List.filter id (map f l)) = length (List.filter f l).
Proof.
  induction l as [|a l IH]; [reflexivity|].
  cbn [map List.filter]. unfold id at 1.
  destruct (f a); cbn [length]; congruence.
Qed.

Lemma random_choice_accepts draw (p : Q) (sims trades : nat) :
  (0 <= p)%Q -> (p <= 1)%Q ->
  random_choice draw p sims trades
  = Py.Ok (map (fun i => map (draw p i) (seq 0 trades)) (seq 0 sims)).
Proof.
  intros H0 H1. unfold random_choice.
  assert (E0 : Py.ltb p 0 = false) by now apply ltb_ge.
  assert (E1 : Py.ltb (1 - p) 0 = false) by (apply ltb_ge; lra).
  now rewrite E0, E1.
Qed.


End RiskFacts.


(* ------------------------------------------------------------------ *)
(** ** IndicatorEngine *)
Section IndicatorFacts.
Import IndicatorEngine.

Variable lib : NumLib.

(** *** Frames *)

Lemma lookup_assign_all cols : forall d name,
  columns (assign_all d cols) !! name = assigned cols name (columns d !! name).
Proof.
  induction cols as [|[k c] rest IH]; intros d name; [reflexivity|].
  cbn [assign_all fold_left assigned fst snd].
  change (fold_left _ rest ?x) with (assign_all x rest). rewrite IH.
  f_equal. cbn [setitem columns].
  destruct (String.eqb_spec k name) as [->|Hne].
  - apply lookup_insert_eq.
  - now apply lookup_insert_ne.
Qed.

Lemma nrows_assign_all cols : forall d, nrows (assign_all d cols) = nrows d.
Proof.
  induction cols as [|kc rest IH]; intros d; [reflexivity|].
  cbn [assign_all fold_left].
  change (fold_left _ rest ?x) with (assign_all x rest). now rewrite IH.
Qed.

Lemma getitem_raises_key d name e :
  getitem d name = Py.Raise e -> e = Py.KeyError name.
Proof. unfold getitem. destruct (columns d !! name); congruence. Qed.

(** The columns [high] and [low] are read from a frame that already
    holds the first seven derived columns; none of them is named [high]
    or [low]. *)
Lemma getitem_after_price_block d close name :
  assigned (price_block lib close) name (columns d !! name) = columns d !! name ->
  getitem (assign_all d (price_block lib close)) name = getitem d name.
Proof.
  intros H. unfold getitem. now rewrite lookup_assign_all, nrows_assign_all, H.
Qed.

(** The frame [calculate] hands to [dropna]. *)
Lemma calculate_ok df out :
  calculate lib df = Py.Ok out ->
  exists close high low,
    getitem df "close_final" = Py.Ok close
    /\ getitem df "high" = Py.Ok high
    /\ getitem df "low" = Py.Ok low
    /\ out = dropna (assign_all (assign_all df (price_block lib close))
                               (range_block lib close high low)).
Proof.
  unfold calculate, mbind, result_bind, Py.bind, mret, result_ret.
  destruct (getitem df "close_final") as [close|] eqn:Ec; [|discriminate].
  rewrite !getitem_after_price_block by reflexivity.
  destruct (getitem df "high") as [high|] eqn:Eh; [|discriminate].
  destruct (getitem df "low") as [low|] eqn:El; [|discriminate].
  intros [= <-]. eauto 10.
Qed.

Lemma calculate_raises df e :
  calculate lib df = Py.Raise e ->
  e = Py.KeyError "close_final" \/ e = Py.KeyError "high" \/ e = Py.KeyError "low".
Proof.
  unfold calculate, mbind, result_bind, Py.bind, mret, result_ret.
  destruct (getitem df "close_final") as [close|] eqn:Ec;
    [|intros [= <-]; left; eapply getitem_raises_key; eassumption].
  rewrite !getitem_after_price_block by reflexivity.
  destruct (getitem df "high") as [high|] eqn:Eh;
    [|intros [= <-]; right; left; eapply getitem_raises_key; eassumption].
  destruct (getitem df "low") as [low|] eqn:El;
    [|intros [= <-]; right; right; eapply getitem_raises_key; eassumption].
  discriminate.
Qed.

Lemma calculate_total df :
  is_Some (columns df !! "close_final") ->
  is_Some (columns df !! "high") ->
  is_Some (columns df !! "low") ->
  exists out, calculate lib df = Py.Ok out.
Proof.
  intros [c Hc] [h Hh] [l Hl].
  unfold calculate, mbind, result_bind, Py.bind, mret, result_ret.
  assert (Ec : getitem df "close_final" = Py.Ok (series (nrows df) c))
    by (unfold getitem; now rewrite Hc).
  rewrite Ec. rewrite !getitem_after_price_block by reflexivity.
  unfold getitem. rewrite Hh, Hl. eauto.
Qed.

(** *** [dropna] *)

Lemma nrows_dropna d : (nrows (dropna d) <= nrows d)%nat.
Proof.
  unfold dropna. cbn [nrows].
  etransitivity; [apply filter_length_le | now rewrite length_seq].
Qed.

Lemma row_complete_cell cols i name c :
  row_complete cols i = true -> cols !! name = Some c -> cell c i <> Fl.NaN.
Proof.
  unfold row_complete. rewrite forallb_forall. intros H Hc E.
  specialize (H (name, c)). cbn [snd] in H. unfold not_nan in H. rewrite E in H.
  enough (false = true) by discriminate. apply H.
  apply list_elem_of_In, elem_of_map_to_list. exact Hc.
Qed.

(** A column of the frame after [dropna]: the cells of the kept rows. *)
Lemma lookup_dropna d name :
  columns (dropna d) !! name
  = (fun c => map (cell c) (List.filter (row_complete (columns d)) (seq 0 (nrows d))))
      <$> columns d !! name.
Proof. unfold dropna. cbn [columns]. apply lookup_fmap. Qed.

Lemma filter_none {A} (f : A -> bool) (l : list A) :
  (forall x, In x l -> f x = false) -> List.filter f l = [].
Proof.
  induction l as [|a l IH]; intros H; [reflexivity|]. cbn.
  rewrite (H a) by now left. apply IH. intros x Hx. apply H. now right.
Qed.

(** A column that is NaN on every row empties the frame. *)
Lemma dropna_empty d name c :
  columns d !! name = Some c ->
  (forall i, (i < nrows d)%nat -> cell c i = Fl.NaN) ->
  nrows (dropna d) = 0%nat.
Proof.
  intros Hc Hnan. unfold dropna. cbn [nrows].
  rewrite filter_none; [reflexivity|].
  intros i Hi. apply in_seq in Hi.
  destruct (row_complete (columns d) i) eqn:E; [|reflexivity].
  exfalso. eapply row_complete_cell; [exact E | exact Hc | apply Hnan; lia].
Qed.

(** *** Rolling windows *)

Lemma cell_map_seq (g : nat -> Fl.t) (len i : nat) :
  cell (map g (seq 0 len)) i = if (i <? len)%nat then g i else Fl.NaN.
Proof.
  unfold cell. destruct (Nat.ltb_spec i len) as [H|H].
  - rewrite (nth_indep _ Fl.NaN (g 0%nat)) by now rewrite length_map, length_seq.
    rewrite map_nth, seq_nth by assumption. reflexivity.
  - apply nth_overflow. now rewrite length_map, length_seq.
Qed.

(** A window of sixty cells over a series that starts with NaN has no
    value before index 60. *)
Lemma rolling60_warmup agg xs i :
  cell xs 0 = Fl.NaN -> (i < 60)%nat -> cell (rolling 60 agg xs) i = Fl.NaN.
Proof.
  intros H0 Hi. unfold rolling. rewrite cell_map_seq.
  destruct (i <? length xs)%nat eqn:El; [|reflexivity].
  apply Nat.ltb_lt in El.
  destruct (Nat.leb_spec 60 (i + 1)) as [H|H]; [|reflexivity].
  assert (i = 59%nat) as -> by lia.
  unfold window. cbn [Nat.sub Nat.add skipn].
  destruct xs as [|x xs]; [cbn in El; lia|].
  cbn in H0. subst x. reflexivity.
Qed.

Lemma pct_change_head close : cell (pct_change close) 0 = Fl.NaN.
Proof. destruct close as [|[] [|y rest]]; reflexivity. Qed.

(** *** Equity, peak and drawdown *)

Lemma fl_leb_refl x : Fl.is_nan x = false -> Fl.leb x x = true.
Proof.
  destruct x; cbn; try reflexivity; try discriminate.
  intros _. apply leb_le, Qle_refl.
Qed.

Lemma fl_ltb_false_leb x y :
  Fl.is_nan x = false -> Fl.is_nan y = false ->
  Fl.ltb x y = false -> Fl.leb y x = true.
Proof.
  destruct x, y; cbn; try reflexivity; try discriminate.
  intros _ _ H. apply leb_le. now apply ltb_ge.
Qed.

Lemma fl_positive_above x y :
  Fl.positive x -> Fl.ltb x y = true -> Fl.positive y.
Proof.
  destruct x, y; cbn; try tauto; try discriminate.
  intros Hx H. apply ltb_lt in H. eapply Qlt_trans; eassumption.
Qed.

(** The running maximum dominates every cell it has seen, and stays
    positive once it is. *)
Lemma cummax_from_under_peak equity : forall acc,
  Fl.positive acc -> Forall2 under_peak equity (cummax_from acc equity).
Proof.
  induction equity as [|x rest IH]; intros acc Hacc; [constructor|].
  cbn [cummax_from]. destruct (Fl.is_nan x) eqn:Ex.
  - constructor; [|now apply IH].
    left. destruct x; try discriminate. split; reflexivity.
  - assert (Hacc' : Fl.is_nan acc = false) by (destruct acc; cbn in *; tauto).
    unfold Fl.max. destruct (Fl.ltb acc x) eqn:El.
    + constructor; [|apply IH; eapply fl_positive_above; eassumption].
      right. split; [now apply fl_leb_refl | eapply fl_positive_above; eassumption].
    + constructor; [|now apply IH].
      right. split; [now apply fl_ltb_false_leb | assumption].
Qed.

(** [(e - p) / p] for an equity cell under a positive peak. *)
Lemma drawdown_under_peak e p :
  under_peak e p -> nan_or_nonpos (Fl.div (Fl.sub e p) p).
Proof.
  intros [[-> ->]|[Hle Hp]]; [left; reflexivity|].
  destruct p as [q| | |]; cbn in Hp; try tauto.
  - destruct e as [a| | |]; cbn in Hle; try discriminate.
    + right. cbn. apply leb_le in Hle.
      assert (Eq : Qeq_bool q 0 = false).
      { destruct (Qeq_bool q 0) eqn:E; [|reflexivity].
        apply Qeq_bool_iff in E. rewrite E in Hp. now apply Qlt_irrefl in Hp. }
      rewrite Eq. cbn.
      apply Qle_shift_div_r; [exact Hp|]. rewrite Qmult_0_l. lra.
    + right. cbn. assert (E : Py.ltb q 0 = false) by (apply ltb_ge; lra).
      rewrite E. exact I.
  - left. destruct e; reflexivity.
Qed.

Lemma drawdown_of_under_peak equity peak :
  Forall2 under_peak equity peak ->
  Forall nan_or_nonpos (drawdown_of equity peak).
Proof.
  induction 1 as [|e p equity peak H _ IH]; [constructor|].
  constructor; [now apply drawdown_under_peak | exact IH].
Qed.

(** The first return is undefined, so the equity curve starts at 1 and
    every later cell sits under a positive running peak. *)
Lemma equity_under_peak ret :
  cell ret 0 = Fl.NaN ->
  Forall2 under_peak (equity_of ret) (cummax (equity_of ret)).
Proof.
  intros H0. destruct ret as [|r rest]; [constructor|].
  cbn in H0. subst r. unfold equity_of, cumprod, cummax.
  cbn [map fillna0 Fl.is_nan Fl.add cumprod_from cummax_from].
  constructor.
  - right. split; reflexivity.
  - apply cummax_from_under_peak. reflexivity.
Qed.

Lemma cell_Forall (P : Fl.t -> Prop) xs i :
  P Fl.NaN -> Forall P xs -> P (cell xs i).
Proof.
  intros Hd H. unfold cell. revert i.
  induction H as [|x xs Hx _ IH]; intros [|i]; cbn; auto.
Qed.

Lemma cell_Forall2 (R : Fl.t -> Fl.t -> Prop) xs ys i :
  R Fl.NaN Fl.NaN -> Forall2 R xs ys -> R (cell xs i) (cell ys i).
Proof.
  intros Hd H. unfold cell. revert i.
  induction H as [|x y xs ys Hx _ IH]; intros [|i]; cbn; auto.
Qed.

Lemma cell_drawdown_of equity : forall peak i,
  length equity = length peak ->
  cell (drawdown_of equity peak) i
  = Fl.div (Fl.sub (cell equity i) (cell peak i)) (cell peak i).
Proof.
  induction equity as [|e equity IH]; intros [|p peak] i Hlen;
    try discriminate Hlen.
  - destruct i; reflexivity.
  - destruct i as [|i]; [reflexivity|]. apply (IH peak i). now injection Hlen.
Qed.

Lemma drawdown_of_rows equity peak (kept : list nat) :
  length equity = length peak ->
  map (cell (drawdown_of equity peak)) kept
  = drawdown_of (map (cell equity) kept) (map (cell peak) kept).
Proof.
  intros Hlen. induction kept as [|i kept IH]; [reflexivity|].
  cbn [map]. rewrite cell_drawdown_of by assumption.
  unfold drawdown_of in *. cbn. now rewrite <- IH.
Qed.

Lemma length_cummax_from xs : forall acc, length (cummax_from acc xs) = length xs.
Proof.
  induction xs as [|x xs IH]; intros acc; [reflexivity|].
  cbn. destruct (Fl.is_nan x); cbn; now rewrite IH.
Qed.

(** *** The claims on [calculate] *)

(** C7.  For any input frame on which [calculate] returns, the returned
    frame has the columns Equity, Peak and Drawdown, Drawdown is
    [(Equity - Peak) / Peak] row by row, and in every retained row the
    equity does not exceed its running peak and the drawdown is at most
    zero. *)
Theorem drawdown_nonpos (df out : DataFrame) :
  calculate lib df = Py.Ok out ->
  exists equity peak drawdown,
    columns out !! "Equity" = Some equity
    /\ columns out !! "Peak" = Some peak
    /\ columns out !! "Drawdown" = Some drawdown
    /\ length drawdown = nrows out
    /\ drawdown = drawdown_of equity peak
    /\ Forall2 (fun e p => Fl.leb e p = true) equity peak
    /\ Forall Fl.nonpos drawdown.
Proof.
  intros Hout.
  destruct (calculate_ok _ _ Hout) as (close & high & low & _ & _ & _ & ->).
  set (d := assign_all _ (range_block lib close high low)).
  set (ret := pct_change close).
  set (equity := equity_of ret).
  set (peak := cummax equity).
  assert (He : columns d !! "Equity" = Some equity)
    by (subst d; rewrite lookup_assign_all; reflexivity).
  assert (Hp : columns d !! "Peak" = Some peak)
    by (subst d; rewrite lookup_assign_all; reflexivity).
  assert (Hd : columns d !! "Drawdown" = Some (drawdown_of equity peak))
    by (subst d; rewrite lookup_assign_all; reflexivity).
  assert (Hup : Forall2 under_peak equity peak)
    by apply equity_under_peak, pct_change_head.
  assert (Hlen : length equity = length peak)
    by (subst peak; unfold cummax; now rewrite length_cummax_from).
  set (kept := List.filter (row_complete (columns d)) (seq 0 (nrows d))).
  assert (Hkept : forall i, In i kept -> row_complete (columns d) i = true).
  { intros i Hi. now apply filter_In in Hi. }
  exists (map (cell equity) kept), (map (cell peak) kept),
         (map (cell (drawdown_of equity peak)) kept).
  rewrite !lookup_dropna, He, Hp, Hd. fold kept.
  repeat split.
  - rewrite length_map. reflexivity.
  - now apply drawdown_of_rows.
  - clear -Hkept He Hup. induction kept as [|i kept IH]; [constructor|].
    cbn [map]. constructor; [|apply IH; intros j Hj; apply Hkept; now right].
    destruct (cell_Forall2 under_peak equity peak i) as [[E _]|[Hle _]];
      [left; split; reflexivity | exact Hup | | exact Hle].
    exfalso. eapply row_complete_cell; [apply Hkept; now left | exact He | exact E].
  - clear -Hkept Hd Hup. induction kept as [|i kept IH]; [constructor|].
    cbn [map]. constructor; [|apply IH; intros j Hj; apply Hkept; now right].
    destruct (cell_Forall nan_or_nonpos (drawdown_of equity peak) i) as [E|H];
      [left; reflexivity | now apply drawdown_of_under_peak | | exact H].
    exfalso. eapply row_complete_cell; [apply Hkept; now left | exact Hd | exact E].
Qed.

(** C3 (amended).  [calculate] raises [KeyError] when the frame has no
    column [close_final]; no input makes it raise a [DataError].  For a
    frame that has [close_final], [high] and [low] it returns whatever
    the history length: the result has at most as many rows as the
    input, and none when the input has sixty rows or fewer. *)
Theorem calculate_errors (df : DataFrame) :
  (columns df !! "close_final" = None ->
     calculate lib df = Py.Raise (Py.KeyError "close_final"))
  /\ calculate lib df <> Py.Raise Py.DataError
  /\ (is_Some (columns df !! "close_final") ->
      is_Some (columns df !! "high") ->
      is_Some (columns df !! "low") ->
      exists out,
        calculate lib df = Py.Ok out
        /\ (nrows out <= nrows df)%nat
        /\ ((nrows df <= 60)%nat -> nrows out = 0%nat)).
Proof.
  split; [|split].
  - intros Hc. unfold calculate, mbind, result_bind, Py.bind, getitem.
    now rewrite Hc.
  - intros E. apply calculate_raises in E as [E|[E|E]]; discriminate.
  - intros Hc Hh Hl.
    destruct (calculate_total df Hc Hh Hl) as [out Hout].
    exists out. split; [exact Hout|].
    destruct (calculate_ok _ _ Hout) as (close & high & low & _ & _ & _ & ->).
    set (d := assign_all _ (range_block lib close high low)).
    assert (Hn : nrows d = nrows df)
      by (subst d; now rewrite !nrows_assign_all).
    split; [rewrite <- Hn; apply nrows_dropna|].
    intros Hshort.
    assert (Hs : columns d !! "Skew60"
                 = Some (rolling 60 (fun x => skew lib (dropna_series x))
                                 (pct_change close)))
      by (subst d; rewrite lookup_assign_all; reflexivity).
    apply (dropna_empty d _ _ Hs).
    intros i Hi. apply rolling60_warmup; [apply pct_change_head | lia].
Qed.

End IndicatorFacts.

(** Sixty-one flat bars and a ten percent fall: the two rows that
    survive the warm-up carry the drawdowns 0 and -1/10. *)
Lemma drawdown_nonpos_witness :
  exists out drawdown,
    IndicatorEngine.calculate Scenario.rational_lib (Scenario.bars 61) = Py.Ok out
    /\ IndicatorEngine.nrows out = 2%nat
    /\ IndicatorEngine.columns out !! "Drawdown" = Some drawdown
    /\ Forall Fl.nonpos drawdown.
Proof.
  destruct (IndicatorEngine.calculate Scenario.rational_lib (Scenario.bars 61))
    as [out|] eqn:E; [|vm_compute in E; discriminate E].
  destruct (drawdown_nonpos Scenario.rational_lib (Scenario.bars 61) out E)
    as (equity & peak & drawdown & _ & _ & Hd & Hlen & _ & _ & Hnp).
  exists out, drawdown. repeat split; try assumption.
  vm_compute in E. injection E as <-. reflexivity.
Defined.

(** Thirty bars are too short a history: an empty frame, no exception;
    without [close_final], a [KeyError]. *)
Lemma calculate_errors_witness :
  IndicatorEngine.calculate Scenario.rational_lib (Scenario.bars_no_close 30)
  = Py.Raise (Py.KeyError "close_final")
  /\ exists out,
       IndicatorEngine.calculate Scenario.rational_lib (Scenario.bars 30) = Py.Ok out
       /\ IndicatorEngine.nrows out = 0%nat.
Proof.
  destruct (calculate_errors Scenario.rational_lib (Scenario.bars_no_close 30))
    as (Hk & _ & _).
  destruct (calculate_errors Scenario.rational_lib (Scenario.bars 30))
    as (_ & _ & Hok).
  split; [apply Hk; reflexivity|].
  destruct Hok as (out & Hout & _ & Hempty);
    [vm_compute; eauto | vm_compute; eauto | vm_compute; eauto |].
  exists out. split; [exact Hout | apply Hempty; cbn; lia].
Defined.

(** C3, as stated, fails: a frame without [close_final] makes
    [calculate] raise a [KeyError], not a [DataError]; and a frame that
    has [close_final] but no [high] raises as well. *)
Lemma calculate_raises_key_error :
  IndicatorEngine.calculate Scenario.rational_lib (Scenario.bars_no_close 30)
  = Py.Raise (Py.KeyError "close_final")
  /\ IndicatorEngine.calculate Scenario.rational_lib (Scenario.bars_no_close 30)
     <> Py.Raise Py.DataError
  /\ IndicatorEngine.calculate Scenario.rational_lib (Scenario.bars_no_high 30)
     = Py.Raise (Py.KeyError "high").
Proof.
  assert (E : IndicatorEngine.calculate Scenario.rational_lib
                (Scenario.bars_no_close 30)
              = Py.Raise (Py.KeyError "close_final")) by (vm_compute; reflexivity).
  split; [exact E|]. split; [rewrite E; discriminate | vm_compute; reflexivity].
Qed.

(* ================================================================== *)
(** * Part III: further properties of the code *)
(* ================================================================== *)

(** ** Score components *)
Section ScoreRangeFacts.
Import ScoreEngine.

Lemma clamp_between (x lo hi a b : Q) :
  (lo <= a)%Q -> (a <= x)%Q -> (x <= b)%Q -> (b <= hi)%Q ->
  (a <= clamp x lo hi)%Q /\ (clamp x lo hi <= b)%Q.
Proof.
  intros H1 H2 H3 H4. unfold clamp.
  destruct (min_spec hi x) as [[Hm ->]|[Hm ->]].
  - destruct (max_spec lo x) as [[Hx ->]|[Hx ->]]; split; lra.
  - destruct (max_spec lo hi) as [[Hx ->]|[Hx ->]]; split; lra.
Qed.

Lemma clamp_mono (x y lo hi : Q) :
  (lo <= hi)%Q -> (x <= y)%Q -> (clamp x lo hi <= clamp y lo hi)%Q.
Proof.
  intros Hb Hxy. unfold clamp.
  destruct (min_spec hi x) as [[Hx ->]|[Hx ->]];
    destruct (min_spec hi y) as [[Hy ->]|[Hy ->]];
    repeat match goal with
           | |- context [Py.max ?a ?b] =>
               let H := fresh in let E := fresh in
               destruct (max_spec a b) as [[H E]|[H E]]; rewrite E; clear E
           end; lra.
Qed.

(** The trend component stays away from both ends of the scale, the
    risk component from its lower end, and the mean-reversion component
    falls as the z-score rises. *)
Theorem component_score_ranges (last : Row) (d : Frame) :
  (forall ts, trend_score last d = Py.Ok ts ->
              (1875 # 100 <= ts)%Q /\ (ts <= 84)%Q)
  /\ ((0 <= meanrev_score last)%Q /\ (meanrev_score last <= 100)%Q)
  /\ ((8 <= risk_score last)%Q /\ (risk_score last <= 100)%Q)
  /\ (forall last', (ZScore last <= ZScore last')%Q ->
                    (meanrev_score last' <= meanrev_score last)%Q).
Proof.
  split; [|split; [|split]].
  - intros ts. unfold trend_score, mbind, result_bind, Py.bind, mret, result_ret.
    destruct (sma20_slope d) as [slope|]; [|discriminate].
    intros [= <-].
    set (inner := clamp (slope * 450) (-3) 3).
    destruct (clamp_range (slope * 450) (-3) 3) as [Hi1 Hi2]; [discriminate|].
    fold inner in Hi1, Hi2.
    set (ss := clamp (50 + inner * 15) 0 100).
    destruct (clamp_between (50 + inner * 15) 0 100 5 95) as [Hs1 Hs2]; try lra.
    fold ss in Hs1, Hs2.
    destruct (Py.gtb (SMA20 last) (SMA50 last) && Py.gtb (close_final last) (SMA20 last)) eqn:Eup;
      destruct (Py.ltb (SMA20 last) (SMA50 last) && Py.ltb (close_final last) (SMA20 last)) eqn:Edn.
    + exfalso. apply andb_true_iff in Eup as [Eu _]. apply andb_true_iff in Edn as [Ed _].
      unfold Py.gtb in Eu. apply ltb_lt in Eu, Ed. lra.
    + change (inject_Z (50 + 25)) with 75%Q. apply clamp_between; lra.
    + change (inject_Z (50 - 20)) with 30%Q. apply clamp_between; lra.
    + change (inject_Z 50) with 50%Q. apply clamp_between; lra.
  - apply clamp_range. discriminate.
  - unfold risk_score. cbv zeta.
    destruct (clamp_range ((VolAnn last - 20) * (19 # 10)) 0 80) as [? ?]; [discriminate|].
    destruct (clamp_range (Qabs (Drawdown last) * 180) 0 80) as [? ?]; [discriminate|].
    destruct (clamp_range (Qabs (default 0%Q (CVaR95 last)) * 650) 0 80) as [? ?];
      [discriminate|].
    destruct (clamp_range (Qabs (default 0%Q (VaR95 last)) * 500) 0 60) as [? ?];
      [discriminate|].
    apply clamp_between; lra.
  - intros last' Hz. unfold meanrev_score. cbv zeta.
    apply clamp_mono; [discriminate|].
    destruct (max_spec 0 (ZScore last - 1)) as [[? ->]|[? ->]];
      destruct (max_spec 0 (ZScore last' - 1)) as [[? ->]|[? ->]]; lra.
Qed.

End ScoreRangeFacts.

Lemma component_score_ranges_witness :
  exists ts, ScoreEngine.trend_score Scenario.calm_row Scenario.half_sigma_frame
             = Py.Ok ts
             /\ (1875 # 100 <= ts)%Q /\ (ts <= 84)%Q.
Proof.
  eexists. split; [reflexivity|].
  apply (proj1 (component_score_ranges Scenario.calm_row Scenario.half_sigma_frame)).
  reflexivity.
Defined.

(** ** Rounding and the multi-factor score *)
Section MultiFacts.
Import ScoreEngine.

Lemma rhe_cases (x : Q) :
  Py.round_half_even x = Qfloor x \/ Py.round_half_even x = Qfloor x + 1.
Proof.
  unfold Py.round_half_even. cbv zeta.
  destruct (Py.ltb _ _); [now left|].
  destruct (Py.gtb _ _); [now right|].
  destruct (Z.even _); [now left | now right].
Qed.

Lemma rhe_le (x : Q) (n : Z) : (x <= inject_Z n)%Q -> Py.round_half_even x <= n.
Proof.
  intros H.
  assert (Hf : Qfloor x <= n).
  { rewrite <- (Qfloor_Z n). now apply Qfloor_resp_le. }
  destruct (Z.eq_dec (Qfloor x) n) as [E|E].
  - unfold Py.round_half_even. cbv zeta.
    assert (L : Py.ltb (x - inject_Z (Qfloor x)) (1 # 2) = true).
    { apply ltb_lt. rewrite E. lra. }
    rewrite L. lia.
  - destruct (rhe_cases x) as [-> | ->]; lia.
Qed.

Lemma rhe_ge (x : Q) (n : Z) : (inject_Z n <= x)%Q -> n <= Py.round_half_even x.
Proof.
  intros H.
  assert (Hf : n <= Qfloor x).
  { rewrite <- (Qfloor_Z n). now apply Qfloor_resp_le. }
  destruct (rhe_cases x) as [-> | ->]; lia.
Qed.

Lemma rhe_mono (x y : Q) :
  (x <= y)%Q -> Py.round_half_even x <= Py.round_half_even y.
Proof.
  intros H.
  pose proof (Qfloor_resp_le _ _ H) as Hf.
  destruct (Z.eq_dec (Qfloor x) (Qfloor y)) as [E|E].
  - unfold Py.round_half_even. cbv zeta. rewrite E.
    set (f := Qfloor y).
    destruct (Py.ltb (y - inject_Z f) (1 # 2)) eqn:Ly.
    + assert (Lx : Py.ltb (x - inject_Z f) (1 # 2) = true).
      { apply ltb_lt. apply ltb_lt in Ly. lra. }
      rewrite Lx. lia.
    + destruct (Py.ltb (x - inject_Z f) (1 # 2));
        [destruct (Py.gtb (y - inject_Z f) (1 # 2)), (Z.even f); lia|].
      destruct (Py.gtb (y - inject_Z f) (1 # 2)) eqn:Gy.
      * destruct (Py.gtb (x - inject_Z f) (1 # 2)), (Z.even f); lia.
      * assert (Gx : Py.gtb (x - inject_Z f) (1 # 2) = false).
        { unfold Py.gtb in *. apply ltb_ge. apply ltb_ge in Gy. lra. }
        rewrite Gx. lia.
  - destruct (rhe_cases x) as [-> | ->]; destruct (rhe_cases y) as [-> | ->]; lia.
Qed.

Lemma round1_range (x : Q) :
  (0 <= x)%Q -> (x <= 100)%Q -> (0 <= round1 x)%Q /\ (round1 x <= 100)%Q.
Proof.
  intros H0 H1. unfold round1.
  assert (L : 0 <= Py.round_half_even (x * 10)).
  { apply rhe_ge. change (inject_Z 0) with 0%Q. lra. }
  assert (U : Py.round_half_even (x * 10) <= 1000).
  { apply rhe_le. change (inject_Z 1000) with 1000%Q. lra. }
  rewrite Zle_Qle in L, U.
  change (inject_Z 0) with 0%Q in L. change (inject_Z 1000) with 1000%Q in U.
  split; [apply Qle_shift_div_l | apply Qle_shift_div_r]; lra.
Qed.

Lemma round1_mono (x y : Q) : (x <= y)%Q -> (round1 x <= round1 y)%Q.
Proof.
  intros H. unfold round1.
  assert (M : Py.round_half_even (x * 10) <= Py.round_half_even (y * 10))
    by (apply rhe_mono; lra).
  rewrite Zle_Qle in M.
  apply Qmult_le_compat_r; [exact M | discriminate].
Qed.

(** What [multi] returns when it returns. *)
Lemma multi_ok (d : Frame) (last : Row) (cost_bps : Z) (lbl : string)
    (weights : gmap string Q) (r : Scores) :
  multi d last cost_bps lbl weights = Py.Ok r ->
  exists ts raw,
    trend_score last d = Py.Ok ts
    /\ r = {| final_score :=
                round1 (clamp (raw - (clamp (inject_Z cost_bps * (28 # 10)) 0 80 * (55 # 100)
                                      + (if Py.contains "STRESS" lbl then 45
                                         else if Py.contains "VOL" lbl then 25 else 0)
                                        * (45 # 100))) 0 100);
              trend_score_r := round1 ts;
              meanrev_score_r := round1 (meanrev_score last);
              risk_score_r := round1 (risk_score last) |}
    /\ forall cost_bps',
         multi d last cost_bps' lbl weights
         = Py.Ok {| final_score :=
                      round1 (clamp (raw - (clamp (inject_Z cost_bps' * (28 # 10)) 0 80 * (55 # 100)
                                            + (if Py.contains "STRESS" lbl then 45
                                               else if Py.contains "VOL" lbl then 25 else 0)
                                              * (45 # 100))) 0 100);
                    trend_score_r := round1 ts;
                    meanrev_score_r := round1 (meanrev_score last);
                    risk_score_r := round1 (risk_score last) |}.
Proof.
  unfold multi, mbind, result_bind, Py.bind, mret, result_ret.
  destruct (trend_score last d) as [ts|]; [|discriminate].
  destruct (Py.getitem weights "trend") as [wt|]; [|discriminate].
  destruct (Py.getitem weights "meanrev") as [wm|]; [|discriminate].
  destruct (Py.getitem weights "risk") as [wr|]; [|discriminate].
  destruct (truediv wt _) as [qt|]; [|discriminate].
  destruct (truediv wm _) as [qm|]; [|discriminate].
  destruct (truediv wr _) as [qr|]; [|discriminate].
  intros [= <-]. exists ts, (ts * qt + meanrev_score last * qm + risk_score last * qr)%Q.
  repeat split.
Qed.

Lemma component_score_bounds_aux (last : Row) (d : Frame) (ts : Q) :
  trend_score last d = Py.Ok ts ->
  ((0 <= ts)%Q /\ (ts <= 100)%Q)
  /\ ((0 <= meanrev_score last)%Q /\ (meanrev_score last <= 100)%Q)
  /\ ((0 <= risk_score last)%Q /\ (risk_score last <= 100)%Q).
Proof.
  intros Hts. split; [|split].
  - revert Hts. unfold trend_score, mbind, result_bind, Py.bind, mret, result_ret.
    destruct (sma20_slope d); [|discriminate].
    intros [= <-]. apply clamp_range. discriminate.
  - apply clamp_range. discriminate.
  - apply clamp_range. discriminate.
Qed.

(** Every figure [multi] returns lies in [0,100], and a higher cost
    never raises the final score. *)
Theorem multi_scores_bounded (d : Frame) (last : Row) (cost_bps : Z) (lbl : string)
    (weights : gmap string Q) (r : Scores) :
  multi d last cost_bps lbl weights = Py.Ok r ->
  ((0 <= final_score r)%Q /\ (final_score r <= 100)%Q)
  /\ ((0 <= trend_score_r r)%Q /\ (trend_score_r r <= 100)%Q)
  /\ ((0 <= meanrev_score_r r)%Q /\ (meanrev_score_r r <= 100)%Q)
  /\ ((0 <= risk_score_r r)%Q /\ (risk_score_r r <= 100)%Q)
  /\ forall cost_bps', cost_bps <= cost_bps' ->
       exists r', multi d last cost_bps' lbl weights = Py.Ok r'
                  /\ (final_score r' <= final_score r)%Q.
Proof.
  intros Hr. destruct (multi_ok _ _ _ _ _ _ Hr) as (ts & raw & Hts & -> & Hother).
  cbn [final_score trend_score_r meanrev_score_r risk_score_r].
  destruct (component_score_bounds_aux last d ts Hts) as (Ht & Hm & Hk).
  repeat split;
    try (apply round1_range; first [ apply clamp_range; discriminate | lra ]).
  intros c' Hc. eexists. split; [apply Hother|].
  cbn [final_score]. apply round1_mono, clamp_mono; [discriminate|].
  assert (M : (clamp (inject_Z cost_bps * (28 # 10)) 0 80
               <= clamp (inject_Z c' * (28 # 10)) 0 80)%Q).
  { apply clamp_mono; [discriminate|]. rewrite Zle_Qle in Hc. lra. }
  lra.
Qed.

End MultiFacts.

Lemma multi_scores_bounded_witness :
  exists r,
    ScoreEngine.multi Scenario.half_sigma_frame Scenario.calm_row 5 "TRANSITION"
                      Scenario.app_weights = Py.Ok r
    /\ (0 <= ScoreEngine.final_score r)%Q /\ (ScoreEngine.final_score r <= 100)%Q.
Proof.
  destruct (ScoreEngine.multi Scenario.half_sigma_frame Scenario.calm_row 5
              "TRANSITION" Scenario.app_weights) as [r|] eqn:E;
    [|vm_compute in E; discriminate E].
  exists r. split; [reflexivity|].
  exact (proj1 (multi_scores_bounded _ _ _ _ _ r E)).
Defined.

(** ** Regime labels and the verdict built on them *)
Section LabelFacts.
Import RegimeEngine VerdictEngine.

(** The label [analyze] builds, on the six tests it makes. *)
Lemma analyze_label_ok (d : Frame) (cost_bps : Z) (r : Regime) :
  analyze d cost_bps = Py.Ok r ->
  exists up dn : bool,
    label r
    = (let stress := Py.ltb (dd r) (- (20 # 100)) in
       let base :=
         if stress then "STRESS"
         else if Py.gtb (vol r) 45 then "VOL"
         else if up then "UPTREND"
         else if dn then "DOWNTREND"
         else "TRANSITION" in
       if Py.geb (Qabs (z r)) 2 && negb stress
       then base ++ (if Py.gtb (z r) 0 then " EXT" else " DISC")
       else base).
Proof.
  unfold analyze, mbind, result_bind, Py.bind, mret, result_ret.
  destruct (Py.iloc_neg d 1) as [last|]; [|discriminate].
  destruct (sma20_slope d) as [sl|]; [|discriminate].
  intros [= <-]. cbn [label dd vol z]. eauto.
Qed.

(** The label is one of thirteen; it carries STRESS exactly when the
    drawdown is below -20 percent, and then it is the bare word STRESS,
    whatever the volatility and the z-score; it carries VOL exactly when
    there is no stress and the volatility is above 45. *)
Theorem analyze_label_taxonomy (d : Frame) (cost_bps : Z) (r : Regime) :
  analyze d cost_bps = Py.Ok r ->
  In (label r)
     [ "STRESS"; "VOL"; "VOL EXT"; "VOL DISC"; "UPTREND"; "UPTREND EXT";
       "UPTREND DISC"; "DOWNTREND"; "DOWNTREND EXT"; "DOWNTREND DISC";
       "TRANSITION"; "TRANSITION EXT"; "TRANSITION DISC" ]
  /\ (Py.contains "STRESS" (label r) = true <-> (dd r < - (20 # 100))%Q)
  /\ ((dd r < - (20 # 100))%Q -> label r = "STRESS")
  /\ (Py.contains "VOL" (label r) = true
      <-> ~ (dd r < - (20 # 100))%Q /\ (45 < vol r)%Q).
Proof.
  intros Hr. destruct (analyze_label_ok _ _ _ Hr) as (up & dn & ->).
  cbv zeta. rewrite <- !ltb_lt.
  change (Py.ltb 45 (vol r)) with (Py.gtb (vol r) 45).
  destruct (Py.ltb (dd r) (- (20 # 100))), (Py.gtb (vol r) 45), up, dn,
    (Py.geb (Qabs (z r)) 2), (Py.gtb (z r) 0);
    cbn [negb andb];
    (split; [cbn; tauto|]);
    (split; [vm_compute; split; congruence|]);
    (split; [intros; congruence|]);
    vm_compute; intuition congruence.
Qed.

Lemma analyze_label_taxonomy_witness :
  exists r, analyze Scenario.half_sigma_frame 5 = Py.Ok r
            /\ Py.contains "STRESS" (label r) = false
            /\ Py.contains "VOL" (label r) = false.
Proof.
  destruct (analyze Scenario.half_sigma_frame 5) as [r|] eqn:E;
    [|vm_compute in E; discriminate E].
  destruct (analyze_label_taxonomy Scenario.half_sigma_frame 5 r E)
    as (_ & Hs & _ & Hv).
  exists r. split; [reflexivity|].
  vm_compute in E. injection E as <-. split; reflexivity.
Defined.

(** The cascade on its eight triggers: the final status and the
    reasons, in order. *)
Lemma cascade_of_reasons b1 b2 b3 b4 b5 b6 b7 b8 :
  let s := run (cascade_of b1 b2 b3 b4 b5 b6 b7 b8) init in
  reasons s
  = map snd (List.filter fst
      [ (b1, "COST_BLOCK"); (b2, "REGIME_STRESS"); (b3, "REGIME_VOL");
        (b4, "VOL_LIMIT"); (b5, "DD_LIMIT"); (b6, "RUIN_HIGH");
        (b7 && negb b1, "OPERABILITY_LOW"); (b8 && negb b1, "SCORE_LOW") ])
  /\ status s
     = (if b1 then BLOQUEIO
        else if b2 || b3 || b4 || b5 || b6 || b7 || b8 then DEFENSIVO
        else AUTORIZADO)
  /\ (final_reasons (reasons s) = ["OK"] <-> status s = AUTORIZADO).
Proof.
  destruct b1, b2, b3, b4, b5, b6, b7, b8;
    (split; [reflexivity|]); (split; [reflexivity|]);
    split; intros H; solve [reflexivity | discriminate H].
Qed.

Lemma decide_unfold (a : Args) :
  decide a
  = let s := run (cascade_of (CostEngine.blocked (cost a))
                    (Py.contains "STRESS" (label (regime a)))
                    (Py.contains "VOL" (label (regime a)))
                    (Py.gtb (vol (regime a)) (strict_vol a))
                    (Py.ltb (dd (regime a) * 100) (strict_dd_pct a))
                    (Py.gtb (ruin_pct a) (ruin_threshold a))
                    (RegimeEngine.score (regime a) <? 35)%Z
                    (Py.ltb (VerdictEngine.score a) 40)) init in
    {| v_status := status s; command := command_of (status s);
       v_reasons := final_reasons (reasons s) |}.
Proof. reflexivity. Qed.

(** The reasons of a verdict, in full: the codes whose rule fired, in
    the order of the cascade; OK stands alone and only under
    AUTHORIZED; the command follows the status one to one. *)
Theorem decide_reasons_order (a : Args) :
  let r := regime a in
  let blk := CostEngine.blocked (cost a) in
  let fired :=
    [ (blk, "COST_BLOCK");
      (Py.contains "STRESS" (label r), "REGIME_STRESS");
      (Py.contains "VOL" (label r), "REGIME_VOL");
      (Py.gtb (vol r) (strict_vol a), "VOL_LIMIT");
      (Py.ltb (dd r * 100) (strict_dd_pct a), "DD_LIMIT");
      (Py.gtb (ruin_pct a) (ruin_threshold a), "RUIN_HIGH");
      ((RegimeEngine.score r <? 35)%Z && negb blk, "OPERABILITY_LOW");
      (Py.ltb (VerdictEngine.score a) 40 && negb blk, "SCORE_LOW") ] in
  let v := decide a in
  v_reasons v = final_reasons (map snd (List.filter fst fired))
  /\ v_reasons v <> []
  /\ (v_status v = AUTORIZADO <-> v_reasons v = ["OK"])
  /\ (command v = "READY" <-> v_status v = AUTORIZADO)
  /\ (command v = "DEFENSIVE" <-> v_status v = DEFENSIVO)
  /\ (command v = "BLOCKED" <-> v_status v = BLOQUEIO).
Proof.
  cbv zeta. rewrite decide_unfold. cbv zeta.
  cbn [v_reasons v_status command].
  match goal with
  | |- context [run (cascade_of ?b1 ?b2 ?b3 ?b4 ?b5 ?b6 ?b7 ?b8) init] =>
      destruct (cascade_of_reasons b1 b2 b3 b4 b5 b6 b7 b8) as (Hr & _ & Hnil);
      set (s := run (cascade_of b1 b2 b3 b4 b5 b6 b7 b8) init) in *
  end.
  cbv zeta in Hr, Hnil. fold s in Hr, Hnil.
  split; [now rewrite Hr|].
  split; [destruct (reasons s); discriminate|].
  split; [symmetry; exact Hnil|].
  destruct (status s); cbn; repeat split; intros; congruence.
Qed.

(** Scenario C of the tests: a cost at or above the ceiling blocks the
    order whatever the regime, the score and the ruin estimate are, and
    COST_BLOCK heads the reasons. *)
Theorem blocked_cost_blocks (spread slippage fee max_block_bps : Z)
    (r : Regime) (ruin score_ strict_vol_ strict_dd ruin_thr : Q) :
  max_block_bps <= spread + slippage + fee ->
  let v := decide {| regime := r;
                     cost := CostEngine.compute spread slippage fee max_block_bps;
                     ruin_pct := ruin; VerdictEngine.score := score_;
                     strict_vol := strict_vol_; strict_dd_pct := strict_dd;
                     ruin_threshold := ruin_thr |} in
  v_status v = BLOQUEIO /\ command v = "BLOCKED"
  /\ (exists rest, v_reasons v = "COST_BLOCK" :: rest)
  /\ ~ In "OPERABILITY_LOW" (v_reasons v) /\ ~ In "SCORE_LOW" (v_reasons v).
Proof.
  intros Hb v. subst v. rewrite decide_unfold. cbv zeta.
  cbn [v_reasons v_status command cost regime CostEngine.blocked CostEngine.compute].
  assert (E : (spread + slippage + fee >=? max_block_bps) = true)
    by (apply Z.geb_le; lia).
  rewrite E.
  match goal with
  | |- context [run (cascade_of true ?b2 ?b3 ?b4 ?b5 ?b6 ?b7 ?b8) init] =>
      destruct (cascade_of_reasons true b2 b3 b4 b5 b6 b7 b8) as (Hr & Hs & _);
      destruct (cascade_of_table true b2 b3 b4 b5 b6 b7 b8)
        as (_ & _ & _ & _ & _ & _ & _ & H7 & H8 & _);
      set (s := run (cascade_of true b2 b3 b4 b5 b6 b7 b8) init) in *
  end.
  cbv zeta in Hr, Hs, H7, H8. fold s in Hr, Hs, H7, H8.
  rewrite Hs. split; [reflexivity|]. split; [reflexivity|].
  rewrite andb_false_r in H7, H8.
  split.
  - rewrite Hr. cbn [List.filter fst map snd final_reasons]. eauto.
  - split; intros H; apply has_reason_In in H; congruence.
Qed.

Lemma blocked_cost_blocks_witness :
  v_status (decide Scenario.blocked_low_operability) = BLOQUEIO.
Proof.
  exact (proj1 (blocked_cost_blocks 20 20 10 40
                  (regime Scenario.blocked_low_operability) 0 20 45 (-20) 10
                  ltac:(lia))).
Defined.

(** Scenario B of the tests: when [analyze] sees a drawdown below -20
    percent, the verdict built on its regime carries REGIME_STRESS, is
    never AUTHORIZED, and does not carry REGIME_VOL however high the
    volatility is: the label is the bare word STRESS. *)
Theorem stress_regime_is_defensive (d : Frame) (cost_bps : Z) (r : Regime)
    (c : CostEngine.Cost) (ruin score_ strict_vol_ strict_dd ruin_thr : Q) :
  analyze d cost_bps = Py.Ok r ->
  (dd r < - (20 # 100))%Q ->
  let v := decide {| regime := r; cost := c;
                     ruin_pct := ruin; VerdictEngine.score := score_;
                     strict_vol := strict_vol_; strict_dd_pct := strict_dd;
                     ruin_threshold := ruin_thr |} in
  In "REGIME_STRESS" (v_reasons v)
  /\ ~ In "REGIME_VOL" (v_reasons v)
  /\ v_status v <> AUTORIZADO
  /\ (v_status v = BLOQUEIO <-> CostEngine.blocked c = true).
Proof.
  intros Hr Hdd v. subst v.
  destruct (analyze_label_ok _ _ _ Hr) as (up & dn & Hl).
  apply ltb_lt in Hdd. cbv zeta in Hl. rewrite Hdd in Hl.
  rewrite andb_false_r in Hl.
  rewrite decide_unfold. cbv zeta.
  cbn [v_reasons v_status command cost regime].
  rewrite Hl.
  change (Py.contains "STRESS" "STRESS") with true.
  change (Py.contains "VOL" "STRESS") with false.
  match goal with
  | |- context [run (cascade_of ?b1 true false ?b4 ?b5 ?b6 ?b7 ?b8) init] =>
      destruct (cascade_of_reasons b1 true false b4 b5 b6 b7 b8) as (_ & Hs & _);
      destruct (cascade_of_table b1 true false b4 b5 b6 b7 b8)
        as (_ & _ & H2 & H3 & _);
      set (s := run (cascade_of b1 true false b4 b5 b6 b7 b8) init) in *
  end.
  cbv zeta in Hs, H2, H3. fold s in Hs, H2, H3.
  split; [now apply has_reason_In|].
  split; [intros H; apply has_reason_In in H; congruence|].
  rewrite Hs. destruct (CostEngine.blocked c); cbn; repeat split; congruence.
Qed.

End LabelFacts.

Lemma stress_regime_is_defensive_witness :
  exists r,
    RegimeEngine.analyze Scenario.stress_frame 0 = Py.Ok r
    /\ RegimeEngine.label r = "STRESS"
    /\ In "REGIME_STRESS"
          (VerdictEngine.v_reasons
             (VerdictEngine.decide
                {| VerdictEngine.regime := r;
                   VerdictEngine.cost := CostEngine.compute 2 2 1 40;
                   VerdictEngine.ruin_pct := 0; VerdictEngine.score := 80;
                   VerdictEngine.strict_vol := 45;
                   VerdictEngine.strict_dd_pct := -30;
                   VerdictEngine.ruin_threshold := 10 |})).
Proof.
  destruct (RegimeEngine.analyze Scenario.stress_frame 0) as [r|] eqn:E;
    [|vm_compute in E; discriminate E].
  exists r. split; [reflexivity|].
  split; [vm_compute in E; injection E as <-; reflexivity|].
  refine (proj1 (stress_regime_is_defensive Scenario.stress_frame 0 r
                   (CostEngine.compute 2 2 1 40) 0 80 45 (-30) 10 E _)).
  vm_compute in E. injection E as <-. reflexivity.
Defined.

(** ** The safety guard, beyond the kill switch *)
Section GuardFacts.
Import Execution SafetyWords.

Lemma int_of_str_raises s e :
  Py.int_of_str s = Py.Raise e -> exists msg, e = Py.ValueError msg.
Proof.
  unfold Py.int_of_str.
  destruct (Py.strip _) as [|c rest]; [|destruct (Ascii.eqb c "-"), (Ascii.eqb c "+")];
    destruct (Py.digits _ _ _); intros [= <-]; eauto.
Qed.

Lemma parse_hhmm_raises s e :
  _parse_hhmm s = Py.Raise e -> exists msg, e = Py.ValueError msg.
Proof.
  unfold _parse_hhmm, mbind, result_bind, Py.bind, mret, result_ret.
  destruct (Py.split ":" s) as [|h [|m [|x rest]]]; try (intros [= <-]; eauto).
  destruct (Py.int_of_str h) eqn:Eh; [|intros [= <-]; eapply int_of_str_raises; eauto].
  destruct (Py.int_of_str m) eqn:Em; [|intros [= <-]; eapply int_of_str_raises; eauto].
  discriminate.
Qed.

Lemma replace_hm_raises now h m e :
  replace_hm now h m = Py.Raise e -> exists msg, e = Py.ValueError msg.
Proof.
  unfold replace_hm. destruct (negb _); [intros [= <-]; eauto|].
  destruct (negb _); [intros [= <-]; eauto | discriminate].
Qed.

Lemma replace_hm_ok now h m :
  0 <= h <= 23 -> 0 <= m <= 59 ->
  replace_hm now h m
  = Py.Ok {| hour := h; minute := m; second := 0; microsecond := 0 |}.
Proof.
  intros Hh Hm. unfold replace_hm.
  assert (E1 : ((0 <=? h)%Z && (h <=? 23)%Z) = true)
    by (apply andb_true_iff; split; apply Z.leb_le; lia).
  assert (E2 : ((0 <=? m)%Z && (m <=? 59)%Z) = true)
    by (apply andb_true_iff; split; apply Z.leb_le; lia).
  now rewrite E1, E2.
Qed.

Lemma in_range_raises now s e_ e :
  _in_range now s e_ = Py.Raise e -> exists msg, e = Py.ValueError msg.
Proof.
  unfold _in_range, mbind, result_bind, Py.bind, mret, result_ret.
  destruct (_parse_hhmm s) as [[sh sm]|] eqn:E1;
    [|intros [= <-]; eapply parse_hhmm_raises; eauto].
  destruct (_parse_hhmm e_) as [[eh em]|] eqn:E2;
    [|intros [= <-]; eapply parse_hhmm_raises; eauto].
  destruct (replace_hm now sh sm) eqn:E3;
    [|intros [= <-]; eapply replace_hm_raises; eauto].
  destruct (replace_hm now eh em) eqn:E4;
    [|intros [= <-]; eapply replace_hm_raises; eauto].
  discriminate.
Qed.

(** A window with usable bounds holds [now] from the first microsecond
    of its opening minute to the first microsecond of its closing
    minute, both included; a window that closes before it opens holds
    nothing. *)
Theorem in_range_window (now : DateTime) (start end_ : string) (sh sm eh em : Z) :
  hhmm start sh sm -> hhmm end_ eh em ->
  exists b,
    _in_range now start end_ = Py.Ok b
    /\ (b = true <-> minute_start sh sm <= micros now <= minute_start eh em)
    /\ (minute_start eh em < minute_start sh sm -> b = false).
Proof.
  intros (Ps & Hsh & Hsm) (Pe & Heh & Hem).
  unfold _in_range, mbind, result_bind, Py.bind, mret, result_ret.
  rewrite Ps, Pe, !replace_hm_ok by assumption.
  eexists. split; [reflexivity|].
  unfold dt_le, micros, minute_start. cbn [hour minute second microsecond].
  rewrite andb_true_iff, !Z.leb_le.
  split; [split; intros; lia|].
  intros Hinv. apply andb_false_iff.
  destruct (Z.leb_spec ((sh * 60 + sm) * 60 * 1000000 + 0) (micros now)) as [H|H];
    [right; apply Z.leb_gt; unfold micros in *; lia | left].
  apply Z.leb_gt. unfold micros in H.
  replace (((sh * 60 + sm) * 60 + 0) * 1000000 + 0)
    with ((sh * 60 + sm) * 60 * 1000000 + 0) by lia.
  exact H.
Qed.

Lemma in_range_total now start end_ :
  (exists h m, hhmm start h m) -> (exists h m, hhmm end_ h m) ->
  exists b, _in_range now start end_ = Py.Ok b.
Proof.
  intros (sh & sm & Hs) (eh & em & He).
  destruct (in_range_window now start end_ sh sm eh em Hs He) as (b & Hb & _).
  eauto.
Qed.

Lemma trading_time_at_codes c now b r :
  trading_time_at c now = Py.Ok (b, r) ->
  (b = true /\ r = "OK") \/ (b = false /\ In r time_codes).
Proof.
  unfold trading_time_at, mbind, result_bind, Py.bind, time_codes.
  destruct (_in_range now (auction_pre_open_start c) _) as [[]|]; try discriminate.
  { intros [= <- <-]. right. cbn. auto. }
  destruct (_in_range now (auction_close_start c) _) as [[]|]; try discriminate.
  { intros [= <- <-]. right. cbn. auto. }
  destruct (_in_range now (open_hhmm c) _) as [[]|]; try discriminate;
    cbn [negb]; intros [= <- <-]; [left | right; cbn]; auto.
Qed.

Lemma trading_time_at_raises c now e :
  trading_time_at c now = Py.Raise e -> exists msg, e = Py.ValueError msg.
Proof.
  unfold trading_time_at, mbind, result_bind, Py.bind.
  destruct (_in_range now (auction_pre_open_start c) _) as [[]|] eqn:E1;
    try discriminate; [|intros [= <-]; eapply in_range_raises; eauto].
  destruct (_in_range now (auction_close_start c) _) as [[]|] eqn:E2;
    try discriminate; [|intros [= <-]; eapply in_range_raises; eauto].
  destruct (_in_range now (open_hhmm c) _) as [[]|] eqn:E3;
    try discriminate. intros [= <-]. eapply in_range_raises; eauto.
Qed.

Lemma trading_time_at_total c now :
  well_formed c -> exists b r, trading_time_at c now = Py.Ok (b, r).
Proof.
  intros (H1 & H2 & H3 & H4 & H5 & H6).
  unfold trading_time_at, mbind, result_bind, Py.bind.
  destruct (in_range_total now _ _ H1 H2) as [[] ->]; [eauto|].
  destruct (in_range_total now _ _ H3 H4) as [[] ->]; [eauto|].
  destruct (in_range_total now _ _ H5 H6) as [[] ->]; cbn [negb]; eauto.
Qed.

Lemma trading_time_codes g clk b r :
  trading_time g clk = Py.Ok (b, r) ->
  (b = true /\ r = "OK") \/ (b = false /\ In r time_codes).
Proof.
  unfold trading_time. destruct (now_market clk _) as [now|]; [|discriminate].
  apply trading_time_at_codes.
Qed.

Lemma trading_time_raises g clk e :
  trading_time g clk = Py.Raise e ->
  (e = Py.UnknownTimeZoneError (tz_market (cfg g))
   /\ now_market clk (tz_market (cfg g)) = None)
  \/ ((exists msg, e = Py.ValueError msg)
      /\ is_Some (now_market clk (tz_market (cfg g)))).
Proof.
  unfold trading_time. destruct (now_market clk _) as [now|].
  - intros E. right. split; [eapply trading_time_at_raises; eauto | eauto].
  - intros [= <-]. now left.
Qed.

Lemma trading_time_total g clk :
  is_Some (now_market clk (tz_market (cfg g))) -> well_formed (cfg g) ->
  exists b r, trading_time g clk = Py.Ok (b, r).
Proof.
  intros [now E] Hwf. unfold trading_time. rewrite E.
  now apply trading_time_at_total.
Qed.

Lemma scan_positions_cases positions t :
  scan_positions positions t = (true, "OK")
  \/ scan_positions positions t = (false, "POSITION_ALREADY_OPEN").
Proof.
  induction positions as [|p rest IH]; cbn; [now left|].
  destruct (same_ticker p t); [now right | exact IH].
Qed.

Lemma prefix_append (s t : string) : String.prefix s (s ++ t) = true.
Proof.
  induction s as [|c s IH]; [now destruct t|].
  change (String c s ++ t) with (String c (s ++ t)).
  cbn [String.prefix]. destruct (ascii_dec c c); [exact IH | congruence].
Qed.

(** Every answer of [validate] is ok with the reason OK, or a denial
    carrying one of the six specific codes; a denial never carries OK.
    With the broker offline nothing but the ping is attempted. *)
Theorem validate_outcomes (g : SafetyGuard) (clk : Clock) (order : OrderIntent)
    (capital : F64.t) :
  let out := run (validate g clk order capital) [] in
  (forall d, fst out = Py.Ok d ->
     (ok d = true /\ reason d = "OK")
     \/ (ok d = false
         /\ (reason d = "BROKER_OFFLINE"
             \/ In (reason d) time_codes
             \/ reason d = "POSITION_ALREADY_OPEN"
             \/ String.prefix "KILL_SWITCH_DAILY_LOSS pnl=" (reason d) = true)
         /\ reason d <> "OK"))
  /\ (ping (broker g) = false ->
      out = (Py.Ok {| ok := false; reason := "BROKER_OFFLINE" |}, [EvPing])).
Proof.
  intros out. subst out. rewrite validate_run.
  split; [|intros ->; reflexivity].
  intros d.
  destruct (ping (broker g)); cbn [negb fst].
  2:{ intros [= <-]. right. cbn. split; [reflexivity|]. split; [auto | discriminate]. }
  destruct (trading_time g clk) as [[b r]|e] eqn:Et;
    [|discriminate].
  destruct (trading_time_codes _ _ _ _ Et) as [[-> ->]|[-> Hin]]; cbn [negb fst].
  2:{ intros [= <-]. right. cbn [ok reason]. split; [reflexivity|].
      split; [auto|]. intros ->. cbn in Hin. intuition discriminate. }
  destruct (scan_positions_cases (get_open_positions (broker g)) (ticker order))
    as [-> | ->]; cbn [negb fst].
  2:{ intros [= <-]. right. cbn. split; [reflexivity|]. split; [auto | discriminate]. }
  destruct (Fl.leb _ _); intros [= <-]; [right | left; split; reflexivity].
  cbn [ok reason]. split; [reflexivity|]. split.
  - right. right. right.
    change ("KILL_SWITCH_DAILY_LOSS pnl=" ++ ?x)
      with ("KILL_SWITCH_DAILY_LOSS pnl=" ++ x).
    apply prefix_append.
  - discriminate.
Qed.

Lemma validate_outcomes_witness :
  run (validate Scenario.guard_offline Scenario.clock_e Scenario.order_vale
                (F64.of_Z 10000)) []
  = (Py.Ok {| ok := false; reason := "BROKER_OFFLINE" |}, [EvPing]).
Proof.
  apply (proj2 (validate_outcomes Scenario.guard_offline Scenario.clock_e
                  Scenario.order_vale (F64.of_Z 10000))).
  reflexivity.
Defined.



End GuardFacts.

(** At 10:00:00.000000 sharp the pre-open auction window 09:45-10:00
    still holds the clock. *)
Lemma in_range_window_witness :
  Execution._in_range
    {| Execution.hour := 10; Execution.minute := 0;
       Execution.second := 0; Execution.microsecond := 0 |} "09:45" "10:00"
  = Py.Ok true.
Proof.
  destruct (in_range_window
              {| Execution.hour := 10; Execution.minute := 0;
                 Execution.second := 0; Execution.microsecond := 0 |}
              "09:45" "10:00" 9 45 10 0) as (b & Hb & Hiff & _).
  - split; [reflexivity | lia].
  - split; [reflexivity | lia].
  - rewrite Hb. f_equal. apply Hiff. vm_compute. split; discriminate.
Defined.

(** ** The two copies of the safety guard *)
Section AppGuardFacts.
Import Execution.

Variables (g : SafetyGuard) (clk : Clock) (order : OrderIntent) (capital : F64.t).

Lemma app_validate_run :
  run (AppSafety.validate g clk (ticker order) capital) [] =
  if negb (ping (broker g))
  then (Py.Ok {| ok := false; reason := "BROKER_OFFLINE" |}, [EvPing])
  else
    match trading_time g clk with
    | Py.Raise e =>
        (Py.Raise e,
         match now_market clk (tz_market (cfg g)) with
         | Some _ => [EvPing; EvNowMarket]
         | None => [EvPing]
         end)
    | Py.Ok (ok_time, r_time) =>
        if negb ok_time
        then (Py.Ok {| ok := false; reason := r_time |}, [EvPing; EvNowMarket])
        else
          (Py.Ok (if Fl.leb (Fl.Fin (SQLiteStore.daily_realized_pnl (store g)
                                       (utc_date clk)))
                            (F64.value (loss_limit g capital))
                  then {| ok := false;
                          reason := "KILL_SWITCH_DAILY_LOSS pnl="
                                    ++ Py.format_2f
                                         (SQLiteStore.daily_realized_pnl (store g)
                                            (utc_date clk))
                                    ++ " limit="
                                    ++ F64.format_2f (loss_limit g capital) |}
                  else {| ok := true; reason := "OK" |}),
           [EvPing; EvNowMarket; EvUtcNow; EvDailyRealizedPnl (utc_date clk)])
    end.
Proof.
  unfold AppSafety.validate, _is_trading_time, _now_market, trading_time, _kill_switch.
  unfold mbind, eff_bind, mret, eff_ret, call, lift. cbn [run app].
  destruct (ping (broker g)); cbn [negb run]; [|reflexivity].
  destruct (now_market clk (tz_market (cfg g))) as [now|]; cbn [run app];
    [|reflexivity].
  destruct (trading_time_at (cfg g) now) as [[ok_time r_time]|e];
    [|reflexivity].
  destruct ok_time; cbn [negb run]; [|reflexivity].
  destruct (Fl.leb _ _); reflexivity.
Qed.

(** The application's own [validate] never asks the broker for its
    positions.  It answers as the core guard does whenever no open
    position carries the order's ticker; when one does and the earlier
    checks pass, the core guard denies with POSITION_ALREADY_OPEN while
    the application's copy goes on to the kill switch and admits the
    order if the daily loss is within its limit. *)
Theorem app_guard_skips_positions :
  let core := run (validate g clk order capital) [] in
  let app_ := run (AppSafety.validate g clk (ticker order) capital) [] in
  ~ In EvGetOpenPositions (snd app_)
  /\ (fst (scan_positions (get_open_positions (broker g)) (ticker order)) = true ->
      fst core = fst app_)
  /\ (ping (broker g) = true ->
      trading_time g clk = Py.Ok (true, "OK") ->
      fst (scan_positions (get_open_positions (broker g)) (ticker order)) = false ->
      Fl.leb (Fl.Fin (SQLiteStore.daily_realized_pnl (store g) (utc_date clk)))
             (F64.value (loss_limit g capital)) = false ->
      fst core = Py.Ok {| ok := false; reason := "POSITION_ALREADY_OPEN" |}
      /\ fst app_ = Py.Ok {| ok := true; reason := "OK" |}).
Proof.
  cbv zeta. rewrite validate_run, app_validate_run.
  split; [|split].
  - destruct (ping (broker g)); cbn [negb];
      [|intros [H|[]]; discriminate].
    destruct (trading_time g clk) as [[[] r]|e]; cbn [negb snd];
      [| |destruct (now_market clk _)];
      intros H; cbn in H; intuition discriminate.
  - intros Hs. destruct (ping (broker g)); cbn [negb]; [|reflexivity].
    destruct (trading_time g clk) as [[[] r]|e]; cbn [negb]; try reflexivity.
    rewrite (scan_positions_true _ _ Hs). reflexivity.
  - intros Hp Ht Hs L. rewrite Hp, Ht. cbn [negb].
    destruct (scan_positions_cases (get_open_positions (broker g)) (ticker order))
      as [E|E]; rewrite E in Hs |- *; [discriminate Hs|].
    cbn [negb fst]. split; [reflexivity|].
    now rewrite L.
Qed.

End AppGuardFacts.

(** A quiet day, a position open in the order's ticker: the core guard
    denies, the application's copy admits. *)
Lemma app_guard_skips_positions_witness :
  fst (Execution.run
         (Execution.validate Scenario.guard_quiet_open_position Scenario.clock_e
                             Scenario.order_vale (F64.of_Z 10000)) [])
  = Py.Ok {| Execution.ok := false; Execution.reason := "POSITION_ALREADY_OPEN" |}
  /\ fst (Execution.run
            (AppSafety.validate Scenario.guard_quiet_open_position Scenario.clock_e
                                "VALE3.SA" (F64.of_Z 10000)) [])
     = Py.Ok {| Execution.ok := true; Execution.reason := "OK" |}.
Proof.
  apply (proj2 (proj2 (app_guard_skips_positions Scenario.guard_quiet_open_position
                         Scenario.clock_e Scenario.order_vale (F64.of_Z 10000))));
    try reflexivity.
Defined.

(** ** The ledger: logging, the daily sum, reading back *)
Section LedgerFacts.
Import SQLiteStore Ledger.

Lemma sql_sum_app (a b : list (option Q)) :
  (default 0 (sql_sum (a ++ b)%list) == default 0 (sql_sum a) + default 0 (sql_sum b))%Q.
Proof.
  induction a as [|[v|] a IH]; cbn [app sql_sum].
  - cbn. lra.
  - destruct (sql_sum (a ++ b)) as [t|], (sql_sum a) as [ta|], (sql_sum b) as [tb|];
      cbn in *; lra.
  - exact IH.
Qed.

Lemma daily_realized_pnl_app (s1 s2 : Store) (date : string) :
  (daily_realized_pnl (s1 ++ s2)%list date
   == daily_realized_pnl s1 date + daily_realized_pnl s2 date)%Q.
Proof.
  unfold daily_realized_pnl. rewrite List.filter_app, map_app. apply sql_sum_app.
Qed.

(** Logging an order adds its realized P&L (0 when the row has none) to
    the daily sum of the date its timestamp starts with, and to that
    date only; the rowid returned is the new row count.  An empty ledger
    sums to 0 on every date. *)
Theorem log_order_moves_daily_pnl (store : Store) (timestamp_utc ticker : string)
    (realized_pnl : option Q) (date : string) :
  let '(store', rowid) := log_order store timestamp_utc ticker realized_pnl in
  rowid = Z.of_nat (length store')
  /\ (String.substring 0 10 timestamp_utc = date ->
      (daily_realized_pnl store' date
       == daily_realized_pnl store date + default 0 realized_pnl)%Q)
  /\ (String.substring 0 10 timestamp_utc <> date ->
      (daily_realized_pnl store' date == daily_realized_pnl store date)%Q)
  /\ (daily_realized_pnl [] date == 0)%Q.
Proof.
  unfold log_order. split; [|split; [|split]].
  - rewrite length_app. cbn. f_equal. lia.
  - intros E. rewrite daily_realized_pnl_app. apply Qplus_inj_l.
    unfold daily_realized_pnl. cbn [List.filter SQLiteStore.timestamp_utc].
    rewrite E, String.eqb_refl. cbn. reflexivity.
  - intros E. rewrite daily_realized_pnl_app.
    unfold daily_realized_pnl at 2. cbn [List.filter SQLiteStore.timestamp_utc].
    apply String.eqb_neq in E. rewrite E. cbn. lra.
  - reflexivity.
Qed.

Lemma log_order_moves_daily_pnl_witness :
  (daily_realized_pnl
     (fst (log_order Scenario.ledger_e "2026-11-04T16:20:00Z" "PETR4.SA"
                     (Some (-50)%Q)))
     "2026-11-04" == -400)%Q.
Proof.
  pose proof (log_order_moves_daily_pnl Scenario.ledger_e "2026-11-04T16:20:00Z"
                "PETR4.SA" (Some (-50)%Q) "2026-11-04") as H.
  cbv beta iota zeta delta [log_order] in H. cbn [fst].
  destruct H as (_ & H & _). rewrite (H eq_refl). reflexivity.
Defined.

(** [read_ledger] returns the newest rows first: as many as the limit
    allows, all of them under a negative limit, and the row just logged
    at the head for any limit other than 0. *)
Theorem read_ledger_newest_first (store : Store) (limit : Z) :
  length (read_ledger store limit)
  = (if (limit <? 0)%Z then length store
     else Nat.min (Z.to_nat limit) (length store))
  /\ (exists k, read_ledger store limit = firstn k (rev store))
  /\ forall timestamp_utc ticker realized_pnl,
       limit <> 0 ->
       exists rest,
         read_ledger (fst (log_order store timestamp_utc ticker realized_pnl)) limit
         = {| SQLiteStore.timestamp_utc := timestamp_utc;
              SQLiteStore.ticker := ticker;
              SQLiteStore.realized_pnl := Some (default 0%Q realized_pnl) |} :: rest.
Proof.
  unfold read_ledger. split; [|split].
  - destruct (limit <? 0)%Z; [apply length_rev|].
    rewrite length_firstn, length_rev. reflexivity.
  - destruct (limit <? 0)%Z; [|eauto].
    exists (length (rev store)). now rewrite firstn_all.
  - intros ts tk p Hl. unfold log_order. cbn [fst]. rewrite rev_app_distr. cbn [rev app].
    destruct (Z.ltb_spec limit 0); [eauto|].
    destruct (Z.to_nat limit) as [|k] eqn:E; [lia|]. cbn. eauto.
Qed.

Lemma read_ledger_newest_first_witness :
  exists rest,
    read_ledger (fst (log_order Scenario.ledger_e "2026-11-04T16:20:00Z" "PETR4.SA"
                                None)) 2
    = {| SQLiteStore.timestamp_utc := "2026-11-04T16:20:00Z";
         SQLiteStore.ticker := "PETR4.SA";
         SQLiteStore.realized_pnl := Some 0%Q |} :: rest.
Proof.
  apply (proj2 (proj2 (read_ledger_newest_first Scenario.ledger_e 2))).
  discriminate.
Defined.

End LedgerFacts.

(** ** The frame [calculate] returns *)
Section IndicatorShapeFacts.
Import IndicatorEngine.

Variable lib : NumLib.

Lemma assigned_is_Some cols : forall name base,
  is_Some base -> is_Some (assigned cols name base).
Proof.
  induction cols as [|kc rest IH]; intros name base Hb; [exact Hb|].
  cbn [assigned]. apply IH. destruct (String.eqb _ _); [eauto | exact Hb].
Qed.

Lemma assigned_other cols : forall name base,
  ~ In name (map fst cols) -> assigned cols name base = base.
Proof.
  induction cols as [|kc rest IH]; intros name base Hn; [reflexivity|].
  cbn [assigned]. cbn [map] in Hn.
  destruct (String.eqb_spec (fst kc) name) as [E|E].
  - exfalso. apply Hn. now left.
  - apply IH. intros H. apply Hn. now right.
Qed.

Lemma filter_seq_bound (f : nat -> bool) (k n : nat) :
  (forall i, (i < k)%nat -> f i = false) ->
  (length (List.filter f (seq 0 n)) <= n - k)%nat.
Proof.
  intros Hf. destruct (Nat.le_gt_cases n k) as [H|H].
  - rewrite filter_none; [cbn; lia|].
    intros i Hi. apply in_seq in Hi. apply Hf. lia.
  - replace n with (k + (n - k))%nat at 1 by lia.
    rewrite seq_app, List.filter_app, length_app.
    rewrite (filter_none f (seq 0 k)).
    + cbn [length Nat.add]. etransitivity; [apply filter_length_le|].
      now rewrite length_seq.
    + intros i Hi. apply in_seq in Hi. apply Hf. lia.
Qed.

(** The frame handed to [dropna], and what it holds under the names
    the claims do not need. *)
Lemma final_frame_columns df out :
  calculate lib df = Py.Ok out ->
  exists d,
    out = dropna d
    /\ nrows d = nrows df
    /\ (forall name, is_Some (columns df !! name) -> is_Some (columns d !! name))
    /\ (forall name,
          In name [ "ret"; "logret"; "SMA20"; "SMA50"; "STD20"; "ZScore"; "RSI14";
                    "ATR14"; "Equity"; "Peak"; "Drawdown"; "VolAnn"; "Skew60";
                    "Kurt60"; "VaR95"; "CVaR95" ] ->
          is_Some (columns d !! name))
    /\ (forall name,
          ~ In name [ "ret"; "logret"; "SMA20"; "SMA50"; "STD20"; "ZScore"; "RSI14";
                      "ATR14"; "Equity"; "Peak"; "Drawdown"; "VolAnn"; "Skew60";
                      "Kurt60"; "VaR95"; "CVaR95" ] ->
          columns d !! name = columns df !! name)
    /\ (forall i, (i < 60)%nat -> row_complete (columns d) i = false).
Proof.
  intros Hout.
  destruct (calculate_ok lib _ _ Hout) as (close & high & low & _ & _ & _ & ->).
  eexists. split; [reflexivity|].
  split; [now rewrite !nrows_assign_all|].
  split; [|split; [|split]].
  - intros name Hs. rewrite !lookup_assign_all. now apply assigned_is_Some, assigned_is_Some.
  - intros name Hin. rewrite !lookup_assign_all. cbn in Hin.
    repeat (destruct Hin as [<-|Hin]; [eexists; reflexivity|]). destruct Hin.
  - intros name Hn. rewrite !lookup_assign_all.
    rewrite !assigned_other; [reflexivity| |];
      intros Hin; apply Hn; cbn in Hin |- *; tauto.
  - intros i Hi.
    destruct (row_complete _ i) eqn:E; [|reflexivity].
    exfalso. eapply (row_complete_cell _ i "Skew60"); [exact E| |].
    + rewrite lookup_assign_all. reflexivity.
    + apply rolling60_warmup; [apply pct_change_head | exact Hi].
Qed.

(** The returned frame is rectangular and complete: every column has as
    many cells as the frame has rows and none of them is NaN; the
    sixteen derived columns are there, and so is every column of the
    input. *)
Theorem calculate_output_complete (df out : DataFrame) :
  calculate lib df = Py.Ok out ->
  (forall name col, columns out !! name = Some col ->
     length col = nrows out /\ Forall (fun x => x <> Fl.NaN) col)
  /\ (forall name,
        In name [ "ret"; "logret"; "SMA20"; "SMA50"; "STD20"; "ZScore"; "RSI14";
                  "ATR14"; "Equity"; "Peak"; "Drawdown"; "VolAnn"; "Skew60";
                  "Kurt60"; "VaR95"; "CVaR95" ] ->
        is_Some (columns out !! name))
  /\ (forall name, is_Some (columns df !! name) -> is_Some (columns out !! name)).
Proof.
  intros Hout.
  destruct (final_frame_columns _ _ Hout) as (d & -> & _ & Hin & Hder & _ & _).
  split; [|split].
  - intros name col. rewrite lookup_dropna.
    destruct (columns d !! name) as [c|] eqn:Ec; [|discriminate].
    intros [= <-]. unfold dropna. cbn [nrows]. split; [apply length_map|].
    apply List.Forall_forall. intros x Hx. apply in_map_iff in Hx as (i & <- & Hi).
    apply filter_In in Hi as [_ Hi].
    eapply row_complete_cell; eassumption.
  - intros name Hn. rewrite lookup_dropna.
    destruct (Hder name Hn) as [c ->]. cbn. eauto.
  - intros name Hs. rewrite lookup_dropna.
    destruct (Hin name Hs) as [c ->]. cbn. eauto.
Qed.

(** The warm-up: the first sixty bars never reach the output, so the
    result has at most [nrows - 60] rows; and one input column that is
    NaN on every row (a volume column the source did not supply, for
    one) leaves no row at all. *)
Theorem calculate_warmup (df out : DataFrame) :
  calculate lib df = Py.Ok out ->
  (nrows out <= nrows df - 60)%nat
  /\ forall name c,
       columns df !! name = Some c ->
       ~ In name [ "ret"; "logret"; "SMA20"; "SMA50"; "STD20"; "ZScore"; "RSI14";
                   "ATR14"; "Equity"; "Peak"; "Drawdown"; "VolAnn"; "Skew60";
                   "Kurt60"; "VaR95"; "CVaR95" ] ->
       (forall i, (i < nrows df)%nat -> cell c i = Fl.NaN) ->
       nrows out = 0%nat.
Proof.
  intros Hout.
  destruct (final_frame_columns _ _ Hout) as (d & -> & Hn & _ & _ & Hkeep & Hwarm).
  split.
  - unfold dropna. cbn [nrows]. rewrite <- Hn. now apply filter_seq_bound.
  - intros name c Hc Hname Hnan.
    apply (dropna_empty d name c); [now rewrite Hkeep|].
    intros i Hi. apply Hnan. now rewrite <- Hn.
Qed.

(** [calculate] needs three columns and asks for them in this order:
    [close_final], then [high], then [low]; the first one missing is the
    key of the [KeyError]. *)
Theorem calculate_missing_column (df : DataFrame) :
  (is_Some (columns df !! "close_final") -> columns df !! "high" = None ->
   calculate lib df = Py.Raise (Py.KeyError "high"))
  /\ (is_Some (columns df !! "close_final") -> is_Some (columns df !! "high") ->
      columns df !! "low" = None ->
      calculate lib df = Py.Raise (Py.KeyError "low"))
  /\ (forall e, calculate lib df = Py.Raise e ->
        exists name, e = Py.KeyError name /\ columns df !! name = None
                     /\ In name ["close_final"; "high"; "low"]).
Proof.
  unfold calculate, mbind, result_bind, Py.bind, mret, result_ret.
  split; [|split].
  - intros [c Hc] Hh.
    assert (E : getitem df "close_final" = Py.Ok (series (nrows df) c))
      by (unfold getitem; now rewrite Hc).
    rewrite E, getitem_after_price_block by reflexivity.
    unfold getitem. now rewrite Hh.
  - intros [c Hc] [h Hh] Hl.
    assert (E : getitem df "close_final" = Py.Ok (series (nrows df) c))
      by (unfold getitem; now rewrite Hc).
    rewrite E, !getitem_after_price_block by reflexivity.
    unfold getitem. now rewrite Hh, Hl.
  - intros e. unfold getitem at 1.
    destruct (columns df !! "close_final") as [c|] eqn:Ec.
    2:{ intros [= <-]. exists "close_final". cbn. tauto. }
    rewrite !getitem_after_price_block by reflexivity. unfold getitem.
    destruct (columns df !! "high") as [h|] eqn:Eh.
    2:{ intros [= <-]. exists "high". cbn. tauto. }
    destruct (columns df !! "low") as [l|] eqn:El; [discriminate|].
    intros [= <-]. exists "low". cbn. tauto.
Qed.

End IndicatorShapeFacts.

(** Sixty-two bars give two complete rows, and the volume column of the
    input is still there. *)
Lemma calculate_output_complete_witness :
  exists out volume,
    IndicatorEngine.calculate Scenario.rational_lib (Scenario.bars 61) = Py.Ok out
    /\ IndicatorEngine.nrows out = 2%nat
    /\ IndicatorEngine.columns out !! "volume" = Some volume
    /\ length volume = 2%nat
    /\ Forall (fun x => x <> Fl.NaN) volume.
Proof.
  destruct (IndicatorEngine.calculate Scenario.rational_lib (Scenario.bars 61))
    as [out|] eqn:E; [|vm_compute in E; discriminate E].
  destruct (calculate_output_complete Scenario.rational_lib (Scenario.bars 61) out E)
    as (Hcols & _ & Hin).
  destruct (Hin "volume") as [volume Hv]; [vm_compute; eauto|].
  destruct (Hcols "volume" volume Hv) as [Hlen Hnan].
  assert (Hn : IndicatorEngine.nrows out = 2%nat)
    by (vm_compute in E; injection E as <-; reflexivity).
  exists out, volume. rewrite <- Hn at 2. auto.
Defined.

(** The same sixty-two bars with a volume column of NaN: nothing is
    left. *)
Lemma calculate_warmup_witness :
  exists out,
    IndicatorEngine.calculate Scenario.rational_lib (Scenario.bars_nan_volume 61)
    = Py.Ok out
    /\ IndicatorEngine.nrows out = 0%nat.
Proof.
  destruct (IndicatorEngine.calculate Scenario.rational_lib
              (Scenario.bars_nan_volume 61))
    as [out|] eqn:E; [|vm_compute in E; discriminate E].
  destruct (calculate_warmup Scenario.rational_lib (Scenario.bars_nan_volume 61) out E)
    as [_ Hnan].
  exists out. split; [reflexivity|].
  apply (Hnan "volume" (repeat Fl.NaN 62)); [reflexivity | cbn; intuition discriminate |].
  intros i Hi. cbn in Hi.
  do 62 (destruct i as [|i]; [reflexivity|]). lia.
Defined.

(** Bars without [high]: the error names [high]. *)
Lemma calculate_missing_column_witness :
  IndicatorEngine.calculate Scenario.rational_lib (Scenario.bars_no_high 30)
  = Py.Raise (Py.KeyError "high").
Proof.
  destruct (calculate_missing_column Scenario.rational_lib (Scenario.bars_no_high 30))
    as (Hh & _ & _).
  apply Hh; [vm_compute; eauto | reflexivity].
Defined.

(** ** Frames shorter than six rows *)
Section ShortFrameFacts.
Import RegimeEngine ScoreEngine.

Lemma iloc_neg_short {A} (l : list A) (k : nat) :
  (length l < k)%nat -> Py.iloc_neg l k = Py.Raise Py.IndexError.
Proof.
  intros H. unfold Py.iloc_neg.
  destruct (nth_error (rev l) (Nat.pred k)) eqn:E; [|reflexivity].
  assert (Hs : nth_error (rev l) (Nat.pred k) <> None) by congruence.
  apply nth_error_Some in Hs. rewrite length_rev in Hs. lia.
Qed.

Lemma sma20_slope_short (d : Frame) :
  (length d < 6)%nat -> sma20_slope d = Py.Raise Py.IndexError.
Proof.
  intros H. unfold sma20_slope, mbind, result_bind, Py.bind.
  rewrite (iloc_neg_short (map SMA20 d) 6) by (rewrite length_map; lia).
  unfold Py.iloc_neg. now destruct (nth_error _ _).
Qed.

Lemma analyze_short (d : Frame) (cost_bps : Z) :
  (length d < 6)%nat -> analyze d cost_bps = Py.Raise Py.IndexError.
Proof.
  intros H. unfold analyze, mbind, result_bind, Py.bind.
  rewrite (sma20_slope_short d H).
  unfold Py.iloc_neg. now destruct (nth_error _ _).
Qed.

Lemma multi_short (d : Frame) (last : Row) (cost_bps : Z) (lbl : string)
    (weights : gmap string Q) :
  (length d < 6)%nat ->
  multi d last cost_bps lbl weights = Py.Raise Py.IndexError.
Proof.
  intros H. unfold multi, trend_score, mbind, result_bind, Py.bind.
  now rewrite (sma20_slope_short d H).
Qed.

(** Both engines read [SMA20] six rows back, so six rows is what they
    need: [analyze] returns exactly on frames of six rows or more and
    raises [IndexError] on every shorter one, the non-empty ones
    included; [multi] raises [IndexError] exactly on the same frames,
    before it looks at the weights. *)
Theorem engines_need_six_rows (d : Frame) (last : Row) (cost_bps : Z)
    (lbl : string) (weights : gmap string Q) :
  (analyze d cost_bps = Py.Raise Py.IndexError <-> (length d < 6)%nat)
  /\ ((exists r, analyze d cost_bps = Py.Ok r) <-> (6 <= length d)%nat)
  /\ (multi d last cost_bps lbl weights = Py.Raise Py.IndexError
      <-> (length d < 6)%nat).
Proof.
  split; [|split]; split.
  - intros E. destruct (Nat.lt_ge_cases (length d) 6) as [H|H]; [exact H|].
    destruct (analyze_total d cost_bps H) as [r Hr]. congruence.
  - apply analyze_short.
  - intros [r Hr]. destruct (Nat.lt_ge_cases (length d) 6) as [H|H]; [|exact H].
    rewrite (analyze_short d cost_bps H) in Hr. discriminate.
  - apply analyze_total.
  - intros E. destruct (Nat.lt_ge_cases (length d) 6) as [H|H]; [exact H|].
    exfalso. revert E.
    unfold multi, mbind, result_bind, Py.bind.
    destruct (trend_score_total last d H) as [ts ->].
    destruct (Py.getitem weights "trend") eqn:E1;
      [| intros [= E]; apply getitem_raises in E1; congruence].
    destruct (Py.getitem weights "meanrev") eqn:E2;
      [| intros [= E]; apply getitem_raises in E2; congruence].
    destruct (Py.getitem weights "risk") eqn:E3;
      [| intros [= E]; apply getitem_raises in E3; congruence].
    destruct (truediv _ _) eqn:E4 at 1;
      [| intros [= E]; apply truediv_raises in E4; congruence].
    destruct (truediv _ _) eqn:E5 at 1;
      [| intros [= E]; apply truediv_raises in E5; congruence].
    destruct (truediv _ _) eqn:E6 at 1;
      [| intros [= E]; apply truediv_raises in E6; congruence].
    discriminate.
  - apply multi_short.
Qed.

End ShortFrameFacts.

(** ** The ruin simulation at its extremes *)
Section RuinExtremes.
Import RiskEngine.

Lemma inject_nat_succ (n : nat) :
  (inject_Z (Z.of_nat (S n)) == inject_Z (Z.of_nat n) + 1)%Q.
Proof. rewrite Nat2Z.inj_succ, <- Z.add_1_r, inject_Z_plus. reflexivity. Qed.

Lemma inject_nat_nonneg (n : nat) : (0 <= inject_Z (Z.of_nat n))%Q.
Proof. change 0%Q with (inject_Z 0). rewrite <- Zle_Qle. lia. Qed.

(** A path whose every step loses at most [s] is, after [n] steps, at
    most [n * s] down. *)
Lemma cumsum_from_floor (s : Q) (l : list Q) : forall acc,
  (0 <= s)%Q -> Forall (fun x => (- s <= x)%Q) l ->
  Forall (fun e => (acc - inject_Z (Z.of_nat (length l)) * s <= e)%Q)
         (cumsum_from acc l).
Proof.
  induction l as [|x rest IH]; intros acc Hs Hl; [constructor|].
  apply List.Forall_cons_iff in Hl as [Hx Hrest].
  cbn [cumsum_from length].
  pose proof (inject_nat_nonneg (length rest)) as Hn.
  pose proof (Qmult_le_0_compat _ _ Hn Hs) as Hns.
  constructor.
  - rewrite inject_nat_succ. lra.
  - eapply List.Forall_impl; [|apply (IH (acc + x)%Q Hs Hrest)].
    cbv beta. intros e He. rewrite inject_nat_succ. lra.
Qed.

Lemma cumsum_floor (s : Q) (l : list Q) :
  (0 <= s)%Q -> Forall (fun x => (- s <= x)%Q) l ->
  Forall (fun e => (- (inject_Z (Z.of_nat (length l)) * s) <= e)%Q) (cumsum l).
Proof.
  intros Hs Hl. destruct l as [|x rest]; [constructor|].
  apply List.Forall_cons_iff in Hl as [Hx Hrest].
  cbn [cumsum length].
  pose proof (inject_nat_nonneg (length rest)) as Hn.
  pose proof (Qmult_le_0_compat _ _ Hn Hs) as Hns.
  constructor.
  - rewrite inject_nat_succ. lra.
  - eapply List.Forall_impl; [|apply (cumsum_from_floor s rest x Hs Hrest)].
    cbv beta. intros e He. rewrite inject_nat_succ. lra.
Qed.

Lemma existsb_below_false (l : list Q) (b : Q) :
  Forall (fun e => (b <= e)%Q) l -> existsb (fun e => Py.ltb e b) l = false.
Proof.
  induction 1 as [|e l He _ IH]; [reflexivity|].
  cbn [existsb]. rewrite IH, orb_false_r. now apply ltb_ge.
Qed.

(** A path whose every step loses at least [s] ends [n * s] down or
    lower. *)
Lemma cumsum_from_sinks (s b : Q) (l : list Q) : forall acc,
  l <> [] -> Forall (fun x => (x <= - s)%Q) l ->
  (acc - inject_Z (Z.of_nat (length l)) * s < b)%Q ->
  existsb (fun e => Py.ltb e b) (cumsum_from acc l) = true.
Proof.
  induction l as [|x rest IH]; intros acc Hne Hl Hb; [congruence|].
  apply List.Forall_cons_iff in Hl as [Hx Hrest].
  cbn [cumsum_from existsb]. cbn [length] in Hb. rewrite inject_nat_succ in Hb.
  destruct rest as [|y rest'].
  - apply orb_true_iff. left. apply ltb_lt.
    change (inject_Z (Z.of_nat (length (@nil Q)))) with 0%Q in Hb. lra.
  - apply orb_true_iff. right. apply IH; [discriminate | exact Hrest | lra].
Qed.

Lemma cumsum_sinks (s b : Q) (l : list Q) :
  l <> [] -> Forall (fun x => (x <= - s)%Q) l ->
  (- (inject_Z (Z.of_nat (length l)) * s) < b)%Q ->
  existsb (fun e => Py.ltb e b) (cumsum l) = true.
Proof.
  intros Hne Hl Hb. destruct l as [|x rest]; [congruence|].
  apply List.Forall_cons_iff in Hl as [Hx Hrest].
  cbn [cumsum existsb]. cbn [length] in Hb. rewrite inject_nat_succ in Hb.
  destruct rest as [|y rest'].
  - apply orb_true_iff. left. apply ltb_lt.
    change (inject_Z (Z.of_nat (length (@nil Q)))) with 0%Q in Hb. lra.
  - apply orb_true_iff. right.
    apply (cumsum_from_sinks s); [discriminate | exact Hrest | lra].
Qed.

Lemma filter_all {A} (f : A -> bool) (l : list A) :
  (forall x, In x l -> f x = true) -> List.filter f l = l.
Proof.
  induction l as [|a l IH]; intros H; [reflexivity|]. cbn.
  rewrite (H a) by now left. f_equal. apply IH. intros x Hx. apply H. now right.
Qed.

(** With at least one sequence, the value returned: the share of ruined
    sequences, in per cent. *)
Lemma monte_carlo_ruin_value (draw : Q -> nat -> nat -> bool)
    (win_rate payoff risk_per_trade : Q) (sims trades : nat) :
  (1 <= sims)%nat ->
  let w := clamp win_rate (1 # 100) (99 # 100) in
  let p := clamp payoff (5 # 10) 10 in
  let r := clamp risk_per_trade (1 # 1000) (2 # 10) in
  let ruined (i : nat) : bool :=
    existsb (fun e => Py.ltb e (- (50 # 100)))
            (cumsum (map (fun o : bool => if o then (p * r)%Q else (- r)%Q)
                         (map (draw w i) (seq 0 trades)))) in
  monte_carlo_ruin draw win_rate payoff risk_per_trade sims trades
  = Py.Ok (Fl.Fin (inject_Z (Z.of_nat (length (List.filter ruined (seq 0 sims))))
                   / inject_Z (Z.of_nat sims) * 100)).
Proof.
  intros Hs w p r ruined.
  destruct (clamp_range win_rate (1 # 100) (99 # 100)) as [Hw0 Hw1]; [discriminate|].
  fold w in Hw0, Hw1.
  unfold monte_carlo_ruin. cbv zeta. fold w p r.
  unfold simulate, mbind, result_bind, Py.bind, mret, result_ret.
  rewrite random_choice_accepts by lra.
  rewrite !map_map.
  change (map _ (seq 0 sims)) with (map ruined (seq 0 sims)).
  rewrite mean_bool_nonempty by (destruct sims; [lia | discriminate]).
  rewrite filter_id_map, length_map, length_seq. reflexivity.
Qed.

(** The simulation at its extremes.  Without a single sequence the
    mean is taken over nothing and the result is NaN.  With at least
    one: a loss costs at most 0.2, so with two trades or fewer no path
    can fall below -0.50 and the result is 0 whatever the inputs and the
    draws; it is 0 as well when every draw is a win; and since a loss
    costs at least 0.001, it is 100 when every draw is a loss and there
    are 501 trades or more. *)
Theorem ruin_extremes (draw : Q -> nat -> nat -> bool)
    (win_rate payoff risk_per_trade : Q) (sims trades : nat) :
  let pct := monte_carlo_ruin draw win_rate payoff risk_per_trade sims trades in
  (sims = 0%nat -> pct = Py.Ok Fl.NaN)
  /\ ((1 <= sims)%nat ->
      ((trades <= 2)%nat ->
         exists q, pct = Py.Ok (Fl.Fin q) /\ (q == 0)%Q)
      /\ ((forall p i j, draw p i j = true) ->
            exists q, pct = Py.Ok (Fl.Fin q) /\ (q == 0)%Q)
      /\ ((forall p i j, draw p i j = false) ->
          (501 <= trades)%nat ->
            exists q, pct = Py.Ok (Fl.Fin q) /\ (q == 100)%Q)).
Proof.
  intros pct. subst pct.
  destruct (clamp_range win_rate (1 # 100) (99 # 100)) as [Hw0 Hw1]; [discriminate|].
  destruct (clamp_range payoff (5 # 10) 10) as [Hp0 Hp1]; [discriminate|].
  destruct (clamp_range risk_per_trade (1 # 1000) (2 # 10)) as [Hr0 Hr1]; [discriminate|].
  set (r := clamp risk_per_trade (1 # 1000) (2 # 10)) in *.
  set (w := clamp win_rate (1 # 100) (99 # 100)) in *.
  set (p := clamp payoff (5 # 10) 10) in *.
  assert (Hpr : (0 <= p * r)%Q) by (apply Qmult_le_0_compat; lra).
  split.
  - intros ->. unfold monte_carlo_ruin. cbv zeta. fold w p r.
    unfold simulate, mbind, result_bind, Py.bind, mret, result_ret.
    rewrite random_choice_accepts by lra. reflexivity.
  - intros Hs.
    rewrite (monte_carlo_ruin_value draw win_rate payoff risk_per_trade sims trades Hs).
    cbv zeta. fold w p r.
    assert (Hsims : (0 < inject_Z (Z.of_nat sims))%Q).
    { change 0%Q with (inject_Z 0). rewrite <- Zlt_Qlt. lia. }
    split; [|split].
    + intros Hfew. eexists. split; [reflexivity|].
      rewrite filter_none; [cbn [length]; change (inject_Z (Z.of_nat 0)) with 0%Q;
                            field; lra|].
      assert (Ht : (inject_Z (Z.of_nat trades) * r <= 2 * r)%Q).
      { apply Qmult_le_compat_r; [|lra].
        change 2%Q with (inject_Z 2). rewrite <- Zle_Qle. lia. }
      intros i _. apply existsb_below_false.
      eapply List.Forall_impl;
        [|apply (cumsum_floor r); [lra|]].
      * cbv beta. intros e He. rewrite !length_map, length_seq in He. lra.
      * apply List.Forall_forall. intros x Hx.
        apply in_map_iff in Hx as (o & <- & _). destruct o; lra.
    + intros Hwin. eexists. split; [reflexivity|].
      rewrite filter_none; [cbn [length]; change (inject_Z (Z.of_nat 0)) with 0%Q;
                            field; lra|].
      intros i _. apply existsb_below_false.
      eapply List.Forall_impl;
        [|apply (cumsum_floor 0); [lra|]].
      * cbv beta. intros e He. lra.
      * apply List.Forall_forall. intros x Hx.
        apply in_map_iff in Hx as (o & <- & Ho).
        apply in_map_iff in Ho as (j & <- & _). rewrite Hwin. lra.
    + intros Hloss Hmany. eexists. split; [reflexivity|].
      rewrite filter_all; [rewrite length_seq; field; lra|].
      assert (Ht : (501 * r <= inject_Z (Z.of_nat trades) * r)%Q).
      { apply Qmult_le_compat_r; [|lra].
        change 501%Q with (inject_Z 501). rewrite <- Zle_Qle. lia. }
      intros i _. apply (cumsum_sinks r).
      * destruct trades as [|n]; [lia | discriminate].
      * apply List.Forall_forall. intros x Hx.
        apply in_map_iff in Hx as (o & <- & Ho).
        apply in_map_iff in Ho as (j & <- & _). rewrite Hloss. lra.
      * rewrite !length_map, length_seq. lra.
Qed.

End RuinExtremes.

(** Three sequences of two trades at the largest risk, every draw a
    loss: each path ends 0.4 down, short of ruin, and the result is
    0. *)
Lemma ruin_extremes_witness :
  exists q,
    RiskEngine.monte_carlo_ruin (fun _ _ _ => false) (45 # 100) 2 (2 # 10) 3 2
    = Py.Ok (Fl.Fin q)
    /\ (q == 0)%Q.
Proof.
  destruct (ruin_extremes (fun _ _ _ => false) (45 # 100) 2 (2 # 10) 3 2)
    as [_ H].
  destruct (H ltac:(lia)) as (Hfew & _ & _).
  apply Hfew. lia.
Defined.

(** ** The kill switch over a ledger the application wrote *)
Section AppLedgerFacts.
Import SQLiteStore Ledger Execution.

Lemma sql_sum_zero (vals : list (option Q)) :
  Forall (fun v => v = Some 0%Q) vals -> (default 0 (sql_sum vals) == 0)%Q.
Proof.
  induction 1 as [|v vals -> _ IH]; [reflexivity|].
  cbn [sql_sum]. destruct (sql_sum vals) as [t|]; cbn in *; lra.
Qed.

Lemma daily_realized_pnl_zero (store : Store) (date : string) :
  Forall (fun r => realized_pnl r = Some 0%Q) store ->
  (daily_realized_pnl store date == 0)%Q.
Proof.
  intros H. unfold daily_realized_pnl. apply sql_sum_zero.
  apply List.Forall_map. apply List.Forall_forall. intros r Hr.
  apply filter_In in Hr as [Hr _].
  now apply (proj1 (List.Forall_forall _ _) H).
Qed.

Lemma logged_by_app_zero (entries : list (string * string)) :
  Forall (fun r => realized_pnl r = Some 0%Q) (logged_by_app entries).
Proof.
  unfold logged_by_app.
  assert (G : forall s0, Forall (fun r => realized_pnl r = Some 0%Q) s0 ->
    Forall (fun r => realized_pnl r = Some 0%Q)
      (fold_left (fun store e => fst (log_order store (fst e) (snd e) (Some 0%Q)))
                 entries s0)).
  { induction entries as [|e entries IH]; intros s0 H0; [exact H0|].
    cbn [fold_left]. apply IH. unfold log_order. cbn [fst].
    apply List.Forall_app. split; [exact H0|]. constructor; [reflexivity|constructor]. }
  apply G. constructor.
Qed.

Lemma kill_switch_run (g : SafetyGuard) (clk : Clock) (capital : F64.t) :
  run (_kill_switch g clk capital) []
  = (Py.Ok (if Fl.leb (Fl.Fin (daily_realized_pnl (store g) (utc_date clk)))
                      (F64.value (loss_limit g capital))
            then (false, "KILL_SWITCH_DAILY_LOSS pnl="
                         ++ Py.format_2f (daily_realized_pnl (store g) (utc_date clk))
                         ++ " limit=" ++ F64.format_2f (loss_limit g capital))
            else (true, "OK")),
     [EvUtcNow; EvDailyRealizedPnl (utc_date clk)]).
Proof.
  unfold _kill_switch, mbind, eff_bind, mret, eff_ret, call. cbn [run app].
  destruct (Fl.leb _ _); reflexivity.
Qed.

Lemma magnitude_pos (m : positive) (e : Z) : (0 < F64.magnitude m e)%Q.
Proof.
  unfold F64.magnitude. apply Qmult_lt_0_compat; [reflexivity|].
  apply Qpower_0_lt. reflexivity.
Qed.

(** A P&L of zero against the negation of a budget: at or below it
    exactly when the budget is not positive. *)
Lemma zero_against_budget (pnl : Q) (budget : F64.t) :
  (pnl == 0)%Q ->
  (Fl.positive (F64.value budget) ->
   Fl.leb (Fl.Fin pnl) (F64.value (F64.neg budget)) = false)
  /\ (Fl.nonpos (F64.value budget) ->
      Fl.leb (Fl.Fin pnl) (F64.value (F64.neg budget)) = true).
Proof.
  intros Hp. destruct budget as [s|s| |s m e]; cbn [F64.neg SFopp F64.value].
  - cbn [Fl.positive Fl.nonpos Fl.leb]. split.
    + intros H. exfalso. revert H. apply Qlt_irrefl.
    + intros _. apply leb_le. lra.
  - destruct s; cbn; split; intros H; first [reflexivity | destruct H].
  - cbn. split; intros [].
  - pose proof (magnitude_pos m e) as Hm.
    destruct s; cbn [negb Fl.positive Fl.nonpos Fl.leb]; split; intros H.
    + exfalso. lra.
    + apply leb_le. lra.
    + destruct (Py.leb pnl (- F64.magnitude m e)) eqn:E; [|reflexivity].
      apply leb_le in E. exfalso. lra.
    + exfalso. lra.
Qed.

(** Every order the application logs carries a realized P&L of 0, so a
    ledger it wrote sums to 0 on every date, and the kill switch never
    reacts to it: with a positive loss budget
    ([capital * (max_daily_loss_pct / 100.0) > 0], as the floats give
    it) it lets every order through, and [validate] accepts whenever the
    broker, the clock and the positions do; with a budget of 0 or less
    it refuses every order. *)
Theorem kill_switch_inert_on_app_ledger (entries : list (string * string))
    (g : SafetyGuard) (clk : Clock) (order : OrderIntent) (capital : F64.t) :
  store g = logged_by_app entries ->
  let budget :=
    F64.mul capital (F64.div (max_daily_loss_pct (cfg g)) (F64.of_Z 100)) in
  (forall date, (daily_realized_pnl (store g) date == 0)%Q)
  /\ (Fl.positive (F64.value budget) ->
      run (_kill_switch g clk capital) []
      = (Py.Ok (true, "OK"), [EvUtcNow; EvDailyRealizedPnl (utc_date clk)])
      /\ (ping (broker g) = true ->
          trading_time g clk = Py.Ok (true, "OK") ->
          fst (scan_positions (get_open_positions (broker g)) (ticker order)) = true ->
          fst (run (validate g clk order capital) [])
          = Py.Ok {| ok := true; reason := "OK" |}))
  /\ (Fl.nonpos (F64.value budget) ->
      exists r, fst (run (_kill_switch g clk capital) []) = Py.Ok (false, r)).
Proof.
  intros Hstore budget.
  assert (Hzero : forall date, (daily_realized_pnl (store g) date == 0)%Q).
  { intros date. rewrite Hstore. apply daily_realized_pnl_zero, logged_by_app_zero. }
  split; [exact Hzero|].
  destruct (zero_against_budget _ budget (Hzero (utc_date clk))) as [Hpos Hneg].
  change (F64.neg budget) with (loss_limit g capital) in Hpos, Hneg.
  split.
  - intros Hb. specialize (Hpos Hb). split.
    + now rewrite kill_switch_run, Hpos.
    + intros Hping Htime Hscan. rewrite validate_run, Hping, Htime. cbn [negb].
      destruct (scan_positions _ _) as [ok_pos r_pos]. cbn [fst] in Hscan. subst ok_pos.
      cbn [negb fst]. unfold loss_limit in Hpos. now rewrite Hpos.
  - intros Hb. rewrite kill_switch_run, (Hneg Hb). eauto.
Qed.

End AppLedgerFacts.

(** Two logged orders on the day of the clock, capital 10000: the guard
    of the scenario accepts the order. *)
Lemma kill_switch_inert_on_app_ledger_witness :
  let g := {| Execution.store :=
                Ledger.logged_by_app
                  [("2026-11-04T14:00:00Z", "VALE3.SA"); ("2026-11-04T15:10:00Z", "PETR4.SA")];
              Execution.broker := Execution.broker Scenario.guard_e;
              Execution.cfg := Execution.cfg Scenario.guard_e |} in
  Execution.run (Execution._kill_switch g Scenario.clock_e (F64.of_Z 10000)) []
  = (Py.Ok (true, "OK"),
     [Execution.EvUtcNow;
      Execution.EvDailyRealizedPnl (Execution.utc_date Scenario.clock_e)]).
Proof.
  intros g.
  destruct (kill_switch_inert_on_app_ledger
              [("2026-11-04T14:00:00Z", "VALE3.SA"); ("2026-11-04T15:10:00Z", "PETR4.SA")]
              g Scenario.clock_e Scenario.order_vale (F64.of_Z 10000) eq_refl)
    as (_ & Hpos & _).
  apply Hpos. vm_compute. reflexivity.
Defined.

(** ** Operability against its inputs *)
Section OperabilityFacts.
Import RegimeEngine VerdictEngine.

Lemma cost_floor (c : Z) : Qfloor ((8 # 10) * inject_Z c) = (8 * c / 10)%Z.
Proof.
  unfold Qfloor, Qmult, inject_Z. cbn [Qnum Qden]. f_equal; lia.
Qed.

(** The cost deduction alone caps the operability. *)
Lemma operability_cost_cap (z vol dd : Q) (cost_bps : Z) :
  0 <= cost_bps ->
  0 <= operability z vol dd cost_bps <= Z.max 0 (75 - 8 * cost_bps / 10).
Proof.
  intros Hc. rewrite operability_closed_form by assumption. rewrite cost_floor.
  assert (H1 : 0 <= Qfloor (7 * Qabs z)).
  { change 0 with (Qfloor 0). apply Qfloor_resp_le.
    apply Qmult_le_0_compat; [discriminate | apply Qabs_nonneg]. }
  assert (H2 : 0 <= Qfloor (Qmax 0 (vol - 25))).
  { change 0 with (Qfloor 0). apply Qfloor_resp_le. apply Q.le_max_l. }
  assert (H3 : 0 <= Qfloor (120 * Qabs dd)).
  { change 0 with (Qfloor 0). apply Qfloor_resp_le.
    apply Qmult_le_0_compat; [discriminate | apply Qabs_nonneg]. }
  lia.
Qed.

(** Operability never rises with a larger z-score (in absolute value),
    a higher volatility, a deeper drawdown or a higher cost.  Cost alone
    can exhaust it: from 52 bps on the score is below the 35 that
    [decide] asks for, and from 94 bps on it is 0, whatever the
    market. *)
Theorem operability_monotone (z1 z2 vol1 vol2 dd1 dd2 : Q) (c1 c2 : Z) :
  (Qabs z1 <= Qabs z2)%Q -> (vol1 <= vol2)%Q -> (Qabs dd1 <= Qabs dd2)%Q ->
  0 <= c1 <= c2 ->
  operability z2 vol2 dd2 c2 <= operability z1 vol1 dd1 c1
  /\ (52 <= c1 -> operability z1 vol1 dd1 c1 < 35)
  /\ (94 <= c1 -> operability z1 vol1 dd1 c1 = 0).
Proof.
  intros Hz Hv Hd Hc.
  split; [|split].
  - rewrite !operability_closed_form by lia. rewrite !cost_floor.
    assert (H1 : Qfloor (7 * Qabs z1) <= Qfloor (7 * Qabs z2))
      by (apply Qfloor_resp_le; lra).
    assert (H2 : Qfloor (Qmax 0 (vol1 - 25)) <= Qfloor (Qmax 0 (vol2 - 25)))
      by (apply Qfloor_resp_le, Q.max_le_compat_l; lra).
    assert (H3 : Qfloor (120 * Qabs dd1) <= Qfloor (120 * Qabs dd2))
      by (apply Qfloor_resp_le; lra).
    assert (H4 : 8 * c1 / 10 <= 8 * c2 / 10) by (apply Z.div_le_mono; lia).
    lia.
  - intros H. pose proof (operability_cost_cap z1 vol1 dd1 c1 ltac:(lia)) as Hcap.
    assert (41 <= 8 * c1 / 10) by (apply Z.div_le_lower_bound; lia).
    lia.
  - intros H. pose proof (operability_cost_cap z1 vol1 dd1 c1 ltac:(lia)) as Hcap.
    assert (75 <= 8 * c1 / 10) by (apply Z.div_le_lower_bound; lia).
    lia.
Qed.

(** The deep dive hands the same total cost to [analyze] and, through
    [CostEngine.compute], to [decide].  From 52 bps of total cost on,
    the verdict is never AUTHORIZED, whatever the market, the score and
    the thresholds: either the cost blocks, or the operability is below
    35 and OPERABILITY_LOW makes the trade defensive. *)
Theorem costly_trade_never_authorized (d : Frame)
    (spread slippage fee max_block_bps : Z) (r : Regime)
    (ruin score_ strict_vol_ strict_dd ruin_thr : Q) :
  let c := CostEngine.compute spread slippage fee max_block_bps in
  52 <= spread + slippage + fee ->
  analyze d (CostEngine.total_bps c) = Py.Ok r ->
  let v := decide {| regime := r; cost := c;
                     ruin_pct := ruin; VerdictEngine.score := score_;
                     strict_vol := strict_vol_; strict_dd_pct := strict_dd;
                     ruin_threshold := ruin_thr |} in
  v_status v <> AUTORIZADO
  /\ command v <> "READY"
  /\ (spread + slippage + fee < max_block_bps ->
      v_status v = DEFENSIVO /\ In "OPERABILITY_LOW" (v_reasons v))
  /\ (max_block_bps <= spread + slippage + fee ->
      v_status v = BLOQUEIO /\ In "COST_BLOCK" (v_reasons v)).
Proof.
  intros c Hcost Hr v. subst v c.
  destruct (analyze_ok _ _ _ Hr) as (last & _ & _ & _ & _ & Hs).
  cbn [CostEngine.compute CostEngine.total_bps] in Hs.
  pose proof (operability_cost_cap (ZScore last) (VolAnn last) (Drawdown last)
                (spread + slippage + fee) ltac:(lia)) as Hcap.
  assert (H41 : 41 <= 8 * (spread + slippage + fee) / 10)
    by (apply Z.div_le_lower_bound; lia).
  assert (Hlow : (RegimeEngine.score r <? 35)%Z = true) by (apply Z.ltb_lt; lia).
  rewrite decide_unfold. cbv zeta.
  cbn [v_reasons v_status command cost regime CostEngine.blocked CostEngine.compute
       strict_vol strict_dd_pct ruin_pct ruin_threshold VerdictEngine.score].
  rewrite Hlow.
  set (b1 := (spread + slippage + fee >=? max_block_bps)%Z).
  set (b2 := Py.contains "STRESS" (label r)).
  set (b3 := Py.contains "VOL" (label r)).
  set (b4 := Py.gtb (vol r) strict_vol_).
  set (b5 := Py.ltb (dd r * 100) strict_dd).
  set (b6 := Py.gtb ruin ruin_thr).
  set (b8 := Py.ltb score_ 40).
  destruct (cascade_of_table b1 b2 b3 b4 b5 b6 true b8)
    as (_ & Hcb & _ & _ & _ & _ & _ & Hol & _).
  destruct (cascade_of_reasons b1 b2 b3 b4 b5 b6 true b8) as (_ & Hst & _).
  cbv zeta in Hcb, Hol, Hst. rewrite Hst.
  rewrite !orb_true_r, ?orb_true_l in *.
  split; [destruct b1; discriminate|].
  split; [destruct b1; discriminate|].
  split.
  - intros Hlt. assert (E : b1 = false) by (subst b1; rewrite Z.geb_leb; apply Z.leb_gt; lia).
    rewrite E in *. split; [reflexivity|].
    apply has_reason_In. exact Hol.
  - intros Hge. assert (E : b1 = true) by (subst b1; apply Z.geb_le; lia).
    rewrite E in *. split; [reflexivity|].
    apply has_reason_In. exact Hcb.
Qed.

End OperabilityFacts.

(** A calm market at 52 bps against a rougher one at 60 bps. *)
Lemma operability_monotone_witness :
  RegimeEngine.operability 1 30 (- (1 # 10)) 60
  <= RegimeEngine.operability 0 20 0 52
  /\ RegimeEngine.operability 0 20 0 52 < 35.
Proof.
  destruct (operability_monotone 0 1 20 30 0 (- (1 # 10)) 52 60)
    as (Hle & Hlow & _);
    [vm_compute; discriminate | vm_compute; discriminate
     | vm_compute; discriminate | lia |].
  split; [exact Hle | apply Hlow; lia].
Defined.

(** Spread 30, slippage 20 and fee 5 under a block limit of 100: the
    calm frame of the scenario is traded defensively. *)
Lemma costly_trade_never_authorized_witness :
  exists r,
    RegimeEngine.analyze Scenario.half_sigma_frame 55 = Py.Ok r
    /\ VerdictEngine.v_status
         (VerdictEngine.decide
            {| VerdictEngine.regime := r;
               VerdictEngine.cost := CostEngine.compute 30 20 5 100;
               VerdictEngine.ruin_pct := 0; VerdictEngine.score := 80;
               VerdictEngine.strict_vol := 40; VerdictEngine.strict_dd_pct := -15;
               VerdictEngine.ruin_threshold := 5 |})
       = VerdictEngine.DEFENSIVO.
Proof.
  destruct (RegimeEngine.analyze Scenario.half_sigma_frame 55) as [r|] eqn:E;
    [|vm_compute in E; discriminate E].
  exists r. split; [reflexivity|].
  destruct (costly_trade_never_authorized Scenario.half_sigma_frame 30 20 5 100 r
              0 80 40 (-15) 5 ltac:(lia) E) as (_ & _ & Hdef & _).
  apply Hdef. lia.
Defined.

(** ** The universe table *)
Section UniverseFacts.
Import Universe.

Variable strip : string -> string.

Lemma exists_ticker_In (tbl : Table) (t : string) :
  exists_ticker tbl t = true <-> In t (map ticker_yahoo tbl).
Proof.
  unfold exists_ticker. rewrite existsb_exists, in_map_iff. split.
  - intros (u & Hu & E). apply String.eqb_eq in E. eauto.
  - intros (u & E & Hu). exists u. split; [exact Hu | now apply String.eqb_eq].
Qed.

Lemma exists_ticker_app (a b : Table) (t : string) :
  exists_ticker (a ++ b)%list t = exists_ticker a t || exists_ticker b t.
Proof. apply existsb_app. Qed.

(** The loop of [upsert_universe_rows] from any table and counter. *)
Lemma upsert_loop (rows : list (gmap string string)) : forall tbl ins,
  exists added,
    fold_left (upsert_row strip) rows (tbl, ins)
    = ((tbl ++ added)%list, ins + Z.of_nat (length added))
    /\ Forall (fun u => is_active u = 1 /\ ticker_yahoo u <> ""
                        /\ exists_ticker tbl (ticker_yahoo u) = false
                        /\ exists r, In r rows
                             /\ ticker_yahoo u = strip (get r "ticker_yahoo" ""))
              added
    /\ List.NoDup (map ticker_yahoo added)
    /\ (forall r, In r rows -> strip (get r "ticker_yahoo" "") <> "" ->
          exists_ticker (tbl ++ added)%list (strip (get r "ticker_yahoo" "")) = true).
Proof.
  induction rows as [|r rows IH]; intros tbl ins.
  - exists []. cbn [fold_left length]. rewrite app_nil_r, Z.add_0_r.
    repeat split; [constructor | constructor | intros r []].
  - cbn [fold_left]. unfold upsert_row at 2.
    destruct (String.eqb_spec (strip (get r "ticker_yahoo" "")) "") as [Ee|Ene].
    { destruct (IH tbl ins) as (added & -> & Hall & Hnd & Hcov).
      exists added. repeat split; try assumption.
      - eapply List.Forall_impl; [|exact Hall]. cbv beta.
        intros u (H1 & H2 & H3 & r' & Hr' & H4). repeat split; try assumption.
        exists r'. split; [now right | exact H4].
      - intros r' [<-|Hr'] Hne; [contradiction | now apply Hcov]. }
    destruct (exists_ticker tbl (strip (get r "ticker_yahoo" ""))) eqn:Ex.
    { destruct (IH tbl ins) as (added & -> & Hall & Hnd & Hcov).
      exists added. repeat split; try assumption.
      - eapply List.Forall_impl; [|exact Hall]. cbv beta.
        intros u (H1 & H2 & H3 & r' & Hr' & H4). repeat split; try assumption.
        exists r'. split; [now right | exact H4].
      - intros r' [<-|Hr'] Hne; [|now apply Hcov].
        rewrite exists_ticker_app, Ex. reflexivity. }
    match goal with
    | |- context [fold_left _ rows ((tbl ++ [?row])%list, _)] => set (new := row)
    end.
    destruct (IH (tbl ++ [new])%list (ins + 1)) as (added & E & Hall & Hnd & Hcov).
    exists (new :: added).
    split; [etransitivity; [exact E|]; rewrite <- app_assoc; cbn [app length];
            f_equal; lia|].
    split; [|split].
    + constructor.
      * cbn [is_active ticker_yahoo new]. repeat split; try assumption.
        exists r. split; [now left | reflexivity].
      * eapply List.Forall_impl; [|exact Hall]. cbv beta.
        intros u (H1 & H2 & H3 & r' & Hr' & H4).
        rewrite exists_ticker_app in H3. apply orb_false_iff in H3 as [H3 _].
        repeat split; try assumption.
        exists r'. split; [now right | exact H4].
    + cbn [map]. constructor; [|exact Hnd].
      intros Hin. apply in_map_iff in Hin as (u & Eu & Hu).
      apply (proj1 (List.Forall_forall _ _) Hall) in Hu as (_ & _ & H3 & _).
      rewrite exists_ticker_app in H3. apply orb_false_iff in H3 as [_ H3].
      cbn [exists_ticker existsb] in H3. rewrite orb_false_r in H3.
      apply String.eqb_neq in H3. apply H3. now rewrite Eu.
    + intros r' [<-|Hr'] Hne.
      * change (tbl ++ new :: added)%list with (tbl ++ [new] ++ added)%list.
        rewrite !exists_ticker_app.
        cbn [exists_ticker existsb ticker_yahoo new].
        rewrite String.eqb_refl. cbn. now rewrite orb_true_r.
      * specialize (Hcov r' Hr' Hne). now rewrite <- app_assoc in Hcov.
Qed.

(** Rows whose ticker is empty or already in the table change
    nothing. *)
Lemma upsert_known (rows : list (gmap string string)) : forall tbl ins,
  (forall r, In r rows ->
     strip (get r "ticker_yahoo" "") = ""
     \/ exists_ticker tbl (strip (get r "ticker_yahoo" "")) = true) ->
  fold_left (upsert_row strip) rows (tbl, ins) = (tbl, ins).
Proof.
  induction rows as [|r rows IH]; intros tbl ins H; [reflexivity|].
  cbn [fold_left]. unfold upsert_row at 2.
  destruct (H r (or_introl eq_refl)) as [E|E].
  - rewrite E. cbn [String.eqb]. apply IH. intros r' Hr'. apply H. now right.
  - rewrite E. destruct (String.eqb _ ""); apply IH; intros r' Hr'; apply H; now right.
Qed.

Lemma added_bound (rows : list (gmap string string)) (added : Table) :
  Forall (fun u => exists r, In r rows
                     /\ ticker_yahoo u = strip (get r "ticker_yahoo" "")) added ->
  List.NoDup (map ticker_yahoo added) ->
  (length added <= length rows)%nat.
Proof.
  intros Hall Hnd.
  rewrite <- (length_map ticker_yahoo added).
  rewrite <- (length_map (fun r => strip (get r "ticker_yahoo" "")) rows).
  apply List.NoDup_incl_length; [exact Hnd|].
  intros t Ht. apply in_map_iff in Ht as (u & <- & Hu).
  apply (proj1 (List.Forall_forall _ _) Hall) in Hu as (r & Hr & ->).
  apply in_map_iff. eauto.
Qed.

(** What one batch does, and that a second run of it does nothing. *)
Lemma upsert_summary (tbl : Table) (rows : list (gmap string string)) :
  exists added,
    upsert_universe_rows strip tbl rows
    = ((tbl ++ added)%list, Z.of_nat (length added))
    /\ (length added <= length rows)%nat
    /\ upsert_universe_rows strip (tbl ++ added)%list rows = ((tbl ++ added)%list, 0).
Proof.
  unfold upsert_universe_rows.
  destruct (upsert_loop rows tbl 0) as (added & E & Hall & Hnd & Hcov).
  exists added. rewrite E, Z.add_0_l. split; [reflexivity|]. split.
  - apply added_bound; [|exact Hnd].
    eapply List.Forall_impl; [|exact Hall]. cbv beta. intros u (_ & _ & _ & H). exact H.
  - apply upsert_known. intros r Hr.
    destruct (String.eqb_spec (strip (get r "ticker_yahoo" "")) "") as [Ee|Ene];
      [now left | right; now apply Hcov].
Qed.


(** Despite its name, [upsert_universe_rows] never updates: rows whose
    ticker the table already holds are skipped whatever their other
    fields say, so that running the same batch a second time inserts
    nothing and returns 0. *)
Theorem upsert_never_updates (tbl : Table) (rows : list (gmap string string)) :
  ((forall r, In r rows ->
      strip (get r "ticker_yahoo" "") = ""
      \/ In (strip (get r "ticker_yahoo" "")) (map ticker_yahoo tbl)) ->
   upsert_universe_rows strip tbl rows = (tbl, 0))
  /\ (let tbl' := fst (upsert_universe_rows strip tbl rows) in
      upsert_universe_rows strip tbl' rows = (tbl', 0)).
Proof.
  split.
  - intros H. apply upsert_known. intros r Hr.
    destruct (H r Hr) as [E|E]; [now left | right; now apply exists_ticker_In].
  - unfold upsert_universe_rows.
    destruct (upsert_loop rows tbl 0) as (added & E & _ & _ & Hcov).
    rewrite E. cbn [fst]. apply upsert_known. intros r Hr.
    destruct (String.eqb_spec (strip (get r "ticker_yahoo" "")) "") as [Ee|Ene];
      [now left | right; now apply Hcov].
Qed.

Lemma insert_ordered_cons (x : UniverseRow) (l : list UniverseRow) :
  insert_ordered x l <> [].
Proof. destruct l as [|y rest]; cbn; [|destruct (row_leb x y)]; discriminate. Qed.

Lemma order_by_nil (l : list UniverseRow) : order_by l = [] <-> l = [].
Proof.
  split; [|now intros ->].
  destruct l as [|x rest]; [reflexivity|].
  cbn [order_by fold_right]. intros E. now apply insert_ordered_cons in E.
Qed.

Lemma get_universe_active_nil (tbl : Table) :
  get_universe tbl true = [] <-> Forall (fun u => is_active u <> 1) tbl.
Proof.
  unfold get_universe. rewrite order_by_nil. split.
  - intros E. apply List.Forall_forall. intros u Hu Ha.
    assert (Hin : In u (List.filter (fun u => (is_active u =? 1)%Z) tbl))
      by (apply filter_In; split; [exact Hu | now apply Z.eqb_eq]).
    rewrite E in Hin. destruct Hin.
  - intros H. apply filter_none. intros u Hu. apply Z.eqb_neq.
    exact (proj1 (List.Forall_forall _ _) H u Hu).
Qed.

(** [ensure_seed] leaves a table with an active row alone and returns
    0.  Otherwise it offers the eight default rows to
    [upsert_universe_rows]: the table keeps its rows and gains at most
    eight.  Either way a second call changes nothing and returns 0. *)
Theorem ensure_seed_once (tbl : Table) :
  ((exists u, In u tbl /\ is_active u = 1) -> ensure_seed strip tbl = (tbl, 0))
  /\ (exists added,
        ensure_seed strip tbl = ((tbl ++ added)%list, Z.of_nat (length added))
        /\ (length added <= 8)%nat
        /\ ensure_seed strip (tbl ++ added)%list = ((tbl ++ added)%list, 0)).
Proof.
  split.
  - intros (u & Hu & Ha). unfold ensure_seed.
    destruct (get_universe tbl true) eqn:E; [|reflexivity].
    apply get_universe_active_nil in E.
    now apply (proj1 (List.Forall_forall _ _) E) in Hu.
  - unfold ensure_seed at 1.
    destruct (get_universe tbl true) eqn:E.
    + destruct (upsert_summary tbl DEFAULT_UNIVERSE) as (added & Eu & Hlen & Hagain).
      exists added. split; [exact Eu|]. split; [exact Hlen|].
      unfold ensure_seed.
      destruct (get_universe (tbl ++ added)%list true) eqn:E'; [exact Hagain | reflexivity].
    + exists []. rewrite app_nil_r. split; [reflexivity|]. split; [cbn; lia|].
      unfold ensure_seed. now rewrite E.
Qed.

End UniverseFacts.


(** The default batch, offered twice. *)
Lemma upsert_never_updates_witness :
  let tbl := fst (Universe.upsert_universe_rows Scenario.ascii_strip []
                    Universe.DEFAULT_UNIVERSE) in
  Universe.upsert_universe_rows Scenario.ascii_strip tbl Universe.DEFAULT_UNIVERSE
  = (tbl, 0).
Proof.
  exact (proj2 (upsert_never_updates Scenario.ascii_strip []
                  Universe.DEFAULT_UNIVERSE)).
Defined.

(** [ensure_seed] on an empty table, then once more. *)
Lemma ensure_seed_once_witness :
  exists added,
    Universe.ensure_seed Scenario.ascii_strip [] = (added, Z.of_nat (length added))
    /\ Universe.ensure_seed Scenario.ascii_strip added = (added, 0).
Proof.
  destruct (ensure_seed_once Scenario.ascii_strip []) as (_ & added & E & _ & E').
  exists added. split; [exact E | exact E'].
Defined.
